(** * tomox/lending_state: the per-order-book state object

    A shallow embedding of [state_lendingbook.go] (package [lending_state]):
    the [lendingExchangeState] object with its four lazily opened tries, its
    live caches of sub-state objects, its dirty sets, the memoised database
    error and the one-shot owner notification.

    Layout: the embedding (data, effects, every method of the file, a
    reference platform and the concrete scenarios) comes first; lemmas and
    the properties of the specification follow. *)

From Stdlib Require Import NArith Strings.Byte Lia.
From stdpp Require Import base decidable countable option list gmap strings.

Open Scope N_scope.

(** ** Bytes and hashes *)

Abbreviation byte := Byte.byte.
Abbreviation bytes := (list Byte.byte).

(** [common.Hash] is [[32]byte]; it is held as the number its thirty-two
    bytes spell in big-endian order (a 256-bit value). *)
Abbreviation Hash := N.

Definition HashLength : nat := 32.

Definition valid_hash (h : Hash) : Prop := h < 256 ^ N.of_nat HashLength.

Definition byte_of_N (n : N) : byte := default Byte.x00 (Byte.of_N (n mod 256)).

(** The [len] low-order base-256 digits of [n], most significant first. *)
Fixpoint be_bytes (len : nat) (n : N) : bytes :=
  match len with
  | O => []
  | S l => byte_of_N (n / 256 ^ N.of_nat l) :: be_bytes l n
  end.

(** The number a byte string spells in big-endian order
    ([new(big.Int).SetBytes]). *)
Definition BytesToN (b : bytes) : N :=
  fold_left (fun acc x => acc * 256 + Byte.to_N x) b 0.

(** [h[:]]: the thirty-two bytes of a hash. *)
Definition hashBytes (h : Hash) : bytes := be_bytes HashLength h.

(** [common.BytesToHash]: a slice longer than a hash is cropped from the
    left, a shorter one is left-padded with zero bytes. *)
Definition BytesToHash (b : bytes) : Hash :=
  BytesToN (drop (length b - HashLength) b).

(** [common.BigToHash(new(big.Int).SetUint64(x))]: the big-endian bytes of
    the integer, cropped to the width of a hash. *)
Definition BigToHash (x : N) : Hash := x mod 256 ^ N.of_nat HashLength.

(** [bytes.Compare]: lexicographic comparison of byte strings. *)
Fixpoint bytes_compare (a b : bytes) : comparison :=
  match a, b with
  | [], [] => Eq
  | [], _ :: _ => Lt
  | _ :: _, [] => Gt
  | x :: a', y :: b' =>
      match N.compare (Byte.to_N x) (Byte.to_N y) with
      | Eq => bytes_compare a' b'
      | c => c
      end
  end.

Definition bytes_leb (a b : bytes) : bool :=
  match bytes_compare a b with Gt => false | _ => true end.

Definition bytes_le (a b : bytes) : Prop := bytes_leb a b = true.

Definition bytes_eqb (a b : bytes) : bool :=
  match bytes_compare a b with Eq => true | _ => false end.

(** Go's [error] values are carried as their message; [nil] is [None]. *)
Abbreviation error := string.

(** ** The persistence layer the state object consumes

    [database.Trie] and [database.Database] are interfaces; the state
    object is written against them, and so is the embedding.  A trie handle
    is a value here: a Go call that mutates the handle returns the new
    handle. *)

Class Persistence := {
  Trie : Type;
  Database : Type;
  (** The nested store of an item list (its own trie and pending members). *)
  Nested : Type;
  TryGet : Trie -> bytes -> bytes * option error;
  TryUpdate : Trie -> bytes -> bytes -> Trie * option error;
  TryDelete : Trie -> bytes -> Trie * option error;
  TrieHash : Trie -> Hash;
  (** [Commit(onleaf)]: the committed handle, the root and the error ... *)
  Commit : Trie -> Trie * (Hash * option error);
  (** ... and the (leaf, parent) pairs the commit hands to [onleaf]. *)
  CommitLeaves : Trie -> list (bytes * Hash);
  TryGetBestLeftKeyAndValue : Trie -> bytes * bytes * option error;
  TryGetBestRightKeyAndValue : Trie -> bytes * bytes * option error;
  (** [OpenStorageTrie(owner, root)]: the handle is [nil] ([None]) when the
      call hands none back. *)
  OpenStorageTrie : Database -> Hash -> Hash -> option Trie * option error;
  CopyTrie : Database -> Trie -> Trie;
  newNested : Nested;
  copyNested : Database -> Nested -> Nested;
  (** The package constants [EmptyHash] and [EmptyRoot]. *)
  EmptyHash : Hash;
  EmptyRoot : Hash
}.

(** ** Records of the package *)

(** Modelled from the spec: [lendingObject], the persisted root record of an
    order book (section 3): a nonce and four trie roots. *)
Record lendingObject := {
  Nonce : N;
  InvestingRoot : Hash;
  BorrowingRoot : Hash;
  LendingItemRoot : Hash;
  LiquidationTimeRoot : Hash
}.

(** Modelled from the spec: [itemList], the payload of a leaf (section 3): the
    root of the nested contents and a scalar summary. *)
Record itemList := {
  Volume : N;
  Root : Hash
}.

(** [itemList{}] *)
Definition itemList_zero : itemList := {| Volume := 0; Root := 0 |}.

(** Modelled from the spec: [LendingItem], the full order record (section 3);
    [OrderID] is a [uint64]. *)
Record LendingItem := {
  OrderID : N;
  Side : string;
  Interest : N;
  Quantity : N;
  Owner : Hash;
  Term : N
}.

(** Heap addresses of [*lendingExchangeState] values. *)
Abbreviation addr := nat.

(** The four method values [self.Mark...Dirty] of an exchange state. *)
Inductive marker :=
| BorrowingMarker
| InvestingMarker
| LendingItemMarker
| LiquidationTimeMarker.

(** A method value bound to its receiver: [recv.Mark...Dirty]. *)
Record dirtyCallback := {
  cb_recv : addr;
  cb_method : marker
}.

Inductive orderType := INVESTING | BORROWING.

(** The owner-level callback [onDirty func(hash common.Hash)] is a closure of
    the owning collection; it is identified by a number, and each call is
    recorded as an event. *)
Abbreviation ownerCallback := nat.

Inductive trieSlot :=
| InvestingSlot
| BorrowingSlot
| LendingSlot
| LiquidationTimeSlot.

(** What a method does besides changing its receiver. *)
Inductive event :=
| OnDirty (cb : ownerCallback) (h : Hash)
| LogError (msg : string)
| LogDebug (msg : string)
| TrieCommit (slot : trieSlot)
| Reference (child parent : Hash).

(** ** Effects: state, events, panics *)

Inductive outcome (St A : Type) :=
| Done (a : A) (s : St) (evs : list event)
| Panic (msg : string).
Arguments Done {St A} a s evs.
Arguments Panic {St A} msg.

Definition M (St A : Type) : Type := St -> outcome St A.

#[global] Instance M_ret {St} : MRet (M St) :=
  fun A (a : A) s => Done a s [].

#[global] Instance M_bind {St} : MBind (M St) :=
  fun A B (f : A -> M St B) (m : M St A) s =>
    match m s with
    | Done a s1 evs1 =>
        match f a s1 with
        | Done b s2 evs2 => Done b s2 (evs1 ++ evs2)
        | Panic msg => Panic msg
        end
    | Panic msg => Panic msg
    end.

Definition get {St} : M St St := fun s => Done s s [].
Definition put {St} (s : St) : M St unit := fun _ => Done tt s [].
Definition modify {St} (f : St -> St) : M St unit := fun s => Done tt (f s) [].
Definition emit {St} (e : event) : M St unit := fun s => Done tt s [e].
Definition panic {St A} (msg : string) : M St A := fun _ => Panic msg.

(** A loop [for _, x := range xs { body }]. *)
Fixpoint forEach {St A} (xs : list A) (body : A -> M St unit) : M St unit :=
  match xs with
  | [] => mret tt
  | x :: xs' => body x ;; forEach xs' body
  end.

Section Embedding.
Context `{Persistence}.

(** [*LendingStateDB], the owning collection, as far as this file uses it:
    [db.db] is the database. *)
Record LendingStateDB := {
  sdb_db : Database
}.

(** ** Sub-state objects

    [itemListState], [liquidationTimeState] and [lendingItemState] are
    declared in sibling files; this file builds them, stores them and calls
    a few of their methods. *)

(** Modelled from the spec: [itemListState] (sections 3 and 4.2), the item
    list of one price level with the arguments [newItemListState] receives,
    its nested store and its back-reference to the parent's dirty marker. *)
Record itemListState := {
  il_db : LendingStateDB;
  il_orderType : orderType;
  il_lendingBook : Hash;
  price : Hash;
  il_data : itemList;
  il_nested : Nested;
  il_onDirty : option dirtyCallback
}.

(** Modelled from the spec: [liquidationTimeState] (sections 3 and 4.2), with
    the arguments [newLiquidationTimeState] receives. *)
Record liquidationTimeState := {
  lt_db : LendingStateDB;
  lt_lendingBook : Hash;
  lt_time : Hash;
  lt_data : itemList;
  lt_nested : Nested;
  lt_onDirty : option dirtyCallback
}.

(** Modelled from the spec: [lendingItemState] (section 4.3), one
    [LendingItem] leaf, with the arguments [newLendinItemState] receives. *)
Record lendingItemState := {
  li_lendingBook : Hash;
  li_orderId : Hash;
  li_data : LendingItem;
  li_onDirty : option dirtyCallback
}.

(** Modelled from the spec: the constructors of the sub-state objects, which
    store their arguments and start with an empty nested store. *)
Definition newItemListState (db : LendingStateDB) (ty : orderType)
    (lendingBook rate : Hash) (data : itemList)
    (onDirty : option dirtyCallback) : itemListState :=
  {| il_db := db; il_orderType := ty; il_lendingBook := lendingBook;
     price := rate; il_data := data; il_nested := newNested;
     il_onDirty := onDirty |}.

Definition newLiquidationTimeState (db : LendingStateDB)
    (lendingBook time : Hash) (data : itemList)
    (onDirty : option dirtyCallback) : liquidationTimeState :=
  {| lt_db := db; lt_lendingBook := lendingBook; lt_time := time;
     lt_data := data; lt_nested := newNested; lt_onDirty := onDirty |}.

Definition newLendinItemState (lendingBook orderId : Hash)
    (data : LendingItem) (onDirty : option dirtyCallback) : lendingItemState :=
  {| li_lendingBook := lendingBook; li_orderId := orderId; li_data := data;
     li_onDirty := onDirty |}.

(** The methods of the sub-state objects and the RLP codec this file calls. *)
Class SubStates := {
  (** [rlp.EncodeToBytes(obj)] for the three sub-state objects *)
  rlpEncodeItemListState : itemListState -> bytes + error;
  rlpEncodeLiquidationTimeState : liquidationTimeState -> bytes + error;
  rlpEncodeLendingItemState : lendingItemState -> bytes + error;
  (** [rlp.DecodeBytes(enc, &data)] for the two payload types *)
  rlpDecodeItemList : bytes -> itemList + error;
  rlpDecodeLendingItem : bytes -> LendingItem + error;
  (** [obj.empty()] *)
  itemListState_empty : itemListState -> bool;
  liquidationTimeState_empty : liquidationTimeState -> bool;
  lendingItemState_empty : lendingItemState -> bool;
  (** [obj.updateRoot(db)] *)
  itemListState_updateRoot : Database -> itemListState -> itemListState;
  liquidationTimeState_updateRoot :
    Database -> liquidationTimeState -> liquidationTimeState
}.
Context `{SubStates}.

(** Modelled from the spec: [deepCopy] of the sub-state objects (section
    4.2): the copy keeps the record, clones the nested store and is bound to
    the dirty marker it is handed. *)
Definition itemListState_deepCopy (db : LendingStateDB)
    (onDirty : option dirtyCallback) (o : itemListState) : itemListState :=
  {| il_db := il_db o; il_orderType := il_orderType o;
     il_lendingBook := il_lendingBook o; price := price o;
     il_data := il_data o;
     il_nested := copyNested (sdb_db db) (il_nested o);
     il_onDirty := onDirty |}.

(** Modelled from the spec: [deepCopy] of a liquidation-time list, as for an
    item list. *)
Definition liquidationTimeState_deepCopy (db : LendingStateDB)
    (onDirty : option dirtyCallback) (o : liquidationTimeState)
    : liquidationTimeState :=
  {| lt_db := lt_db o; lt_lendingBook := lt_lendingBook o;
     lt_time := lt_time o; lt_data := lt_data o;
     lt_nested := copyNested (sdb_db db) (lt_nested o);
     lt_onDirty := onDirty |}.

(** Modelled from the spec: [deepCopy] of a lending item (section 4.3): the
    record, bound to the dirty marker it is handed. *)
Definition lendingItemState_deepCopy (onDirty : option dirtyCallback)
    (o : lendingItemState) : lendingItemState :=
  {| li_lendingBook := li_lendingBook o; li_orderId := li_orderId o;
     li_data := li_data o; li_onDirty := onDirty |}.

(** ** [lendingExchangeState] *)

Record lendingExchangeState := {
  lendingBook : Hash;
  data : lendingObject;
  db : LendingStateDB;
  dbErr : option error;
  investingTrie : option Trie;
  borrowingTrie : option Trie;
  lendingTrie : option Trie;
  liquidationTimeTrie : option Trie;
  liquidationTimeStates : gmap Hash liquidationTimeState;
  liquidationTimestatesDirty : gset Hash;
  investingStates : gmap Hash itemListState;
  investingStatesDirty : gset Hash;
  borrowingStates : gmap Hash itemListState;
  borrowingStatesDirty : gset Hash;
  lendingItemStates : gmap Hash lendingItemState;
  lendingItemStatesDirty : gset Hash;
  onDirty : option ownerCallback
}.

(** Field assignments. *)
Definition set_data (v : lendingObject) (s : lendingExchangeState) :=
  {| lendingBook := lendingBook s; data := v; db := db s; dbErr := dbErr s;
     investingTrie := investingTrie s; borrowingTrie := borrowingTrie s;
     lendingTrie := lendingTrie s;
     liquidationTimeTrie := liquidationTimeTrie s;
     liquidationTimeStates := liquidationTimeStates s;
     liquidationTimestatesDirty := liquidationTimestatesDirty s;
     investingStates := investingStates s;
     investingStatesDirty := investingStatesDirty s;
     borrowingStates := borrowingStates s;
     borrowingStatesDirty := borrowingStatesDirty s;
     lendingItemStates := lendingItemStates s;
     lendingItemStatesDirty := lendingItemStatesDirty s;
     onDirty := onDirty s |}.

Definition set_dbErr (v : option error) (s : lendingExchangeState) :=
  {| lendingBook := lendingBook s; data := data s; db := db s; dbErr := v;
     investingTrie := investingTrie s; borrowingTrie := borrowingTrie s;
     lendingTrie := lendingTrie s;
     liquidationTimeTrie := liquidationTimeTrie s;
     liquidationTimeStates := liquidationTimeStates s;
     liquidationTimestatesDirty := liquidationTimestatesDirty s;
     investingStates := investingStates s;
     investingStatesDirty := investingStatesDirty s;
     borrowingStates := borrowingStates s;
     borrowingStatesDirty := borrowingStatesDirty s;
     lendingItemStates := lendingItemStates s;
     lendingItemStatesDirty := lendingItemStatesDirty s;
     onDirty := onDirty s |}.

Definition set_investingTrie (v : option Trie) (s : lendingExchangeState) :=
  {| lendingBook := lendingBook s; data := data s; db := db s;
     dbErr := dbErr s;
     investingTrie := v; borrowingTrie := borrowingTrie s;
     lendingTrie := lendingTrie s;
     liquidationTimeTrie := liquidationTimeTrie s;
     liquidationTimeStates := liquidationTimeStates s;
     liquidationTimestatesDirty := liquidationTimestatesDirty s;
     investingStates := investingStates s;
     investingStatesDirty := investingStatesDirty s;
     borrowingStates := borrowingStates s;
     borrowingStatesDirty := borrowingStatesDirty s;
     lendingItemStates := lendingItemStates s;
     lendingItemStatesDirty := lendingItemStatesDirty s;
     onDirty := onDirty s |}.

Definition set_borrowingTrie (v : option Trie) (s : lendingExchangeState) :=
  {| lendingBook := lendingBook s; data := data s; db := db s;
     dbErr := dbErr s;
     investingTrie := investingTrie s; borrowingTrie := v;
     lendingTrie := lendingTrie s;
     liquidationTimeTrie := liquidationTimeTrie s;
     liquidationTimeStates := liquidationTimeStates s;
     liquidationTimestatesDirty := liquidationTimestatesDirty s;
     investingStates := investingStates s;
     investingStatesDirty := investingStatesDirty s;
     borrowingStates := borrowingStates s;
     borrowingStatesDirty := borrowingStatesDirty s;
     lendingItemStates := lendingItemStates s;
     lendingItemStatesDirty := lendingItemStatesDirty s;
     onDirty := onDirty s |}.

Definition set_lendingTrie (v : option Trie) (s : lendingExchangeState) :=
  {| lendingBook := lendingBook s; data := data s; db := db s;
     dbErr := dbErr s;
     investingTrie := investingTrie s; borrowingTrie := borrowingTrie s;
     lendingTrie := v;
     liquidationTimeTrie := liquidationTimeTrie s;
     liquidationTimeStates := liquidationTimeStates s;
     liquidationTimestatesDirty := liquidationTimestatesDirty s;
     investingStates := investingStates s;
     investingStatesDirty := investingStatesDirty s;
     borrowingStates := borrowingStates s;
     borrowingStatesDirty := borrowingStatesDirty s;
     lendingItemStates := lendingItemStates s;
     lendingItemStatesDirty := lendingItemStatesDirty s;
     onDirty := onDirty s |}.

Definition set_liquidationTimeTrie (v : option Trie)
    (s : lendingExchangeState) :=
  {| lendingBook := lendingBook s; data := data s; db := db s;
     dbErr := dbErr s;
     investingTrie := investingTrie s; borrowingTrie := borrowingTrie s;
     lendingTrie := lendingTrie s;
     liquidationTimeTrie := v;
     liquidationTimeStates := liquidationTimeStates s;
     liquidationTimestatesDirty := liquidationTimestatesDirty s;
     investingStates := investingStates s;
     investingStatesDirty := investingStatesDirty s;
     borrowingStates := borrowingStates s;
     borrowingStatesDirty := borrowingStatesDirty s;
     lendingItemStates := lendingItemStates s;
     lendingItemStatesDirty := lendingItemStatesDirty s;
     onDirty := onDirty s |}.

Definition set_liquidationTimeStates (v : gmap Hash liquidationTimeState)
    (s : lendingExchangeState) :=
  {| lendingBook := lendingBook s; data := data s; db := db s;
     dbErr := dbErr s;
     investingTrie := investingTrie s; borrowingTrie := borrowingTrie s;
     lendingTrie := lendingTrie s;
     liquidationTimeTrie := liquidationTimeTrie s;
     liquidationTimeStates := v;
     liquidationTimestatesDirty := liquidationTimestatesDirty s;
     investingStates := investingStates s;
     investingStatesDirty := investingStatesDirty s;
     borrowingStates := borrowingStates s;
     borrowingStatesDirty := borrowingStatesDirty s;
     lendingItemStates := lendingItemStates s;
     lendingItemStatesDirty := lendingItemStatesDirty s;
     onDirty := onDirty s |}.

Definition set_liquidationTimestatesDirty (v : gset Hash)
    (s : lendingExchangeState) :=
  {| lendingBook := lendingBook s; data := data s; db := db s;
     dbErr := dbErr s;
     investingTrie := investingTrie s; borrowingTrie := borrowingTrie s;
     lendingTrie := lendingTrie s;
     liquidationTimeTrie := liquidationTimeTrie s;
     liquidationTimeStates := liquidationTimeStates s;
     liquidationTimestatesDirty := v;
     investingStates := investingStates s;
     investingStatesDirty := investingStatesDirty s;
     borrowingStates := borrowingStates s;
     borrowingStatesDirty := borrowingStatesDirty s;
     lendingItemStates := lendingItemStates s;
     lendingItemStatesDirty := lendingItemStatesDirty s;
     onDirty := onDirty s |}.

Definition set_investingStates (v : gmap Hash itemListState)
    (s : lendingExchangeState) :=
  {| lendingBook := lendingBook s; data := data s; db := db s;
     dbErr := dbErr s;
     investingTrie := investingTrie s; borrowingTrie := borrowingTrie s;
     lendingTrie := lendingTrie s;
     liquidationTimeTrie := liquidationTimeTrie s;
     liquidationTimeStates := liquidationTimeStates s;
     liquidationTimestatesDirty := liquidationTimestatesDirty s;
     investingStates := v;
     investingStatesDirty := investingStatesDirty s;
     borrowingStates := borrowingStates s;
     borrowingStatesDirty := borrowingStatesDirty s;
     lendingItemStates := lendingItemStates s;
     lendingItemStatesDirty := lendingItemStatesDirty s;
     onDirty := onDirty s |}.

Definition set_investingStatesDirty (v : gset Hash)
    (s : lendingExchangeState) :=
  {| lendingBook := lendingBook s; data := data s; db := db s;
     dbErr := dbErr s;
     investingTrie := investingTrie s; borrowingTrie := borrowingTrie s;
     lendingTrie := lendingTrie s;
     liquidationTimeTrie := liquidationTimeTrie s;
     liquidationTimeStates := liquidationTimeStates s;
     liquidationTimestatesDirty := liquidationTimestatesDirty s;
     investingStates := investingStates s;
     investingStatesDirty := v;
     borrowingStates := borrowingStates s;
     borrowingStatesDirty := borrowingStatesDirty s;
     lendingItemStates := lendingItemStates s;
     lendingItemStatesDirty := lendingItemStatesDirty s;
     onDirty := onDirty s |}.

Definition set_borrowingStates (v : gmap Hash itemListState)
    (s : lendingExchangeState) :=
  {| lendingBook := lendingBook s; data := data s; db := db s;
     dbErr := dbErr s;
     investingTrie := investingTrie s; borrowingTrie := borrowingTrie s;
     lendingTrie := lendingTrie s;
     liquidationTimeTrie := liquidationTimeTrie s;
     liquidationTimeStates := liquidationTimeStates s;
     liquidationTimestatesDirty := liquidationTimestatesDirty s;
     investingStates := investingStates s;
     investingStatesDirty := investingStatesDirty s;
     borrowingStates := v;
     borrowingStatesDirty := borrowingStatesDirty s;
     lendingItemStates := lendingItemStates s;
     lendingItemStatesDirty := lendingItemStatesDirty s;
     onDirty := onDirty s |}.

Definition set_borrowingStatesDirty (v : gset Hash)
    (s : lendingExchangeState) :=
  {| lendingBook := lendingBook s; data := data s; db := db s;
     dbErr := dbErr s;
     investingTrie := investingTrie s; borrowingTrie := borrowingTrie s;
     lendingTrie := lendingTrie s;
     liquidationTimeTrie := liquidationTimeTrie s;
     liquidationTimeStates := liquidationTimeStates s;
     liquidationTimestatesDirty := liquidationTimestatesDirty s;
     investingStates := investingStates s;
     investingStatesDirty := investingStatesDirty s;
     borrowingStates := borrowingStates s;
     borrowingStatesDirty := v;
     lendingItemStates := lendingItemStates s;
     lendingItemStatesDirty := lendingItemStatesDirty s;
     onDirty := onDirty s |}.

Definition set_lendingItemStates (v : gmap Hash lendingItemState)
    (s : lendingExchangeState) :=
  {| lendingBook := lendingBook s; data := data s; db := db s;
     dbErr := dbErr s;
     investingTrie := investingTrie s; borrowingTrie := borrowingTrie s;
     lendingTrie := lendingTrie s;
     liquidationTimeTrie := liquidationTimeTrie s;
     liquidationTimeStates := liquidationTimeStates s;
     liquidationTimestatesDirty := liquidationTimestatesDirty s;
     investingStates := investingStates s;
     investingStatesDirty := investingStatesDirty s;
     borrowingStates := borrowingStates s;
     borrowingStatesDirty := borrowingStatesDirty s;
     lendingItemStates := v;
     lendingItemStatesDirty := lendingItemStatesDirty s;
     onDirty := onDirty s |}.

Definition set_lendingItemStatesDirty (v : gset Hash)
    (s : lendingExchangeState) :=
  {| lendingBook := lendingBook s; data := data s; db := db s;
     dbErr := dbErr s;
     investingTrie := investingTrie s; borrowingTrie := borrowingTrie s;
     lendingTrie := lendingTrie s;
     liquidationTimeTrie := liquidationTimeTrie s;
     liquidationTimeStates := liquidationTimeStates s;
     liquidationTimestatesDirty := liquidationTimestatesDirty s;
     investingStates := investingStates s;
     investingStatesDirty := investingStatesDirty s;
     borrowingStates := borrowingStates s;
     borrowingStatesDirty := borrowingStatesDirty s;
     lendingItemStates := lendingItemStates s;
     lendingItemStatesDirty := v;
     onDirty := onDirty s |}.

Definition set_onDirty (v : option ownerCallback)
    (s : lendingExchangeState) :=
  {| lendingBook := lendingBook s; data := data s; db := db s;
     dbErr := dbErr s;
     investingTrie := investingTrie s; borrowingTrie := borrowingTrie s;
     lendingTrie := lendingTrie s;
     liquidationTimeTrie := liquidationTimeTrie s;
     liquidationTimeStates := liquidationTimeStates s;
     liquidationTimestatesDirty := liquidationTimestatesDirty s;
     investingStates := investingStates s;
     investingStatesDirty := investingStatesDirty s;
     borrowingStates := borrowingStates s;
     borrowingStatesDirty := borrowingStatesDirty s;
     lendingItemStates := lendingItemStates s;
     lendingItemStatesDirty := lendingItemStatesDirty s;
     onDirty := v |}.

Definition set_Nonce (v : N) (d : lendingObject) : lendingObject :=
  {| Nonce := v; InvestingRoot := InvestingRoot d;
     BorrowingRoot := BorrowingRoot d; LendingItemRoot := LendingItemRoot d;
     LiquidationTimeRoot := LiquidationTimeRoot d |}.

Definition set_InvestingRoot (v : Hash) (d : lendingObject) : lendingObject :=
  {| Nonce := Nonce d; InvestingRoot := v;
     BorrowingRoot := BorrowingRoot d; LendingItemRoot := LendingItemRoot d;
     LiquidationTimeRoot := LiquidationTimeRoot d |}.

Definition set_BorrowingRoot (v : Hash) (d : lendingObject) : lendingObject :=
  {| Nonce := Nonce d; InvestingRoot := InvestingRoot d;
     BorrowingRoot := v; LendingItemRoot := LendingItemRoot d;
     LiquidationTimeRoot := LiquidationTimeRoot d |}.

Definition set_LendingItemRoot (v : Hash) (d : lendingObject)
    : lendingObject :=
  {| Nonce := Nonce d; InvestingRoot := InvestingRoot d;
     BorrowingRoot := BorrowingRoot d; LendingItemRoot := v;
     LiquidationTimeRoot := LiquidationTimeRoot d |}.

Definition set_LiquidationTimeRoot (v : Hash) (d : lendingObject)
    : lendingObject :=
  {| Nonce := Nonce d; InvestingRoot := InvestingRoot d;
     BorrowingRoot := BorrowingRoot d; LendingItemRoot := LendingItemRoot d;
     LiquidationTimeRoot := v |}.

(** The methods of one exchange state run in [X]. *)
Abbreviation X := (M lendingExchangeState).

Definition trieOf (slot : trieSlot) (s : lendingExchangeState)
    : option Trie :=
  match slot with
  | InvestingSlot => investingTrie s
  | BorrowingSlot => borrowingTrie s
  | LendingSlot => lendingTrie s
  | LiquidationTimeSlot => liquidationTimeTrie s
  end.

Definition setTrie (slot : trieSlot) (t : option Trie)
    (s : lendingExchangeState) : lendingExchangeState :=
  match slot with
  | InvestingSlot => set_investingTrie t s
  | BorrowingSlot => set_borrowingTrie t s
  | LendingSlot => set_lendingTrie t s
  | LiquidationTimeSlot => set_liquidationTimeTrie t s
  end.

Definition nilDereference : string :=
  "invalid memory address or nil pointer dereference".

(** A call [self.<slot>Trie.f(...)] that may change the handle; a nil
    handle panics. *)
Definition onTrie {A} (slot : trieSlot) (f : Trie -> Trie * A) : X A :=
  s ← get;
  match trieOf slot s with
  | None => panic nilDereference
  | Some t =>
      let '(t', a) := f t in
      put (setTrie slot (Some t') s) ;; mret a
  end.

(** A call that only reads the handle. *)
Definition readTrie {A} (slot : trieSlot) (f : Trie -> A) : X A :=
  s ← get;
  match trieOf slot s with
  | None => panic nilDereference
  | Some t => mret (f t)
  end.

(** ** The methods of [state_lendingbook.go] *)



Definition newStateExchanges (sdb : LendingStateDB) (hash : Hash)
    (d : lendingObject) (cb : option ownerCallback) : lendingExchangeState :=
  {| lendingBook := hash; data := d; db := sdb; dbErr := None;
     investingTrie := None; borrowingTrie := None; lendingTrie := None;
     liquidationTimeTrie := None;
     liquidationTimeStates := ∅; liquidationTimestatesDirty := ∅;
     investingStates := ∅; investingStatesDirty := ∅;
     borrowingStates := ∅; borrowingStatesDirty := ∅;
     lendingItemStates := ∅; lendingItemStatesDirty := ∅;
     onDirty := cb |}.

(** [setError] remembers the first non-nil error it is called with. *)
Definition setError (err : option error) : X unit :=
  s ← get;
  match dbErr s with
  | None => put (set_dbErr err s)
  | Some _ => mret tt
  end.

(** *** Get Trie *)

(** The body shared by the four [get...Trie] methods: open the trie of the
    slot on first use; when that fails, open the empty trie instead and
    memoise the error. *)
Definition openTrie (slot : trieSlot) (root : lendingObject -> Hash)
    (what : string) (d : Database) : X (option Trie) :=
  s ← get;
  match trieOf slot s with
  | Some t => mret (Some t)
  | None =>
      let '(t, err) := OpenStorageTrie d (lendingBook s) (root (data s)) in
      put (setTrie slot t s) ;;
      match err with
      | Some e =>
          let '(t', _) := OpenStorageTrie d (lendingBook s) EmptyHash in
          modify (setTrie slot t') ;;
          setError (Some (String.append what e))
      | None => mret tt
      end ;;
      s' ← get;
      mret (trieOf slot s')
  end.

Definition getLendingItemTrie (d : Database) : X (option Trie) :=
  openTrie LendingSlot LendingItemRoot "can't create Lendings trie: " d.

Definition getInvestingTrie (d : Database) : X (option Trie) :=
  openTrie InvestingSlot InvestingRoot "can't create Lendings trie: " d.

Definition getBorrowingTrie (d : Database) : X (option Trie) :=
  openTrie BorrowingSlot BorrowingRoot "can't create bids trie: " d.

Definition getLiquidationTimeTrie (d : Database) : X (option Trie) :=
  openTrie LiquidationTimeSlot LiquidationTimeRoot
    "can't create bids trie: " d.

(** [tr.TryGet(key)] on the handle a [get...Trie] call returned. *)
Definition tryGetOn (tr : option Trie) (key : bytes)
    : X (bytes * option error) :=
  match tr with
  | None => panic nilDereference
  | Some t => mret (TryGet t key)
  end.

(** *** Get State *)

Definition getBorrowingOrderList (self : addr) (d : Database) (rate : Hash)
    : X (option itemListState) :=
  s ← get;
  match borrowingStates s !! rate with
  | Some obj => mret (Some obj)
  | None =>
      tr ← getBorrowingTrie d;
      '(enc, err) ← tryGetOn tr (hashBytes rate);
      if decide (length enc = 0%nat) then setError err ;; mret None
      else
        match rlpDecodeItemList enc with
        | inr _ =>
            emit (LogError "Failed to decode state order list object") ;;
            mret None
        | inl dat =>
            s1 ← get;
            let obj :=
              newItemListState (db s1) BORROWING (lendingBook s1) rate dat
                (Some {| cb_recv := self; cb_method := BorrowingMarker |}) in
            put (set_borrowingStates (<[rate := obj]> (borrowingStates s1)) s1) ;;
            mret (Some obj)
        end
  end.

Definition getInvestingOrderList (self : addr) (d : Database) (rate : Hash)
    : X (option itemListState) :=
  s ← get;
  match investingStates s !! rate with
  | Some obj => mret (Some obj)
  | None =>
      tr ← getInvestingTrie d;
      '(enc, err) ← tryGetOn tr (hashBytes rate);
      if decide (length enc = 0%nat) then setError err ;; mret None
      else
        match rlpDecodeItemList enc with
        | inr _ =>
            emit (LogError "Failed to decode state order list object") ;;
            mret None
        | inl dat =>
            s1 ← get;
            let obj :=
              newItemListState (db s1) INVESTING (lendingBook s1) rate dat
                (Some {| cb_recv := self; cb_method := BorrowingMarker |}) in
            put (set_investingStates (<[rate := obj]> (investingStates s1)) s1) ;;
            mret (Some obj)
        end
  end.

Definition getLiquidationTimeOrderList (self : addr) (d : Database)
    (time : Hash) : X (option liquidationTimeState) :=
  s ← get;
  match liquidationTimeStates s !! time with
  | Some obj => mret (Some obj)
  | None =>
      tr ← getLiquidationTimeTrie d;
      '(enc, err) ← tryGetOn tr (hashBytes time);
      if decide (length enc = 0%nat) then setError err ;; mret None
      else
        match rlpDecodeItemList enc with
        | inr _ =>
            emit (LogError "Failed to decode state liquidation time") ;;
            mret None
        | inl dat =>
            s1 ← get;
            let obj :=
              newLiquidationTimeState (db s1) (lendingBook s1) time dat
                (Some {| cb_recv := self; cb_method := InvestingMarker |}) in
            put (set_liquidationTimeStates
                   (<[time := obj]> (liquidationTimeStates s1)) s1) ;;
            mret (Some obj)
        end
  end.

Definition getLendingItem (self : addr) (d : Database) (lendingId : Hash)
    : X (option lendingItemState) :=
  s ← get;
  match lendingItemStates s !! lendingId with
  | Some obj => mret (Some obj)
  | None =>
      tr ← getLendingItemTrie d;
      '(enc, err) ← tryGetOn tr (hashBytes lendingId);
      if decide (length enc = 0%nat) then setError err ;; mret None
      else
        match rlpDecodeLendingItem enc with
        | inr _ =>
            emit (LogError "Failed to decode state lending item") ;;
            mret None
        | inl dat =>
            s1 ← get;
            let obj :=
              newLendinItemState (lendingBook s1) lendingId dat
                (Some {| cb_recv := self; cb_method := LendingItemMarker |}) in
            put (set_lendingItemStates
                   (<[lendingId := obj]> (lendingItemStates s1)) s1) ;;
            mret (Some obj)
        end
  end.

(** *** Update Trie

    [for key, obj := range cache] visits every key of the cache once, in an
    order Go leaves open; [order] is that order.  A key of [order] that is
    not in the cache is not visited. *)

(** [v, _ := rlp.EncodeToBytes(obj)] *)
Definition encoded (r : bytes + error) : bytes :=
  match r with inl v => v | inr _ => [] end.

Definition updateLendingTimeTrie (d : Database) (order : list Hash)
    : X (option Trie) :=
  getLendingItemTrie d ;;
  forEach order (fun lendingId =>
    s ← get;
    match lendingItemStates s !! lendingId with
    | None => mret tt
    | Some lendingItem =>
        if decide (lendingId ∈ lendingItemStatesDirty s) then
          put (set_lendingItemStatesDirty
                 (lendingItemStatesDirty s ∖ {[lendingId]}) s) ;;
          if lendingItemState_empty lendingItem then
            err ← onTrie LendingSlot
                    (fun t => TryDelete t (hashBytes lendingId));
            setError err
          else
            let v := encoded (rlpEncodeLendingItemState lendingItem) in
            err ← onTrie LendingSlot
                    (fun t => TryUpdate t (hashBytes lendingId) v);
            setError err
        else mret tt
    end) ;;
  s ← get;
  mret (lendingTrie s).

Definition updateBorrowingTrie (d : Database) (order : list Hash)
    : X (option Trie) :=
  getBorrowingTrie d ;;
  forEach order (fun rate =>
    s ← get;
    match borrowingStates s !! rate with
    | None => mret tt
    | Some orderList =>
        if decide (rate ∈ borrowingStatesDirty s) then
          put (set_borrowingStatesDirty
                 (borrowingStatesDirty s ∖ {[rate]}) s) ;;
          if itemListState_empty orderList then
            err ← onTrie BorrowingSlot
                    (fun t => TryDelete t (hashBytes rate));
            setError err
          else
            let orderList' := itemListState_updateRoot d orderList in
            modify (fun s1 =>
              set_borrowingStates
                (<[rate := orderList']> (borrowingStates s1)) s1) ;;
            let v := encoded (rlpEncodeItemListState orderList') in
            err ← onTrie BorrowingSlot
                    (fun t => TryUpdate t (hashBytes rate) v);
            setError err
        else mret tt
    end) ;;
  s ← get;
  mret (borrowingTrie s).

Definition updateInvestingTrie (d : Database) (order : list Hash)
    : X (option Trie) :=
  getInvestingTrie d ;;
  forEach order (fun rate =>
    s ← get;
    match investingStates s !! rate with
    | None => mret tt
    | Some orderList =>
        if decide (rate ∈ investingStatesDirty s) then
          put (set_investingStatesDirty
                 (investingStatesDirty s ∖ {[rate]}) s) ;;
          if itemListState_empty orderList then
            err ← onTrie InvestingSlot
                    (fun t => TryDelete t (hashBytes rate));
            setError err
          else
            let orderList' := itemListState_updateRoot d orderList in
            modify (fun s1 =>
              set_investingStates
                (<[rate := orderList']> (investingStates s1)) s1) ;;
            let v := encoded (rlpEncodeItemListState orderList') in
            err ← onTrie InvestingSlot
                    (fun t => TryUpdate t (hashBytes rate) v);
            setError err
        else mret tt
    end) ;;
  s ← get;
  mret (investingTrie s).

Definition updateLiquidationTimeTrie (d : Database) (order : list Hash)
    : X (option Trie) :=
  getLiquidationTimeTrie d ;;
  forEach order (fun time =>
    s ← get;
    match liquidationTimeStates s !! time with
    | None => mret tt
    | Some itemList =>
        if decide (time ∈ liquidationTimestatesDirty s) then
          put (set_liquidationTimestatesDirty
                 (liquidationTimestatesDirty s ∖ {[time]}) s) ;;
          if liquidationTimeState_empty itemList then
            err ← onTrie LiquidationTimeSlot
                    (fun t => TryDelete t (hashBytes time));
            setError err
          else
            let itemList' := liquidationTimeState_updateRoot d itemList in
            modify (fun s1 =>
              set_liquidationTimeStates
                (<[time := itemList']> (liquidationTimeStates s1)) s1) ;;
            let v := encoded (rlpEncodeLiquidationTimeState itemList') in
            err ← onTrie LiquidationTimeSlot
                    (fun t => TryUpdate t (hashBytes time) v);
            setError err
        else mret tt
    end) ;;
  s ← get;
  mret (liquidationTimeTrie s).

(** *** Update Root *)

Definition updateOrderRoot (d : Database) (order : list Hash) : X unit :=
  updateLendingTimeTrie d order ;;
  root ← readTrie LendingSlot TrieHash;
  modify (fun s => set_data (set_LendingItemRoot root (data s)) s).

Definition updateInvestingRoot (d : Database) (order : list Hash)
    : X (option error) :=
  updateInvestingTrie d order ;;
  s ← get;
  match dbErr s with
  | Some e => mret (Some e)
  | None =>
      root ← readTrie InvestingSlot TrieHash;
      modify (fun s1 => set_data (set_InvestingRoot root (data s1)) s1) ;;
      mret None
  end.

Definition updateBorrowingRoot (d : Database) (order : list Hash) : X unit :=
  updateBorrowingTrie d order ;;
  root ← readTrie BorrowingSlot TrieHash;
  modify (fun s => set_data (set_BorrowingRoot root (data s)) s).

Definition updateLiquidationTimeRoot (d : Database) (order : list Hash)
    : X unit :=
  updateLiquidationTimeTrie d order ;;
  root ← readTrie LiquidationTimeSlot TrieHash;
  modify (fun s => set_data (set_LiquidationTimeRoot root (data s)) s).

(** *** Commit Trie *)

(** The [onleaf] callback of the investing, borrowing and liquidation-time
    commits, applied to the leaves the commit visits: a leaf that decodes to
    a list with a non-empty root registers a parent-to-child reference. *)
Definition onleaf (leaf : bytes) (parent : Hash) : list event :=
  match rlpDecodeItemList leaf with
  | inr _ => []
  | inl orderList =>
      if decide (Root orderList = EmptyRoot) then []
      else [Reference (Root orderList) parent]
  end.

(** [self.<slot>Trie.Commit(cb)]; [withLeaves] tells whether a callback is
    passed ([CommitLendingItemTrie] passes [nil]). *)
Definition commitTrie (slot : trieSlot) (withLeaves : bool)
    : X (Hash * option error) :=
  s ← get;
  match trieOf slot s with
  | None => panic nilDereference
  | Some t =>
      emit (TrieCommit slot) ;;
      (if withLeaves
       then forEach (CommitLeaves t)
              (fun lp => forEach (onleaf lp.1 lp.2) emit)
       else mret tt) ;;
      let '(t', r) := Commit t in
      put (setTrie slot (Some t') s) ;; mret r
  end.

Definition CommitLendingItemTrie (d : Database) (order : list Hash)
    : X (option error) :=
  updateLendingTimeTrie d order ;;
  s ← get;
  match dbErr s with
  | Some e => mret (Some e)
  | None =>
      '(root, err) ← commitTrie LendingSlot false;
      match err with
      | None =>
          modify (fun s1 => set_data (set_LendingItemRoot root (data s1)) s1)
      | Some _ => mret tt
      end ;;
      mret err
  end.

Definition CommitInvestingTrie (d : Database) (order : list Hash)
    : X (option error) :=
  updateInvestingTrie d order ;;
  s ← get;
  match dbErr s with
  | Some e => mret (Some e)
  | None =>
      '(root, err) ← commitTrie InvestingSlot true;
      match err with
      | None =>
          modify (fun s1 => set_data (set_InvestingRoot root (data s1)) s1)
      | Some _ => mret tt
      end ;;
      mret err
  end.

Definition CommitBorrowingTrie (d : Database) (order : list Hash)
    : X (option error) :=
  updateBorrowingTrie d order ;;
  s ← get;
  match dbErr s with
  | Some e => mret (Some e)
  | None =>
      '(root, err) ← commitTrie BorrowingSlot true;
      match err with
      | None =>
          modify (fun s1 => set_data (set_BorrowingRoot root (data s1)) s1)
      | Some _ => mret tt
      end ;;
      mret err
  end.

Definition CommitLiquidationTimeTrie (d : Database) (order : list Hash)
    : X (option error) :=
  updateLiquidationTimeTrie d order ;;
  s ← get;
  match dbErr s with
  | Some e => mret (Some e)
  | None =>
      '(root, err) ← commitTrie LiquidationTimeSlot true;
      match err with
      | None =>
          modify (fun s1 =>
            set_data (set_LiquidationTimeRoot root (data s1)) s1)
      | Some _ => mret tt
      end ;;
      mret err
  end.

(** *** Get Trie Data *)

Definition getBestInvestingRate (d : Database) : X Hash :=
  tr ← getInvestingTrie d;
  match tr with
  | None => panic nilDereference
  | Some t =>
      let '(encKey, encValue, err) := TryGetBestLeftKeyAndValue t in
      match err with
      | Some _ =>
          emit (LogError "Failed find best investing rate") ;;
          mret EmptyHash
      | None =>
          if decide (length encKey = 0%nat ∨ length encValue = 0%nat) then
            emit (LogDebug "Not found get best investing rate") ;;
            mret EmptyHash
          else
            match rlpDecodeItemList encValue with
            | inr _ =>
                emit (LogError
                        "Failed to decode state get best investing rate") ;;
                mret EmptyHash
            | inl _ => mret (BytesToHash encKey)
            end
      end
  end.

Definition getBestBorrowingRate (d : Database) : X Hash :=
  tr ← getBorrowingTrie d;
  match tr with
  | None => panic nilDereference
  | Some t =>
      let '(encKey, encValue, err) := TryGetBestRightKeyAndValue t in
      match err with
      | Some _ =>
          emit (LogError "Failed find best price bid trie ") ;;
          mret EmptyHash
      | None =>
          if decide (length encKey = 0%nat ∨ length encValue = 0%nat) then
            emit (LogDebug "Not found get best bid trie") ;;
            mret EmptyHash
          else
            match rlpDecodeItemList encValue with
            | inr _ =>
                emit (LogError "Failed to decode state get best bid trie") ;;
                mret EmptyHash
            | inl _ => mret (BytesToHash encKey)
            end
      end
  end.

Definition getLowestLiquidationTime (self : addr) (d : Database)
    : X (Hash * option liquidationTimeState) :=
  tr ← getLiquidationTimeTrie d;
  match tr with
  | None => panic nilDereference
  | Some t =>
      let '(encKey, encValue, err) := TryGetBestLeftKeyAndValue t in
      match err with
      | Some _ =>
          emit (LogError "Failed find best liquidation time trie ") ;;
          mret (EmptyHash, None)
      | None =>
          if decide (length encKey = 0%nat ∨ length encValue = 0%nat) then
            emit (LogDebug "Not found get liquidation time trie") ;;
            mret (EmptyHash, None)
          else
            match rlpDecodeItemList encValue with
            | inr _ =>
                emit (LogError
                        "Failed to decode state get liquidation time trie") ;;
                mret (EmptyHash, None)
            | inl dat =>
                s ← get;
                let p := BytesToHash encKey in
                let obj :=
                  newLiquidationTimeState (db s) (lendingBook s) p dat
                    (Some {| cb_recv := self;
                             cb_method := LiquidationTimeMarker |}) in
                put (set_liquidationTimeStates
                       (<[p := obj]> (liquidationTimeStates s)) s) ;;
                mret (p, Some obj)
            end
      end
  end.

(** [deepCopy]: a fresh state for the same book and record; the investing,
    borrowing and lending tries are cloned when open (the liquidation-time
    trie is not carried over); every cached object is copied, bound to a
    dirty marker of the receiver [self]; every dirty key is copied. *)
Definition deepCopy (self : addr) (sdb : LendingStateDB)
    (cb : option ownerCallback) (s : lendingExchangeState)
    : lendingExchangeState :=
  let stateExchanges := newStateExchanges sdb (lendingBook s) (data s) cb in
  {| lendingBook := lendingBook stateExchanges;
     data := data stateExchanges;
     db := db stateExchanges;
     dbErr := dbErr stateExchanges;
     investingTrie := CopyTrie (sdb_db sdb) <$> investingTrie s;
     borrowingTrie := CopyTrie (sdb_db sdb) <$> borrowingTrie s;
     lendingTrie := CopyTrie (sdb_db sdb) <$> lendingTrie s;
     liquidationTimeTrie := liquidationTimeTrie stateExchanges;
     liquidationTimeStates :=
       liquidationTimeState_deepCopy sdb
         (Some {| cb_recv := self; cb_method := LiquidationTimeMarker |})
         <$> liquidationTimeStates s;
     liquidationTimestatesDirty := liquidationTimestatesDirty s;
     investingStates :=
       itemListState_deepCopy sdb
         (Some {| cb_recv := self; cb_method := InvestingMarker |})
         <$> investingStates s;
     investingStatesDirty := investingStatesDirty s;
     borrowingStates :=
       itemListState_deepCopy sdb
         (Some {| cb_recv := self; cb_method := BorrowingMarker |})
         <$> borrowingStates s;
     borrowingStatesDirty := borrowingStatesDirty s;
     lendingItemStates :=
       lendingItemState_deepCopy
         (Some {| cb_recv := self; cb_method := LendingItemMarker |})
         <$> lendingItemStates s;
     lendingItemStatesDirty := lendingItemStatesDirty s;
     onDirty := onDirty stateExchanges |}.

(** [Hash] returns the identifier of the order book. *)
Definition lendingExchangeState_Hash (s : lendingExchangeState) : Hash :=
  lendingBook s.

(** [if self.onDirty != nil { self.onDirty(self.Hash()); self.onDirty = nil }] *)
Definition notifyOwner : X unit :=
  s ← get;
  match onDirty s with
  | Some cb =>
      emit (OnDirty cb (lendingExchangeState_Hash s)) ;;
      put (set_onDirty None s)
  | None => mret tt
  end.

Definition setNonce (nonce : N) : X unit :=
  modify (fun s => set_data (set_Nonce nonce (data s)) s) ;;
  notifyOwner.

Definition SetNonce (nonce : N) : X unit := setNonce nonce.

Definition lendingExchangeState_Nonce (s : lendingExchangeState) : N :=
  Nonce (data s).

Definition removeInvestingOrderList (d : Database)
    (stateOrderList : itemListState) : X unit :=
  err ← onTrie InvestingSlot
          (fun t => TryDelete t (hashBytes (price stateOrderList)));
  setError err.

Definition removeBorrowingOrderList (d : Database)
    (stateOrderList : itemListState) : X unit :=
  err ← onTrie BorrowingSlot
          (fun t => TryDelete t (hashBytes (price stateOrderList)));
  setError err.

Definition createInvestingOrderList (self : addr) (d : Database) (p : Hash)
    : X itemListState :=
  s ← get;
  let newobj :=
    newItemListState (db s) INVESTING (lendingBook s) p itemList_zero
      (Some {| cb_recv := self; cb_method := InvestingMarker |}) in
  put (set_investingStates (<[p := newobj]> (investingStates s)) s) ;;
  modify (fun s1 =>
    set_investingStatesDirty ({[p]} ∪ investingStatesDirty s1) s1) ;;
  match rlpEncodeItemListState newobj with
  | inr e => panic (String.append "can't encode order list object: " e)
  | inl dat =>
      err ← onTrie InvestingSlot (fun t => TryUpdate t (hashBytes p) dat);
      setError err ;;
      notifyOwner ;;
      mret newobj
  end.

Definition MarkBorrowingDirty (p : Hash) : X unit :=
  modify (fun s =>
    set_borrowingStatesDirty ({[p]} ∪ borrowingStatesDirty s) s) ;;
  notifyOwner.

Definition MarkInvestingDirty (p : Hash) : X unit :=
  modify (fun s =>
    set_investingStatesDirty ({[p]} ∪ investingStatesDirty s) s) ;;
  notifyOwner.

Definition MarkLendingItemDirty (orderId : Hash) : X unit :=
  modify (fun s =>
    set_lendingItemStatesDirty ({[orderId]} ∪ lendingItemStatesDirty s) s) ;;
  notifyOwner.

Definition MarkLiquidationTimeDirty (orderId : Hash) : X unit :=
  modify (fun s =>
    set_liquidationTimestatesDirty
      ({[orderId]} ∪ liquidationTimestatesDirty s) s) ;;
  notifyOwner.

Definition createBorrowingOrderList (self : addr) (d : Database) (p : Hash)
    : X itemListState :=
  s ← get;
  let newobj :=
    newItemListState (db s) BORROWING (lendingBook s) p itemList_zero
      (Some {| cb_recv := self; cb_method := BorrowingMarker |}) in
  put (set_borrowingStates (<[p := newobj]> (borrowingStates s)) s) ;;
  modify (fun s1 =>
    set_borrowingStatesDirty ({[p]} ∪ borrowingStatesDirty s1) s1) ;;
  match rlpEncodeItemListState newobj with
  | inr e => panic (String.append "can't encode order list object: " e)
  | inl dat =>
      err ← onTrie BorrowingSlot (fun t => TryUpdate t (hashBytes p) dat);
      setError err ;;
      notifyOwner ;;
      mret newobj
  end.

Definition createLendingItem (self : addr) (d : Database) (orderId : Hash)
    (order : LendingItem) : X lendingItemState :=
  s ← get;
  let newobj :=
    newLendinItemState (lendingBook s) orderId order
      (Some {| cb_recv := self; cb_method := LendingItemMarker |}) in
  let orderIdHash := BigToHash (OrderID order) in
  put (set_lendingItemStates
         (<[orderIdHash := newobj]> (lendingItemStates s)) s) ;;
  modify (fun s1 =>
    set_lendingItemStatesDirty
      ({[orderIdHash]} ∪ lendingItemStatesDirty s1) s1) ;;
  notifyOwner ;;
  mret newobj.

Definition createLiquidationTime (self : addr) (d : Database) (time : Hash)
    : X liquidationTimeState :=
  s ← get;
  let newobj :=
    newLiquidationTimeState (db s) time (lendingBook s) itemList_zero
      (Some {| cb_recv := self; cb_method := LendingItemMarker |}) in
  put (set_liquidationTimeStates
         (<[time := newobj]> (liquidationTimeStates s)) s) ;;
  modify (fun s1 =>
    set_lendingItemStatesDirty ({[time]} ∪ lendingItemStatesDirty s1) s1) ;;
  mret newobj.

(** ** The heap: exchange states behind pointers

    A sub-state object keeps a method value of an exchange state; calling it
    reaches that exchange state through its address. *)

(** A method call [recv.m(...)] on the exchange state at address [a]. *)
Definition callAt {A} (a : addr) (m : X A)
    : M (gmap addr lendingExchangeState) A :=
  fun h =>
    match h !! a with
    | None => Panic nilDereference
    | Some s =>
        match m s with
        | Done x s' evs => Done x (<[a := s']> h) evs
        | Panic msg => Panic msg
        end
    end.

Definition markDirty (m : marker) (key : Hash) : X unit :=
  match m with
  | BorrowingMarker => MarkBorrowingDirty key
  | InvestingMarker => MarkInvestingDirty key
  | LendingItemMarker => MarkLendingItemDirty key
  | LiquidationTimeMarker => MarkLiquidationTimeDirty key
  end.

(** [if o.onDirty != nil { o.onDirty(key) }] *)
Definition invoke (cb : option dirtyCallback) (key : Hash)
    : M (gmap addr lendingExchangeState) unit :=
  match cb with
  | Some c => callAt (cb_recv c) (markDirty (cb_method c) key)
  | None => mret tt
  end.

(** Modelled from the spec: in-place mutation of a sub-state object (sections
    3, 4.2 and 4.3): the object, found in the cache of the exchange state at
    [a] under [k], takes the new payload, calls its dirty marker with its
    own key when it still has one, and drops the marker. *)
Definition itemListState_setData (a : addr) (ty : orderType) (k : Hash)
    (dat : itemList) : M (gmap addr lendingExchangeState) unit :=
  h ← get;
  match h !! a with
  | None => panic nilDereference
  | Some s =>
      let cache :=
        match ty with
        | INVESTING => investingStates s
        | BORROWING => borrowingStates s
        end in
      match cache !! k with
      | None => panic nilDereference
      | Some o =>
          let o' :=
            {| il_db := il_db o; il_orderType := il_orderType o;
               il_lendingBook := il_lendingBook o; price := price o;
               il_data := dat; il_nested := il_nested o;
               il_onDirty := None |} in
          put (<[a := match ty with
                      | INVESTING => set_investingStates (<[k := o']> cache) s
                      | BORROWING => set_borrowingStates (<[k := o']> cache) s
                      end]> h) ;;
          invoke (il_onDirty o) (price o)
      end
  end.

(** Modelled from the spec: in-place mutation of a liquidation-time list, as
    for an item list. *)
Definition liquidationTimeState_setData (a : addr) (k : Hash)
    (dat : itemList) : M (gmap addr lendingExchangeState) unit :=
  h ← get;
  match h !! a with
  | None => panic nilDereference
  | Some s =>
      match liquidationTimeStates s !! k with
      | None => panic nilDereference
      | Some o =>
          let o' :=
            {| lt_db := lt_db o; lt_lendingBook := lt_lendingBook o;
               lt_time := lt_time o; lt_data := dat;
               lt_nested := lt_nested o; lt_onDirty := None |} in
          put (<[a := set_liquidationTimeStates
                        (<[k := o']> (liquidationTimeStates s)) s]> h) ;;
          invoke (lt_onDirty o) (lt_time o)
      end
  end.

(** Modelled from the spec: in-place mutation of a lending item (section
    4.3), with the same notification as an item list. *)
Definition lendingItemState_setData (a : addr) (k : Hash)
    (dat : LendingItem) : M (gmap addr lendingExchangeState) unit :=
  h ← get;
  match h !! a with
  | None => panic nilDereference
  | Some s =>
      match lendingItemStates s !! k with
      | None => panic nilDereference
      | Some o =>
          let o' :=
            {| li_lendingBook := li_lendingBook o;
               li_orderId := li_orderId o; li_data := dat;
               li_onDirty := None |} in
          put (<[a := set_lendingItemStates
                        (<[k := o']> (lendingItemStates s)) s]> h) ;;
          invoke (li_onDirty o) (li_orderId o)
      end
  end.

(** [copy := self.deepCopy(db, onDirty)], the copy placed at address [new]. *)
Definition deepCopyAt (self : addr) (sdb : LendingStateDB)
    (cb : option ownerCallback) (new : addr)
    : M (gmap addr lendingExchangeState) unit :=
  h ← get;
  match h !! self with
  | None => panic nilDereference
  | Some s => put (<[new := deepCopy self sdb cb s]> h)
  end.

(** ** Sequences of mutating operations *)

Inductive mutation :=
| DoSetNonce (nonce : N)
| DoCreateInvestingOrderList (p : Hash)
| DoCreateBorrowingOrderList (p : Hash)
| DoCreateLendingItem (orderId : Hash) (order : LendingItem)
| DoCreateLiquidationTime (time : Hash)
| DoMark (m : marker) (key : Hash).

Definition perform (self : addr) (d : Database) (op : mutation) : X unit :=
  match op with
  | DoSetNonce nonce => SetNonce nonce
  | DoCreateInvestingOrderList p => createInvestingOrderList self d p ;; mret tt
  | DoCreateBorrowingOrderList p => createBorrowingOrderList self d p ;; mret tt
  | DoCreateLendingItem orderId order =>
      createLendingItem self d orderId order ;; mret tt
  | DoCreateLiquidationTime time => createLiquidationTime self d time ;; mret tt
  | DoMark m key => markDirty m key
  end.

Definition is_OnDirty (e : event) : bool :=
  match e with OnDirty _ _ => true | _ => false end.

Definition is_TrieCommit (e : event) : bool :=
  match e with TrieCommit _ => true | _ => false end.

(** How many times the owner-level callback was called. *)
Definition notifications (evs : list event) : nat :=
  length (List.filter is_OnDirty evs).

(** The number of owner notifications of each operation of a sequence, in
    order; the sequence stops at a panic. *)
Fixpoint notificationsPerStep (self : addr) (d : Database)
    (ops : list mutation) (s : lendingExchangeState) : list nat :=
  match ops with
  | [] => []
  | op :: ops' =>
      match perform self d op s with
      | Done _ s' evs =>
          notifications evs :: notificationsPerStep self d ops' s'
      | Panic _ => []
      end
  end.

(** The first non-nil error of a list of [setError] arguments. *)
Fixpoint firstError (errs : list (option error)) : option error :=
  match errs with
  | [] => None
  | Some e :: _ => Some e
  | None :: errs' => firstError errs'
  end.

(** The keys a trie holds: those a lookup finds bytes under. *)
Definition present (t : Trie) (k : bytes) : Prop := (TryGet t k).1 ≠ [].

End Embedding.

Abbreviation X := (M lendingExchangeState).

(** Modelled from the spec: the extremal-key queries of the trie capability
    (sections 4.4 and 6): a query that succeeds with a key returns a key the
    trie holds, with the value stored under it, and no key the trie holds is
    smaller (for the left query) or larger (for the right query) as a byte
    string. *)
Class TrieLaws `{Persistence} : Prop := {
  bestLeft_value : forall t k v,
    TryGetBestLeftKeyAndValue t = (k, v, None) -> k <> [] ->
    (TryGet t k).1 = v;
  bestLeft_least : forall t k v k',
    TryGetBestLeftKeyAndValue t = (k, v, None) -> k <> [] ->
    present t k' -> bytes_le k k';
  bestRight_value : forall t k v,
    TryGetBestRightKeyAndValue t = (k, v, None) -> k <> [] ->
    (TryGet t k).1 = v;
  bestRight_greatest : forall t k v k',
    TryGetBestRightKeyAndValue t = (k, v, None) -> k <> [] ->
    present t k' -> bytes_le k' k
}.

(** ** The properties of the specification, as predicates on the methods *)

Section Contracts.
Context `{Persistence} `{!SubStates}.

(** The contract of a cached lookup: [cache] is the live cache, [openT] opens
    the trie of the collection, [decode] reads a payload, [mk s key dat]
    is the object built for it in state [s], and [msg] is what a decode
    failure logs. *)
Definition lookup_contract {O D : Type}
    (cache : lendingExchangeState -> gmap Hash O)
    (cache_set : gmap Hash O -> lendingExchangeState -> lendingExchangeState)
    (openT : X (option Trie))
    (decode : bytes -> D + error)
    (mk : lendingExchangeState -> Hash -> D -> O)
    (msg : string)
    (getter : Hash -> X (option O)) : Prop :=
  forall (key : Hash) (s : lendingExchangeState),
    (forall obj, cache s !! key = Some obj ->
       getter key s = Done (Some obj) s [])
    /\
    (forall t s1 evs,
       cache s !! key = None ->
       openT s = Done (Some t) s1 evs ->
       (forall err, TryGet t (hashBytes key) = ([], err) ->
          exists s2, setError err s1 = Done tt s2 []
                     /\ getter key s = Done None s2 evs)
       /\
       (forall enc err e,
          TryGet t (hashBytes key) = (enc, err) -> enc <> [] ->
          decode enc = inr e ->
          getter key s = Done None s1 (evs ++ [LogError msg]))
       /\
       (forall enc err dat,
          TryGet t (hashBytes key) = (enc, err) -> enc <> [] ->
          decode enc = inl dat ->
          getter key s =
            Done (Some (mk s1 key dat))
                 (cache_set (<[key := mk s1 key dat]> (cache s1)) s1) evs)).

(** A commit that fails closed: when the dirty flush leaves a memoised
    error, the commit returns it, stops in the state the flush left, does
    not call the trie's [Commit] and leaves the root of the record alone. *)
Definition fails_closed (root : lendingObject -> Hash)
    (flush : X (option Trie)) (commit : X (option error)) : Prop :=
  forall s r s' evs e,
    flush s = Done r s' evs ->
    dbErr s' = Some e ->
    commit s = Done (Some e) s' evs
    /\ root (data s') = root (data s)
    /\ List.filter is_TrieCommit evs = [].

(** Everything of an exchange state except its error slot and the trie of
    [slot]. *)
Definition same_memory (slot : trieSlot) (s s' : lendingExchangeState)
    : Prop :=
  lendingBook s' = lendingBook s
  /\ data s' = data s
  /\ db s' = db s
  /\ (forall slot', slot' <> slot -> trieOf slot' s' = trieOf slot' s)
  /\ liquidationTimeStates s' = liquidationTimeStates s
  /\ liquidationTimestatesDirty s' = liquidationTimestatesDirty s
  /\ investingStates s' = investingStates s
  /\ investingStatesDirty s' = investingStatesDirty s
  /\ borrowingStates s' = borrowingStates s
  /\ borrowingStatesDirty s' = borrowingStatesDirty s
  /\ lendingItemStates s' = lendingItemStates s
  /\ lendingItemStatesDirty s' = lendingItemStatesDirty s
  /\ onDirty s' = onDirty s.


(** The four tries of an exchange state are the same handles. *)
Definition same_tries (s s' : lendingExchangeState) : Prop :=
  forall slot, trieOf slot s' = trieOf slot s.

(** A creation that writes through: the new object is in the cache and the
    dirty set of its collection, and its encoding went into the trie of the
    collection with one [TryUpdate]; an encoder failure is a panic. *)
Definition creates_eagerly (slot : trieSlot)
    (cache : lendingExchangeState -> gmap Hash itemListState)
    (dirty : lendingExchangeState -> gset Hash)
    (newobj : lendingExchangeState -> Hash -> itemListState)
    (create : Hash -> X itemListState) : Prop :=
  forall (p : Hash) (s : lendingExchangeState),
    (forall e, rlpEncodeItemListState (newobj s p) = inr e ->
       exists msg, create p s = Panic msg)
    /\
    (forall dat t,
       rlpEncodeItemListState (newobj s p) = inl dat ->
       trieOf slot s = Some t ->
       exists s' evs,
         create p s = Done (newobj s p) s' evs
         /\ cache s' = <[p := newobj s p]> (cache s)
         /\ dirty s' = {[p]} ∪ dirty s
         /\ trieOf slot s' = Some (TryUpdate t (hashBytes p) dat).1
         /\ (forall slot', slot' <> slot -> trieOf slot' s' = trieOf slot' s)).

(** What the specification says of every creation, read off an outcome: the
    object is cached under [key], [key] is in the dirty set of the
    collection, and the trie of the collection holds the encoding [enc]
    under [key]. *)
Definition written_through {O : Type} (slot : trieSlot)
    (cache : lendingExchangeState -> gmap Hash O)
    (dirty : lendingExchangeState -> gset Hash)
    (key : Hash) (enc : bytes)
    (out : outcome lendingExchangeState O) : Prop :=
  match out with
  | Done o s' _ =>
      cache s' !! key = Some o
      /\ key ∈ dirty s'
      /\ match trieOf slot s' with
         | Some t' => (TryGet t' (hashBytes key)).1 = enc
         | None => False
         end
  | Panic _ => False
  end.


(** The mutating operations that carry the owner notification: all but
    [createLiquidationTime]. *)
Definition notifies_once (op : mutation) : Prop :=
  match op with DoCreateLiquidationTime _ => False | _ => True end.


End Contracts.

(** ** Further properties of the methods, as predicates *)

Section FurtherContracts.
Context `{Persistence} `{!SubStates}.

(** The dirty set and the keys of the live cache of the collection that
    owns the trie of a slot. *)
Definition dirtyOf (slot : trieSlot) (s : lendingExchangeState) : gset Hash :=
  match slot with
  | InvestingSlot => investingStatesDirty s
  | BorrowingSlot => borrowingStatesDirty s
  | LendingSlot => lendingItemStatesDirty s
  | LiquidationTimeSlot => liquidationTimestatesDirty s
  end.

Definition cachedKeys (slot : trieSlot) (s : lendingExchangeState)
    : gset Hash :=
  match slot with
  | InvestingSlot => dom (investingStates s)
  | BorrowingSlot => dom (borrowingStates s)
  | LendingSlot => dom (lendingItemStates s)
  | LiquidationTimeSlot => dom (liquidationTimeStates s)
  end.

(** The live cache of a collection holds the same objects in two states. *)
Definition same_cache (slot : trieSlot) (s s' : lendingExchangeState)
    : Prop :=
  match slot with
  | InvestingSlot => investingStates s' = investingStates s
  | BorrowingSlot => borrowingStates s' = borrowingStates s
  | LendingSlot => lendingItemStates s' = lendingItemStates s
  | LiquidationTimeSlot => liquidationTimeStates s' = liquidationTimeStates s
  end.

(** Lazy opening of the trie of a slot: an open handle is returned as it
    is; a closed one is opened at the root of the record, and when that
    fails the empty trie is opened in its place and the failure is
    memoised under the message [what]; nothing but the handle and the error
    slot changes, and once a handle is there a second call changes
    nothing. *)
Definition opens_lazily (slot : trieSlot) (root : lendingObject -> Hash)
    (what : string) (getTrie : Database -> X (option Trie)) : Prop :=
  forall (d : Database) (s : lendingExchangeState),
    (forall t, trieOf slot s = Some t -> getTrie d s = Done (Some t) s [])
    /\ (trieOf slot s = None ->
        forall t1,
          OpenStorageTrie d (lendingBook s) (root (data s)) = (t1, None) ->
          exists s',
            getTrie d s = Done t1 s' []
            /\ trieOf slot s' = t1
            /\ dbErr s' = dbErr s
            /\ same_memory slot s s')
    /\ (trieOf slot s = None ->
        forall t1 e,
          OpenStorageTrie d (lendingBook s) (root (data s)) = (t1, Some e) ->
          exists s',
            getTrie d s
            = Done (OpenStorageTrie d (lendingBook s) EmptyHash).1 s' []
            /\ trieOf slot s'
               = (OpenStorageTrie d (lendingBook s) EmptyHash).1
            /\ dbErr s' = firstError [dbErr s; Some (String.append what e)]
            /\ same_memory slot s s')
    /\ (forall r s' evs t,
          getTrie d s = Done r s' evs -> r = Some t ->
          getTrie d s' = Done (Some t) s' []).

(** What visiting the keys of [order] in a dirty flush keeps and what it
    clears: the keys of the cache stay; the dirty set loses exactly the
    visited keys that are cached (a dirty key without a cached object stays
    dirty); the record, the owner callback and the other three collections
    are left alone. *)
Definition flushed (slot : trieSlot) (order : list Hash)
    (s s' : lendingExchangeState) : Prop :=
  cachedKeys slot s' = cachedKeys slot s
  /\ dirtyOf slot s'
     = dirtyOf slot s ∖ (list_to_set order ∩ cachedKeys slot s)
  /\ lendingBook s' = lendingBook s
  /\ data s' = data s
  /\ db s' = db s
  /\ onDirty s' = onDirty s
  /\ (forall slot', slot' <> slot ->
        trieOf slot' s' = trieOf slot' s
        /\ dirtyOf slot' s' = dirtyOf slot' s
        /\ same_cache slot' s s').

(** A dirty flush logs nothing, returns the handle of its trie and visits
    the keys of [order]. *)
Definition flush_contract (slot : trieSlot)
    (flush : Database -> list Hash -> X (option Trie)) : Prop :=
  forall d order s r s' evs,
    flush d order s = Done r s' evs ->
    evs = [] /\ r = trieOf slot s' /\ flushed slot order s s'.

(** A flush with an open trie and no cached key dirty does nothing at all,
    whatever the order of visit. *)
Definition flush_noop (slot : trieSlot)
    (flush : Database -> list Hash -> X (option Trie)) : Prop :=
  forall d order s t,
    trieOf slot s = Some t ->
    dirtyOf slot s ∩ cachedKeys slot s = ∅ ->
    flush d order s = Done (Some t) s [].

(** A flush that visits every cached key leaves a state on which another
    flush, in any order, does nothing. *)
Definition flush_settles (slot : trieSlot)
    (flush : Database -> list Hash -> X (option Trie)) : Prop :=
  forall d order order' s t s' evs,
    cachedKeys slot s ⊆ list_to_set order ->
    flush d order s = Done (Some t) s' evs ->
    flush d order' s' = Done (Some t) s' [].

(** A flush whose trie is open does not panic and keeps the trie open. *)
Definition flush_total (slot : trieSlot)
    (flush : Database -> list Hash -> X (option Trie)) : Prop :=
  forall d order s t,
    trieOf slot s = Some t ->
    exists t' s', flush d order s = Done (Some t') s' [].

(** An update of a root that does not look at the error slot: after the
    flush the root field of the collection is the hash of its trie, also
    when an error is memoised; the nonce and the other roots are those of
    before the call; a nil handle panics. *)
Definition stores_root (slot : trieSlot)
    (setRoot : Hash -> lendingObject -> lendingObject)
    (flush : Database -> list Hash -> X (option Trie))
    (update : Database -> list Hash -> X unit) : Prop :=
  forall d order s r s1 evs,
    flush d order s = Done r s1 evs ->
    (forall t, trieOf slot s1 = Some t ->
       update d order s
       = Done tt (set_data (setRoot (TrieHash t) (data s)) s1) [])
    /\ (trieOf slot s1 = None -> exists msg, update d order s = Panic msg).

(** [updateInvestingRoot] looks at the error slot: with an error memoised
    after the flush it returns that error and leaves the investing root as
    it was before the call; without one it stores the hash of the trie and
    returns nil. *)
Definition stores_root_unless_error
    (flush : Database -> list Hash -> X (option Trie))
    (update : Database -> list Hash -> X (option error)) : Prop :=
  forall d order s r s1 evs,
    flush d order s = Done r s1 evs ->
    (forall e, dbErr s1 = Some e ->
       update d order s = Done (Some e) s1 []
       /\ data s1 = data s)
    /\ (forall t, dbErr s1 = None -> trieOf InvestingSlot s1 = Some t ->
        update d order s
        = Done None
            (set_data (set_InvestingRoot (TrieHash t) (data s)) s1) []).

(** A commit on a state the flush left without a memoised error: the trie
    is committed once; the error of the commit is returned and not
    memoised; the root field takes the committed root when the commit
    succeeds and keeps its value when it fails; the events are the commit
    and, for [withLeaves], the references of the committed leaves. *)
Definition commits_clean (slot : trieSlot) (withLeaves : bool)
    (setRoot : Hash -> lendingObject -> lendingObject)
    (flush : Database -> list Hash -> X (option Trie))
    (commit : Database -> list Hash -> X (option error)) : Prop :=
  forall d order s r s1 evs t,
    flush d order s = Done r s1 evs ->
    dbErr s1 = None ->
    trieOf slot s1 = Some t ->
    exists s2,
      commit d order s
      = Done (Commit t).2.2 s2
          (TrieCommit slot
           :: (if withLeaves
               then flat_map (fun lp => onleaf lp.1 lp.2) (CommitLeaves t)
               else []))
      /\ trieOf slot s2 = Some (Commit t).1
      /\ dbErr s2 = None
      /\ data s2
         = match (Commit t).2.2 with
           | None => setRoot (Commit t).2.1 (data s)
           | Some _ => data s
           end
      /\ onDirty s2 = onDirty s1
      /\ (forall slot',
            dirtyOf slot' s2 = dirtyOf slot' s1 /\ same_cache slot' s1 s2)
      /\ (forall slot', slot' <> slot -> trieOf slot' s2 = trieOf slot' s1).

(** A run that marks nothing: the four dirty sets, the record and the owner
    callback are as before, and the owner callback is not called. *)
Definition marks_nothing {A} (m : X A) : Prop :=
  forall s a s' evs,
    m s = Done a s' evs ->
    (forall slot, dirtyOf slot s' = dirtyOf slot s)
    /\ data s' = data s
    /\ onDirty s' = onDirty s
    /\ notifications evs = 0%nat.

(** The memoised error only grows: a run keeps an error that is there. *)
Definition keeps_error {A} (m : X A) : Prop :=
  forall s a s' evs e,
    m s = Done a s' evs -> dbErr s = Some e -> dbErr s' = Some e.

(** [getLowestLiquidationTime]: after the liquidation-time trie is opened,
    the leftmost leaf is queried.  A failed query, an empty key or value and
    a value that does not decode give the empty hash and nil, in the state
    the opening left, without a notification.  Otherwise the key comes back
    as a hash, together with a list built from the leaf and bound to
    [MarkLiquidationTimeDirty], which replaces whatever the cache held under
    that key; the key is in the trie, and no key of the trie is smaller. *)
Definition lowest_time_contract (self : addr) (d : Database) : Prop :=
  forall s t s1 evs0,
    getLiquidationTimeTrie d s = Done (Some t) s1 evs0 ->
    forall k v err,
      TryGetBestLeftKeyAndValue t = (k, v, err) ->
      (err <> None \/ k = [] \/ v = []
         \/ (exists e, rlpDecodeItemList v = inr e) ->
       exists evs,
         getLowestLiquidationTime self d s = Done (EmptyHash, None) s1 evs
         /\ notifications evs = notifications evs0)
      /\ (forall dat,
            err = None -> k <> [] -> v <> [] ->
            rlpDecodeItemList v = inl dat ->
            let p := BytesToHash k in
            let obj :=
              newLiquidationTimeState (db s1) (lendingBook s1) p dat
                (Some {| cb_recv := self;
                         cb_method := LiquidationTimeMarker |}) in
            getLowestLiquidationTime self d s
            = Done (p, Some obj)
                (set_liquidationTimeStates
                   (<[p := obj]> (liquidationTimeStates s1)) s1) evs0
            /\ present t k
            /\ (forall k', present t k' -> bytes_le k k')).

(** The sum of the notification counts of a sequence of operations. *)
Definition totalNotifications (self : addr) (d : Database)
    (ops : list mutation) (s : lendingExchangeState) : nat :=
  foldr Nat.add 0%nat (notificationsPerStep self d ops s).

(** The state a sequence of operations ends in, when none panics. *)
Fixpoint performAll (self : addr) (d : Database) (ops : list mutation)
    (s : lendingExchangeState) : option lendingExchangeState :=
  match ops with
  | [] => Some s
  | op :: ops' =>
      match perform self d op s with
      | Done _ s' _ => performAll self d ops' s'
      | Panic _ => None
      end
  end.

(** Whether an operation carries the owner notification (the boolean form
    of [notifies_once]). *)
Definition notifiesb (op : mutation) : bool :=
  match op with DoCreateLiquidationTime _ => false | _ => true end.

(** The collection whose dirty set a marker writes. *)
Definition markerSlot (m : marker) : trieSlot :=
  match m with
  | BorrowingMarker => BorrowingSlot
  | InvestingMarker => InvestingSlot
  | LendingItemMarker => LendingSlot
  | LiquidationTimeMarker => LiquidationTimeSlot
  end.

(** A commit on a state whose trie cannot be opened at the stored root: the
    empty trie is opened in its place, the failure is memoised under the
    message [what], and the commit returns that error with the record as it
    was. *)
Definition open_failure_poisons (slot : trieSlot)
    (root : lendingObject -> Hash) (what : string)
    (commit : Database -> list Hash -> X (option error)) : Prop :=
  forall d order s t0 e t',
    trieOf slot s = None ->
    dbErr s = None ->
    OpenStorageTrie d (lendingBook s) (root (data s)) = (t0, Some e) ->
    (OpenStorageTrie d (lendingBook s) EmptyHash).1 = Some t' ->
    exists s',
      commit d order s = Done (Some (String.append what e)) s' []
      /\ dbErr s' = Some (String.append what e)
      /\ data s' = data s.



End FurtherContracts.

(** ** A reference platform

    One implementation of the interfaces above, on which the methods can be
    run: a trie is the sorted list of its leaves, a database maps the roots
    it knows to tries, and records are laid out in fixed-width fields.  It
    never reports a database error except for a root it does not know. *)

Module Ref.

Abbreviation trie := (list (bytes * bytes)).

Fixpoint lookup (t : trie) (k : bytes) : bytes :=
  match t with
  | [] => []
  | (k', v) :: t' => if bytes_eqb k' k then v else lookup t' k
  end.

Definition remove (k : bytes) (t : trie) : trie :=
  List.filter (fun kv => negb (bytes_eqb kv.1 k)) t.

Fixpoint insert (k v : bytes) (t : trie) : trie :=
  match t with
  | [] => [(k, v)]
  | (k', v') :: t' =>
      match bytes_compare k k' with
      | Lt => (k, v) :: t
      | Eq => (k, v) :: t'
      | Gt => (k', v') :: insert k v t'
      end
  end.

(** Writing an empty value removes the leaf. *)
Definition update (t : trie) (k v : bytes) : trie :=
  match v with
  | [] => remove k t
  | _ => insert k v (remove k t)
  end.

(** The entry with the best key, where [better a b] tells that [a] is at
    least as good as [b]. *)
Definition best (better : bytes -> bytes -> bool) (t : trie)
    : option (bytes * bytes) :=
  foldr (fun kv acc =>
           match acc with
           | None => Some kv
           | Some kv' => if better kv.1 kv'.1 then Some kv else Some kv'
           end) None t.

Definition bestQuery (better : bytes -> bytes -> bool) (t : trie)
    : bytes * bytes * option error :=
  match best better t with
  | Some (k, v) => (k, v, None)
  | None => ([], [], None)
  end.

(** The root of the empty trie, and a stand-in for the Keccak-256 root of a
    non-empty one. *)
Definition emptyRoot : Hash :=
  0x56e81f171bcc55a6ff8345e692c0f86e5b48e01b996cadc001622fb5e363b421.

Definition digest (t : trie) : Hash :=
  match t with
  | [] => emptyRoot
  | _ =>
      foldr (fun kv acc =>
               (acc * 257 + BytesToN kv.1 * 7 + BytesToN kv.2 + 1)
               mod 256 ^ N.of_nat HashLength) 0 t
  end.

Abbreviation database := (list (Hash * list (bytes * bytes))).

Fixpoint resolve (d : database) (root : Hash) : option trie :=
  match d with
  | [] => None
  | (r, t) :: d' => if decide (r = root) then Some t else resolve d' root
  end.

Definition open (d : database) (owner root : Hash)
    : option trie * option error :=
  if decide (root = 0 \/ root = emptyRoot) then (Some [], None)
  else
    match resolve d root with
    | Some t => (Some t, None)
    | None => (None, Some "missing trie node")
    end.

Definition persistence : Persistence := {|
  Trie := trie;
  Database := database;
  Nested := unit;
  TryGet := fun t k => (lookup t k, None);
  TryUpdate := fun t k v => (update t k v, None);
  TryDelete := fun t k => (remove k t, None);
  TrieHash := digest;
  Commit := fun t => (t, (digest t, None));
  CommitLeaves := fun t => map (fun kv => (kv.2, digest t)) t;
  TryGetBestLeftKeyAndValue := bestQuery bytes_leb;
  TryGetBestRightKeyAndValue := bestQuery (fun a b => bytes_leb b a);
  OpenStorageTrie := open;
  CopyTrie := fun _ t => t;
  newNested := tt;
  copyNested := fun _ n => n;
  EmptyHash := 0;
  EmptyRoot := emptyRoot
|}.

#[local] Existing Instance persistence.

(** Fixed-width layouts standing in for RLP. *)
Definition encodeItemList (l : itemList) : bytes :=
  be_bytes 32 (Volume l) ++ hashBytes (Root l).

Definition decodeItemList (b : bytes) : itemList + error :=
  if decide (length b = 64%nat)
  then inl {| Volume := BytesToN (take 32 b); Root := BytesToN (drop 32 b) |}
  else inr "rlp: input of the wrong size for itemList".

Definition encodeLendingItem (l : LendingItem) : bytes :=
  be_bytes 8 (OrderID l) ++ be_bytes 32 (Interest l)
  ++ be_bytes 32 (Quantity l) ++ hashBytes (Owner l) ++ be_bytes 8 (Term l)
  ++ String.list_byte_of_string (Side l).

Definition decodeLendingItem (b : bytes) : LendingItem + error :=
  if decide (112 <= length b)%nat
  then inl {| OrderID := BytesToN (take 8 b);
              Interest := BytesToN (take 32 (drop 8 b));
              Quantity := BytesToN (take 32 (drop 40 b));
              Owner := BytesToN (take 32 (drop 72 b));
              Term := BytesToN (take 8 (drop 104 b));
              Side := String.string_of_list_byte (drop 112 b) |}
  else inr "rlp: input too short for LendingItem".

Definition subStates : SubStates := {|
  rlpEncodeItemListState := fun o => inl (encodeItemList (il_data o));
  rlpEncodeLiquidationTimeState := fun o => inl (encodeItemList (lt_data o));
  rlpEncodeLendingItemState := fun o => inl (encodeLendingItem (li_data o));
  rlpDecodeItemList := decodeItemList;
  rlpDecodeLendingItem := decodeLendingItem;
  itemListState_empty := fun o => bool_decide (Volume (il_data o) = 0);
  liquidationTimeState_empty := fun o => bool_decide (Volume (lt_data o) = 0);
  lendingItemState_empty := fun o => bool_decide (Quantity (li_data o) = 0);
  itemListState_updateRoot := fun _ o => o;
  liquidationTimeState_updateRoot := fun _ o => o
|}.

(** A codec whose encoder rejects every item list. *)
Definition failingSubStates : SubStates := {|
  rlpEncodeItemListState := fun _ => inr "rlp: unsupported value";
  rlpEncodeLiquidationTimeState := fun o => inl (encodeItemList (lt_data o));
  rlpEncodeLendingItemState := fun o => inl (encodeLendingItem (li_data o));
  rlpDecodeItemList := decodeItemList;
  rlpDecodeLendingItem := decodeLendingItem;
  itemListState_empty := fun o => bool_decide (Volume (il_data o) = 0);
  liquidationTimeState_empty := fun o => bool_decide (Volume (lt_data o) = 0);
  lendingItemState_empty := fun o => bool_decide (Quantity (li_data o) = 0);
  itemListState_updateRoot := fun _ o => o;
  liquidationTimeState_updateRoot := fun _ o => o
|}.

End Ref.

(** ** Scenarios on the reference platform *)

Module Scenario.

#[local] Existing Instance Ref.persistence.
#[local] Existing Instance Ref.subStates.

Definition book : Hash := 77.

Definition list5 : itemList := {| Volume := 5; Root := Ref.emptyRoot |}.
Definition list9 : itemList := {| Volume := 9; Root := Ref.emptyRoot |}.

(** A trie with one rate, 10. *)
Definition oneRate : Ref.trie :=
  Ref.update [] (hashBytes 10) (Ref.encodeItemList list5).

(** A trie with two rates, 10 and 20. *)
Definition twoRates : Ref.trie :=
  Ref.update oneRate (hashBytes 20) (Ref.encodeItemList list9).

(** A trie whose only leaf, at rate 10, holds bytes that are no item list. *)
Definition junkRate : Ref.trie :=
  Ref.update [] (hashBytes 10) [Byte.x01; Byte.x02; Byte.x03].

Definition database : Ref.database :=
  [(Ref.digest oneRate, oneRate);
   (Ref.digest twoRates, twoRates);
   (Ref.digest junkRate, junkRate)].

Definition stateDB : LendingStateDB := {| sdb_db := database |}.

(** A root the database does not know. *)
Definition lostRoot : Hash := 12345.

Definition record (investing borrowing liquidation : Hash) : lendingObject :=
  {| Nonce := 0; InvestingRoot := investing; BorrowingRoot := borrowing;
     LendingItemRoot := 0; LiquidationTimeRoot := liquidation |}.

(** An order book just loaded: one rate in each of its investing, borrowing
    and liquidation-time tries, no trie opened yet, owner callback 1. *)
Definition fresh : lendingExchangeState :=
  newStateExchanges stateDB book
    (record (Ref.digest oneRate) (Ref.digest oneRate) (Ref.digest oneRate))
    (Some 1%nat).



(** An order book whose investing root is lost. *)
Definition lost : lendingExchangeState :=
  newStateExchanges stateDB book (record lostRoot 0 0) (Some 1%nat).


(** The state a run ends in ([s] itself after a panic). *)
Definition after {A} (m : X A) (s : lendingExchangeState)
    : lendingExchangeState :=
  match m s with Done _ s' _ => s' | Panic _ => s end.

(** [fresh] with its four tries opened. *)
Definition opened : lendingExchangeState :=
  after (getLiquidationTimeTrie database)
    (after (getLendingItemTrie database)
       (after (getBorrowingTrie database)
          (after (getInvestingTrie database) fresh))).

(** [fresh], [twoSided] and [junk] with the investing trie opened, and
    [lost] after a flush of its investing collection. *)
Definition freshInvesting : lendingExchangeState :=
  after (getInvestingTrie database) fresh.



Definition lostFlushed : lendingExchangeState :=
  after (updateInvestingTrie database []) lost.

Definition order5 : LendingItem :=
  {| OrderID := 5; Side := "INVEST"; Interest := 10; Quantity := 1000;
     Owner := 99; Term := 86400 |}.

(** The investing list of rate 10, as a caller holds it. *)
Definition obj10 : itemListState :=
  newItemListState stateDB INVESTING book 10 list5 None.

(** The list [createInvestingOrderList] builds for rate 30 in [opened]. *)
Definition created30 : itemListState :=
  newItemListState stateDB INVESTING book 30 itemList_zero
    (Some {| cb_recv := 0%nat; cb_method := InvestingMarker |}).

(** The lending item [createLendingItem] builds for [order5] under the
    identifier 5. *)
Definition createdItem5 : lendingItemState :=
  newLendinItemState book 5 order5
    (Some {| cb_recv := 0%nat; cb_method := LendingItemMarker |}).

(** The list [getInvestingOrderList] builds for the leaf of rate 10. *)
Definition loaded10 : itemListState :=
  newItemListState stateDB INVESTING book 10 list5
    (Some {| cb_recv := 0%nat; cb_method := BorrowingMarker |}).

Definition heap0 : gmap addr lendingExchangeState := {[ 0%nat := fresh ]}.

(** What a run on the heap leaves at an address. *)
Definition at_addr {A B} (a : addr) (f : lendingExchangeState -> B)
    (out : outcome (gmap addr lendingExchangeState) A) : option B :=
  match out with
  | Done _ h _ => f <$> h !! a
  | Panic _ => None
  end.

Definition events_of {St A} (out : outcome St A) : list event :=
  match out with Done _ _ evs => evs | Panic _ => [] end.

(** The investing list of rate 10 is loaded and changed ... *)
Definition investingChanged
    : M (gmap addr lendingExchangeState) unit :=
  callAt 0%nat (getInvestingOrderList 0%nat database 10) ;;
  itemListState_setData 0%nat INVESTING 10 list9.

(** ... and the investing root is updated. *)
Definition investingFlushed
    : M (gmap addr lendingExchangeState) (option error) :=
  investingChanged ;;
  callAt 0%nat (updateInvestingRoot database [10]).

(** The liquidation list of time 10 is loaded and changed. *)
Definition liquidationChanged
    : M (gmap addr lendingExchangeState) unit :=
  callAt 0%nat (getLiquidationTimeOrderList 0%nat database 10) ;;
  liquidationTimeState_setData 0%nat 10 list9.

(** The borrowing list of rate 10 is loaded and the state is copied to
    address 1 (owner callback 2) ... *)
Definition copied : M (gmap addr lendingExchangeState) unit :=
  callAt 0%nat (getBorrowingOrderList 0%nat database 10) ;;
  deepCopyAt 0%nat stateDB (Some 2%nat) 1%nat.

(** ... and the list of the copy is changed. *)
Definition copyChanged : M (gmap addr lendingExchangeState) unit :=
  copied ;;
  itemListState_setData 1%nat BORROWING 10 list9.

(** The investing list of rate 10 after a change, as the cache holds it. *)
Definition changed10 : itemListState :=
  newItemListState stateDB INVESTING book 10 list9 None.

(** [opened] with the changed list of rate 10 cached and dirty, and with
    rate 20 dirty without a cached list. *)
Definition pending : lendingExchangeState :=
  set_investingStatesDirty {[10; 20]}
    (set_investingStates {[10 := changed10]} opened).

(** The investing trie once the changed list of rate 10 is written. *)
Definition rewritten : Ref.trie :=
  Ref.update oneRate (hashBytes 10) (Ref.encodeItemList list9).

Definition pendingFlushed : lendingExchangeState :=
  after (updateInvestingTrie database [10; 20]) pending.

(** [fresh] with the liquidation-time trie opened. *)
Definition freshLiquidation : lendingExchangeState :=
  after (getLiquidationTimeTrie database) fresh.

(** [fresh] after the investing list of rate 10 is loaded. *)
Definition freshLoaded : lendingExchangeState :=
  after (getInvestingOrderList 0%nat database 10) fresh.

(** Three mutating operations, the first of which is
    [createLiquidationTime]. *)
Definition threeOps : list mutation :=
  [DoCreateLiquidationTime 30; DoSetNonce 1; DoMark InvestingMarker 10].

Definition afterThreeOps : lendingExchangeState :=
  default fresh (performAll 0%nat database threeOps fresh).

End Scenario.

(** * Properties *)

(** ** Bytes: big-endian numbers and the lexicographic order *)

Lemma to_N_byte_of_N n : Byte.to_N (byte_of_N n) = n mod 256.
Proof.
  unfold byte_of_N.
  destruct (Byte.of_N (n mod 256)) as [b|] eqn:E.
  - simpl. apply Byte.to_of_N. exact E.
  - apply Byte.of_N_None_iff in E.
    pose proof (N.mod_upper_bound n 256). lia.
Qed.

Lemma byte_of_N_to_N b : byte_of_N (Byte.to_N b) = b.
Proof.
  unfold byte_of_N. pose proof (Byte.to_N_bounded b).
  rewrite N.mod_small by lia. rewrite Byte.of_to_N. reflexivity.
Qed.

Lemma to_N_inj a b : Byte.to_N a = Byte.to_N b -> a = b.
Proof. intros E. rewrite <- (byte_of_N_to_N a), <- (byte_of_N_to_N b), E. reflexivity. Qed.

Lemma pow256_pos l : 0 < 256 ^ N.of_nat l.
Proof. apply N.neq_0_lt_0, N.pow_nonzero. discriminate. Qed.

Lemma pow256_succ l : 256 ^ N.of_nat (S l) = 256 * 256 ^ N.of_nat l.
Proof. rewrite Nat2N.inj_succ, N.pow_succ_r'. reflexivity. Qed.

Lemma be_bytes_length l n : length (be_bytes l n) = l.
Proof. induction l; simpl; congruence. Qed.



Lemma fold_BytesToN b : forall acc,
  fold_left (fun acc x => acc * 256 + Byte.to_N x) b acc
  = acc * 256 ^ N.of_nat (length b) + BytesToN b.
Proof.
  unfold BytesToN. induction b as [|x b IH]; intros acc.
  - simpl. lia.
  - cbn [fold_left length]. rewrite IH, (IH (0 * 256 + Byte.to_N x)).
    rewrite pow256_succ. lia.
Qed.

Lemma BytesToN_cons x b :
  BytesToN (x :: b) = Byte.to_N x * 256 ^ N.of_nat (length b) + BytesToN b.
Proof. unfold BytesToN at 1. cbn [fold_left]. rewrite fold_BytesToN. lia. Qed.



Lemma BytesToN_be_bytes l n : BytesToN (be_bytes l n) = n mod 256 ^ N.of_nat l.
Proof.
  induction l as [|l IH].
  - simpl. rewrite N.mod_1_r. reflexivity.
  - cbn [be_bytes]. rewrite BytesToN_cons, be_bytes_length, IH, to_N_byte_of_N.
    rewrite pow256_succ.
    pose proof (pow256_pos l).
    rewrite (N.mul_comm 256), N.Div0.mod_mul_r. lia.
Qed.


Lemma BytesToHash_hashBytes h : valid_hash h -> BytesToHash (hashBytes h) = h.
Proof.
  intros Hv. unfold hashBytes, BytesToHash.
  rewrite be_bytes_length, Nat.sub_diag, drop_0, BytesToN_be_bytes.
  apply N.mod_small. exact Hv.
Qed.





Lemma bytes_compare_refl a : bytes_compare a a = Eq.
Proof. induction a as [|x a IH]; [reflexivity|]. simpl. rewrite N.compare_refl. exact IH. Qed.

Lemma bytes_compare_eq a : forall b, bytes_compare a b = Eq -> a = b.
Proof.
  induction a as [|x a IH]; intros [|y b]; simpl; try discriminate; auto.
  destruct (N.compare_spec (Byte.to_N x) (Byte.to_N y)) as [E|L|L];
    try discriminate.
  intros Hc. f_equal; [apply to_N_inj; exact E|apply IH; exact Hc].
Qed.

Lemma bytes_compare_antisym a : forall b,
  bytes_compare b a = CompOpp (bytes_compare a b).
Proof.
  induction a as [|x a IH]; intros [|y b]; simpl; try reflexivity.
  rewrite (N.compare_antisym (Byte.to_N x) (Byte.to_N y)).
  destruct (Byte.to_N x ?= Byte.to_N y); simpl; auto.
Qed.

Lemma bytes_leb_total a b : bytes_leb a b = false -> bytes_leb b a = true.
Proof.
  unfold bytes_leb. rewrite (bytes_compare_antisym a b).
  destruct (bytes_compare a b); simpl; congruence.
Qed.

Lemma bytes_leb_refl a : bytes_leb a a = true.
Proof. unfold bytes_leb. rewrite bytes_compare_refl. reflexivity. Qed.

Lemma bytes_leb_trans a : forall b c,
  bytes_leb a b = true -> bytes_leb b c = true -> bytes_leb a c = true.
Proof.
  unfold bytes_leb.
  induction a as [|x a IH]; intros [|y b] [|z c]; simpl; try congruence.
  destruct (N.compare_spec (Byte.to_N x) (Byte.to_N y)) as [E|L|L];
    destruct (N.compare_spec (Byte.to_N y) (Byte.to_N z)) as [E'|L'|L'];
    destruct (N.compare_spec (Byte.to_N x) (Byte.to_N z)) as [E''|L''|L''];
    try congruence; try lia; try apply IH.
Qed.

Lemma bytes_eqb_eq a b : bytes_eqb a b = true <-> a = b.
Proof.
  unfold bytes_eqb. split.
  - destruct (bytes_compare a b) eqn:E; try discriminate.
    intros _. apply bytes_compare_eq. exact E.
  - intros ->. rewrite bytes_compare_refl. reflexivity.
Qed.


(** ** The reference platform keeps the laws of the trie *)

Section RefBest.
Variable better : bytes -> bytes -> bool.
Hypothesis better_refl : forall a, better a a = true.
Hypothesis better_total : forall a b, better a b = false -> better b a = true.
Hypothesis better_trans : forall a b c,
  better a b = true -> better b c = true -> better a c = true.

Lemma Ref_best_spec t : forall k v,
  Ref.best better t = Some (k, v) ->
  Ref.lookup t k = v
  /\ forall k' v', In (k', v') t -> better k k' = true.
Proof.
  induction t as [|[k0 v0] t IH]; intros k v; [discriminate|].
  simpl. destruct (Ref.best better t) as [[k1 v1]|] eqn:E.
  - destruct (IH _ _ eq_refl) as [Hl Hb]. simpl.
    destruct (better k0 k1) eqn:B; intros [= <- <-].
    + split.
      * rewrite (proj2 (bytes_eqb_eq k0 k0) eq_refl). reflexivity.
      * intros k' v' [[= <- <-]|Hin]; [apply better_refl|].
        eapply better_trans; [exact B|]. eapply Hb. exact Hin.
    + split.
      * destruct (bytes_eqb k0 k1) eqn:Q; [|exact Hl].
        apply bytes_eqb_eq in Q. subst k1.
        rewrite better_refl in B. discriminate.
      * intros k' v' [[= <- <-]|Hin]; [apply better_total; exact B|].
        eapply Hb. exact Hin.
  - simpl. intros [= <- <-].
    destruct t as [|kv t];
      [|simpl in E; destruct (Ref.best better t) as [[? ?]|];
        [destruct (better _ _)|]; discriminate].
    split.
    + simpl. rewrite (proj2 (bytes_eqb_eq k0 k0) eq_refl). reflexivity.
    + intros k' v' [[= <- <-]|[]]. apply better_refl.
Qed.

End RefBest.

Lemma Ref_lookup_In t k : Ref.lookup t k <> [] -> exists v, In (k, v) t.
Proof.
  induction t as [|[k0 v0] t IH]; simpl; [congruence|].
  destruct (bytes_eqb k0 k) eqn:Q.
  - apply bytes_eqb_eq in Q. subst k0. intros _. exists v0. left. reflexivity.
  - intros Hl. destruct (IH Hl) as [v Hin]. exists v. right. exact Hin.
Qed.

Lemma Ref_bestQuery_spec better t k v :
  (forall a, better a a = true) ->
  (forall a b, better a b = false -> better b a = true) ->
  (forall a b c, better a b = true -> better b c = true -> better a c = true) ->
  Ref.bestQuery better t = (k, v, None) -> k <> [] ->
  Ref.lookup t k = v
  /\ forall k', Ref.lookup t k' <> [] -> better k k' = true.
Proof.
  intros Hr Ht Htr. unfold Ref.bestQuery.
  destruct (Ref.best better t) as [[k1 v1]|] eqn:E.
  - intros [= <- <-] _.
    destruct (Ref_best_spec better Hr Ht Htr t _ _ E) as [Hl Hb].
    split; [exact Hl|]. intros k' Hk'.
    destruct (Ref_lookup_In _ _ Hk') as [v' Hin]. eapply Hb. exact Hin.
  - intros [= <- <-] Hk. congruence.
Qed.

Lemma Ref_laws : @TrieLaws Ref.persistence.
Proof.
  split; simpl; unfold present; simpl; intros t k v.
  - intros Hq Hk.
    apply (Ref_bestQuery_spec bytes_leb t k v bytes_leb_refl bytes_leb_total
             bytes_leb_trans Hq Hk).
  - intros k' Hq Hk Hp.
    apply (Ref_bestQuery_spec bytes_leb t k v bytes_leb_refl bytes_leb_total
             bytes_leb_trans Hq Hk). exact Hp.
  - intros Hq Hk.
    apply (Ref_bestQuery_spec (fun a b => bytes_leb b a) t k v); auto.
    + intros a. apply bytes_leb_refl.
    + intros a b. apply bytes_leb_total.
    + intros a b c Hab Hbc. eapply bytes_leb_trans; eassumption.
  - intros k' Hq Hk Hp.
    apply (Ref_bestQuery_spec (fun a b => bytes_leb b a) t k v); auto.
    + intros a. apply bytes_leb_refl.
    + intros a b. apply bytes_leb_total.
    + intros a b c Hab Hbc. eapply bytes_leb_trans; eassumption.
Qed.



(** ** Running the effect monad *)

Section Run.
Context {St : Type}.

Lemma bind_run {A B} (m : M St A) (f : A -> M St B) s :
  (m ≫= f) s =
    match m s with
    | Done a s1 evs1 =>
        match f a s1 with
        | Done b s2 evs2 => Done b s2 (evs1 ++ evs2)
        | Panic msg => Panic msg
        end
    | Panic msg => Panic msg
    end.
Proof. reflexivity. Qed.

Lemma bind_done {A B} (m : M St A) (f : A -> M St B) s a s1 evs1 :
  m s = Done a s1 evs1 ->
  (m ≫= f) s =
    match f a s1 with
    | Done b s2 evs2 => Done b s2 (evs1 ++ evs2)
    | Panic msg => Panic msg
    end.
Proof. intros E. rewrite bind_run, E. reflexivity. Qed.

Lemma bind_inv {A B} (m : M St A) (f : A -> M St B) s b s2 evs :
  (m ≫= f) s = Done b s2 evs ->
  exists a s1 evs1 evs2,
    m s = Done a s1 evs1 /\ f a s1 = Done b s2 evs2 /\ evs = evs1 ++ evs2.
Proof.
  rewrite bind_run. destruct (m s) as [a s1 evs1|]; [|discriminate].
  destruct (f a s1) as [b' s2' evs2|] eqn:E; [|discriminate].
  intros [= -> -> <-]. eauto 10.
Qed.

Lemma forEach_cons {A} (x : A) xs (body : A -> M St unit) s :
  forEach (x :: xs) body s = (body x ≫= fun _ => forEach xs body) s.
Proof. reflexivity. Qed.

(** A loop whose body keeps an invariant and is silent keeps it and is
    silent. *)
Lemma forEach_silent {A} (I : St -> Prop) (body : A -> M St unit) xs :
  (forall x s s' evs u, I s -> body x s = Done u s' evs -> I s' /\ evs = []) ->
  forall s s' evs u,
    I s -> forEach xs body s = Done u s' evs -> I s' /\ evs = [].
Proof.
  intros Hbody. induction xs as [|x xs IH]; intros s s' evs u Hs Hrun.
  - injection Hrun as <- <-. auto.
  - rewrite forEach_cons in Hrun.
    apply bind_inv in Hrun as (a & s1 & evs1 & evs2 & H1 & H2 & ->).
    destruct (Hbody _ _ _ _ _ Hs H1) as [Hs1 ->].
    apply (IH _ _ _ _ Hs1 H2).
Qed.

End Run.

(** Case analysis on what the body of a flush loop inspects. *)
Ltac flush_case :=
  match goal with
  | |- context [match ?m !! ?k with _ => _ end] => destruct (m !! k)
  | |- context [decide (?k ∈ ?X)] => destruct (decide (k ∈ X))
  | |- context [if ?b then _ else _] => destruct b
  | |- context [match ?t with Some _ => _ | None => _ end] =>
      is_var t; destruct t
  | |- context [let '(_, _) := ?p in _] => destruct p
  end.

(** Unfold the binds of a run one at a time. *)
Ltac run := repeat (rewrite bind_run; simpl).

Section Properties.
Context `{Persistence} `{!SubStates}.

Lemma setError_run err s :
  setError err s =
    Done tt (match dbErr s with None => set_dbErr err s | Some _ => s end) [].
Proof. unfold setError. rewrite bind_run. simpl. destruct (dbErr s); reflexivity. Qed.

Lemma setError_dbErr err s :
  exists s', setError err s = Done tt s' []
             /\ dbErr s' = firstError [dbErr s; err]
             /\ forall slot, trieOf slot s' = trieOf slot s.
Proof.
  rewrite setError_run. eexists; split; [reflexivity|].
  destruct (dbErr s) eqn:E; simpl; [rewrite E|]; split;
    try (destruct err; reflexivity); try (intros []; reflexivity).
Qed.


(** ** C8: emptiness *)




Lemma notifyOwner_run s :
  notifyOwner s =
    match onDirty s with
    | Some cb => Done tt (set_onDirty None s) [OnDirty cb (lendingBook s)]
    | None => Done tt s []
    end.
Proof. unfold notifyOwner. rewrite bind_run. simpl. destruct (onDirty s); reflexivity. Qed.

Lemma onTrie_run {A} slot (f : Trie -> Trie * A) s t :
  trieOf slot s = Some t ->
  onTrie slot f s = Done (f t).2 (setTrie slot (Some (f t).1) s) [].
Proof.
  intros E. unfold onTrie. rewrite bind_run. simpl. rewrite E.
  destruct (f t) as [t' a]. reflexivity.
Qed.

Lemma onTrie_nil {A} slot (f : Trie -> Trie * A) s :
  trieOf slot s = None -> onTrie slot f s = Panic nilDereference.
Proof. intros E. unfold onTrie. rewrite bind_run. simpl. rewrite E. reflexivity. Qed.

Lemma trieOf_setTrie slot t s : trieOf slot (setTrie slot t s) = t.
Proof. destruct slot; reflexivity. Qed.

Lemma trieOf_setTrie_ne slot slot' t s :
  slot' <> slot -> trieOf slot' (setTrie slot t s) = trieOf slot' s.
Proof. destruct slot, slot'; intros ?; try reflexivity; congruence. Qed.

(** ** C10: the key of a created lending item *)

(** C10. [createLendingItem(orderId, order)] puts the new object into the live
    cache and into the dirty set under the hash of [order.OrderID], not under
    [orderId]: a later [getLendingItem] of that derived key returns the
    object from the cache, every other key of the cache (so [orderId] too,
    when it differs) holds what it held before, and an [orderId] that
    differs and was not cached is still not cached. *)
Theorem C10_createLendingItem_keyed_by_OrderID :
  forall (self : addr) (d : Database) (orderId : Hash) (order : LendingItem)
         (s : lendingExchangeState),
    let key := BigToHash (OrderID order) in
    let newobj :=
      newLendinItemState (lendingBook s) orderId order
        (Some {| cb_recv := self; cb_method := LendingItemMarker |}) in
    exists s' evs,
      createLendingItem self d orderId order s = Done newobj s' evs
      /\ lendingItemStates s' = <[key := newobj]> (lendingItemStates s)
      /\ lendingItemStatesDirty s' = {[key]} ∪ lendingItemStatesDirty s
      /\ getLendingItem self d key s' = Done (Some newobj) s' []
      /\ (forall k, k <> key ->
            lendingItemStates s' !! k = lendingItemStates s !! k)
      /\ (orderId <> key -> lendingItemStates s !! orderId = None ->
            lendingItemStates s' !! orderId = None)
      /\ (OrderID order < 2 ^ 64 -> key = OrderID order).
Proof.
  intros self d orderId order s key newobj.
  assert (Hget : forall s',
             lendingItemStates s' = <[key := newobj]> (lendingItemStates s) ->
             getLendingItem self d key s' = Done (Some newobj) s' []).
  { intros s' E. unfold getLendingItem. rewrite bind_run. simpl.
    rewrite E, lookup_insert_eq. reflexivity. }
  assert (Hkey : OrderID order < 2 ^ 64 -> key = OrderID order).
  { intros Hlt. unfold key, BigToHash. apply N.mod_small.
    eapply N.lt_trans; [exact Hlt|]. reflexivity. }
  unfold createLendingItem.
  destruct s as [lb dat sdb0 er it bt lt ltt lts ltd ivs ivd bs bd lis lid [cb|]];
    run; do 2 eexists;
    (split; [reflexivity|]); simpl;
    (repeat split; auto);
    try (intros k Hk; apply lookup_insert_ne; intros E; apply Hk;
         symmetry; exact E);
    try (intros Hne Hnone; rewrite lookup_insert_ne;
         [exact Hnone|intros E; apply Hne; symmetry; exact E]).
Qed.


(** ** C9: removal of an order list *)




(** ** C4: the four creations *)

Lemma createInvestingOrderList_eager self d :
  creates_eagerly InvestingSlot investingStates investingStatesDirty
    (fun s p =>
       newItemListState (db s) INVESTING (lendingBook s) p itemList_zero
         (Some {| cb_recv := self; cb_method := InvestingMarker |}))
    (createInvestingOrderList self d).
Proof.
  intros p s. unfold createInvestingOrderList.
  destruct s as [lb dat sdb0 er it bt lt ltt lts ltd ivs ivd bs bd lis lid od].
  simpl. split.
  - intros e He. run. rewrite He. eexists. reflexivity.
  - intros enc t He Ht. subst it. run. rewrite He.
    rewrite bind_run, (onTrie_run _ _ _ t) by reflexivity.
    rewrite bind_run, setError_run. simpl.
    rewrite bind_run, notifyOwner_run. simpl.
    destruct (TryUpdate t (hashBytes p) enc) as [t' err]; simpl.
    destruct er as [e|], od as [cb|]; simpl; do 2 eexists;
      (split; [reflexivity|]); simpl; repeat split;
      intros [] Hne; try reflexivity; congruence.
Qed.

Lemma createBorrowingOrderList_eager self d :
  creates_eagerly BorrowingSlot borrowingStates borrowingStatesDirty
    (fun s p =>
       newItemListState (db s) BORROWING (lendingBook s) p itemList_zero
         (Some {| cb_recv := self; cb_method := BorrowingMarker |}))
    (createBorrowingOrderList self d).
Proof.
  intros p s. unfold createBorrowingOrderList.
  destruct s as [lb dat sdb0 er it bt lt ltt lts ltd ivs ivd bs bd lis lid od].
  simpl. split.
  - intros e He. run. rewrite He. eexists. reflexivity.
  - intros enc t He Ht. subst bt. run. rewrite He.
    rewrite bind_run, (onTrie_run _ _ _ t) by reflexivity.
    rewrite bind_run, setError_run. simpl.
    rewrite bind_run, notifyOwner_run. simpl.
    destruct (TryUpdate t (hashBytes p) enc) as [t' err]; simpl.
    destruct er as [e|], od as [cb|]; simpl; do 2 eexists;
      (split; [reflexivity|]); simpl; repeat split;
      intros [] Hne; try reflexivity; congruence.
Qed.

Lemma createLendingItem_deferred self d orderId order s :
  exists s' evs,
    createLendingItem self d orderId order s =
      Done (newLendinItemState (lendingBook s) orderId order
              (Some {| cb_recv := self; cb_method := LendingItemMarker |}))
           s' evs
    /\ lendingItemStates s' =
         <[BigToHash (OrderID order) :=
             newLendinItemState (lendingBook s) orderId order
               (Some {| cb_recv := self; cb_method := LendingItemMarker |})]>
           (lendingItemStates s)
    /\ lendingItemStatesDirty s' =
         {[BigToHash (OrderID order)]} ∪ lendingItemStatesDirty s
    /\ same_tries s s'.
Proof.
  unfold createLendingItem.
  destruct s as [lb dat sdb0 er it bt lt ltt lts ltd ivs ivd bs bd lis lid [cb|]];
    run; do 2 eexists; (split; [reflexivity|]); simpl; repeat split;
    intros []; reflexivity.
Qed.

Lemma createLiquidationTime_deferred self d time s :
  exists s',
    createLiquidationTime self d time s =
      Done (newLiquidationTimeState (db s) time (lendingBook s) itemList_zero
              (Some {| cb_recv := self; cb_method := LendingItemMarker |}))
           s' []
    /\ liquidationTimeStates s' =
         <[time :=
             newLiquidationTimeState (db s) time (lendingBook s) itemList_zero
               (Some {| cb_recv := self; cb_method := LendingItemMarker |})]>
           (liquidationTimeStates s)
    /\ same_tries s s'.
Proof.
  unfold createLiquidationTime.
  destruct s as [lb dat sdb0 er it bt lt ltt lts ltd ivs ivd bs bd lis lid od];
    run; eexists; (split; [reflexivity|]); simpl; repeat split;
    intros []; reflexivity.
Qed.


(** C4, in the form the code satisfies. [createInvestingOrderList] and
    [createBorrowingOrderList] build the new list, put it into the live cache
    of their collection, mark its key in the dirty set of the same
    collection and write its encoding into the trie of the collection with
    one [TryUpdate], and they panic when the encoder fails;
    [createLendingItem] builds the new item, puts it into the lending-item
    cache and marks its key in the lending-item dirty set, but encodes
    nothing and leaves the four tries alone (the leaf is written by the next
    flush); [createLiquidationTime] builds the new list and puts it into the
    liquidation-time cache. *)
Theorem C4_creations_cache_and_mark_only_lists_write_through :
  forall (self : addr) (d : Database),
    creates_eagerly InvestingSlot investingStates investingStatesDirty
      (fun s p =>
         newItemListState (db s) INVESTING (lendingBook s) p itemList_zero
           (Some {| cb_recv := self; cb_method := InvestingMarker |}))
      (createInvestingOrderList self d)
    /\ creates_eagerly BorrowingSlot borrowingStates borrowingStatesDirty
         (fun s p =>
            newItemListState (db s) BORROWING (lendingBook s) p itemList_zero
              (Some {| cb_recv := self; cb_method := BorrowingMarker |}))
         (createBorrowingOrderList self d)
    /\ (forall (orderId : Hash) (order : LendingItem)
               (s : lendingExchangeState),
          exists s' evs,
            createLendingItem self d orderId order s =
              Done (newLendinItemState (lendingBook s) orderId order
                      (Some {| cb_recv := self;
                               cb_method := LendingItemMarker |}))
                   s' evs
            /\ lendingItemStates s' =
                 <[BigToHash (OrderID order) :=
                     newLendinItemState (lendingBook s) orderId order
                       (Some {| cb_recv := self;
                                cb_method := LendingItemMarker |})]>
                   (lendingItemStates s)
            /\ lendingItemStatesDirty s' =
                 {[BigToHash (OrderID order)]} ∪ lendingItemStatesDirty s
            /\ same_tries s s')
    /\ (forall (time : Hash) (s : lendingExchangeState),
          exists s' evs,
            createLiquidationTime self d time s =
              Done (newLiquidationTimeState (db s) time (lendingBook s)
                      itemList_zero
                      (Some {| cb_recv := self;
                               cb_method := LendingItemMarker |}))
                   s' evs
            /\ liquidationTimeStates s' =
                 <[time :=
                     newLiquidationTimeState (db s) time (lendingBook s)
                       itemList_zero
                       (Some {| cb_recv := self;
                                cb_method := LendingItemMarker |})]>
                   (liquidationTimeStates s)).
Proof.
  intros self d. split; [|split; [|split]].
  - apply createInvestingOrderList_eager.
  - apply createBorrowingOrderList_eager.
  - intros orderId order s. apply createLendingItem_deferred.
  - intros time s.
    destruct (createLiquidationTime_deferred self d time s)
      as (s' & Hrun & Hcache & _).
    exists s', []. split; [exact Hrun|exact Hcache].
Qed.

(** ** C3: commits fail closed *)

Lemma openTrie_run slot root what d s :
  exists s',
    openTrie slot root what d s = Done (trieOf slot s') s' []
    /\ data s' = data s
    /\ (forall t, trieOf slot s = Some t -> s' = s).
Proof.
  unfold openTrie. rewrite bind_run. simpl.
  destruct (trieOf slot s) as [t|] eqn:Et.
  - exists s. rewrite Et. repeat split; auto.
  - destruct (OpenStorageTrie d (lendingBook s) (root (data s))) as [t1 [e|]].
    + destruct (OpenStorageTrie d (lendingBook s) EmptyHash) as [t2 e2].
      run. rewrite !setError_run. simpl.
      eexists. split; [reflexivity|].
      split; [|discriminate].
      destruct slot; destruct s as [lb dat sdb0 [er|] it bt lt ltt lts ltd ivs ivd bs bd lis lid od]; reflexivity.
    + run. eexists. split; [reflexivity|].
      split; [|discriminate]. destruct slot, s; reflexivity.
Qed.


(** The body of a flush loop changes neither the record nor the log. *)
Ltac flush_body :=
  let rate := fresh "rate" in
  let s := fresh "s" in
  intros rate s ? ? ? ?;
  destruct s as [lb dat sdb0 er it bt lt ltt lts ltd ivs ivd bs bd lis lid od];
  simpl in *;
  repeat first
    [ progress (rewrite bind_run; simpl)
    | progress (unfold onTrie)
    | rewrite setError_run
    | flush_case ];
  simpl; try discriminate; intros [= <- <-]; auto.

Ltac flush_silent slot root what :=
  let Hrun := fresh "Hrun" in
  let Hopen := fresh "Hopen" in
  let Hloop := fresh "Hloop" in
  let E := fresh "E" in
  let Hd := fresh "Hd" in
  let s0 := fresh "s0" in
  let s2 := fresh "s2" in
  let evs3 := fresh "evs" in
  intros Hrun;
  apply bind_inv in Hrun as (? & ? & ? & ? & Hopen & Hrun & ->);
  match type of Hopen with
  | _ ?d ?s = _ =>
      destruct (openTrie_run slot root what d s) as (s0 & E & Hd & _)
  end;
  unfold getInvestingTrie, getBorrowingTrie, getLendingItemTrie,
    getLiquidationTimeTrie in Hopen;
  rewrite E in Hopen; injection Hopen as <- <- <-;
  apply bind_inv in Hrun as (? & s2 & evs3 & ? & Hloop & Hrun & ->);
  revert Hrun; run; intros [= <- <- <-];
  rewrite <- Hd;
  enough (data s2 = data s0 /\ evs3 = []) as [-> ->] by auto;
  eapply (forEach_silent (fun x => data x = data s0));
    [|reflexivity|exact Hloop];
  clear; flush_body.

Lemma updateInvestingTrie_silent d order s r s' evs :
  updateInvestingTrie d order s = Done r s' evs ->
  data s' = data s /\ evs = [].
Proof.
  unfold updateInvestingTrie.
  flush_silent InvestingSlot InvestingRoot "can't create Lendings trie: ".
Qed.

Lemma updateBorrowingTrie_silent d order s r s' evs :
  updateBorrowingTrie d order s = Done r s' evs ->
  data s' = data s /\ evs = [].
Proof.
  unfold updateBorrowingTrie.
  flush_silent BorrowingSlot BorrowingRoot "can't create bids trie: ".
Qed.

Lemma updateLendingTimeTrie_silent d order s r s' evs :
  updateLendingTimeTrie d order s = Done r s' evs ->
  data s' = data s /\ evs = [].
Proof.
  unfold updateLendingTimeTrie.
  flush_silent LendingSlot LendingItemRoot "can't create Lendings trie: ".
Qed.

Lemma updateLiquidationTimeTrie_silent d order s r s' evs :
  updateLiquidationTimeTrie d order s = Done r s' evs ->
  data s' = data s /\ evs = [].
Proof.
  unfold updateLiquidationTimeTrie.
  flush_silent LiquidationTimeSlot LiquidationTimeRoot
    "can't create bids trie: ".
Qed.

Lemma setError_first errs :
  forall s, exists s',
    forEach errs setError s = Done tt s' []
    /\ dbErr s' = firstError (dbErr s :: errs).
Proof.
  induction errs as [|err errs IH]; intros s.
  - exists s. split; [reflexivity|]. simpl. destruct (dbErr s); reflexivity.
  - rewrite forEach_cons, bind_run, setError_run.
    destruct (IH (match dbErr s with
                  | None => set_dbErr err s
                  | Some _ => s
                  end)) as (s' & -> & E).
    exists s'. split; [reflexivity|]. rewrite E.
    destruct s as [lb dat sdb0 [e|] it bt lt ltt lts ltd ivs ivd bs bd lis lid od];
      simpl; [reflexivity|].
    destruct err; reflexivity.
Qed.

Lemma CommitLendingItemTrie_fails_closed d order :
  fails_closed LendingItemRoot (updateLendingTimeTrie d order) (CommitLendingItemTrie d order).
Proof.
  intros s r s' evs e Hflush Herr.
  destruct (updateLendingTimeTrie_silent _ _ _ _ _ _ Hflush) as [Hd ->].
  rewrite Hd. repeat split.
  unfold CommitLendingItemTrie.
  rewrite (bind_done _ _ _ _ _ _ Hflush), bind_run. simpl. rewrite Herr.
  reflexivity.
Qed.

Lemma CommitInvestingTrie_fails_closed d order :
  fails_closed InvestingRoot (updateInvestingTrie d order) (CommitInvestingTrie d order).
Proof.
  intros s r s' evs e Hflush Herr.
  destruct (updateInvestingTrie_silent _ _ _ _ _ _ Hflush) as [Hd ->].
  rewrite Hd. repeat split.
  unfold CommitInvestingTrie.
  rewrite (bind_done _ _ _ _ _ _ Hflush), bind_run. simpl. rewrite Herr.
  reflexivity.
Qed.

Lemma CommitBorrowingTrie_fails_closed d order :
  fails_closed BorrowingRoot (updateBorrowingTrie d order) (CommitBorrowingTrie d order).
Proof.
  intros s r s' evs e Hflush Herr.
  destruct (updateBorrowingTrie_silent _ _ _ _ _ _ Hflush) as [Hd ->].
  rewrite Hd. repeat split.
  unfold CommitBorrowingTrie.
  rewrite (bind_done _ _ _ _ _ _ Hflush), bind_run. simpl. rewrite Herr.
  reflexivity.
Qed.

Lemma CommitLiquidationTimeTrie_fails_closed d order :
  fails_closed LiquidationTimeRoot (updateLiquidationTimeTrie d order) (CommitLiquidationTimeTrie d order).
Proof.
  intros s r s' evs e Hflush Herr.
  destruct (updateLiquidationTimeTrie_silent _ _ _ _ _ _ Hflush) as [Hd ->].
  rewrite Hd. repeat split.
  unfold CommitLiquidationTimeTrie.
  rewrite (bind_done _ _ _ _ _ _ Hflush), bind_run. simpl. rewrite Herr.
  reflexivity.
Qed.

(** C3. For each of [CommitLendingItemTrie], [CommitInvestingTrie],
    [CommitBorrowingTrie] and [CommitLiquidationTimeTrie]: when the dirty
    flush ends with a memoised error, the commit returns that error, ends in
    the state the flush left (so the trie was not committed), logs no call
    of the trie's [Commit] and leaves the root field of its collection as it
    was; and the memoised error is the first non-nil error among those
    passed to [setError], later ones never replacing it. *)
Theorem C3_commit_fails_closed_on_memoised_error :
  forall (d : Database) (order : list Hash),
    fails_closed LendingItemRoot
      (updateLendingTimeTrie d order) (CommitLendingItemTrie d order)
    /\ fails_closed InvestingRoot
         (updateInvestingTrie d order) (CommitInvestingTrie d order)
    /\ fails_closed BorrowingRoot
         (updateBorrowingTrie d order) (CommitBorrowingTrie d order)
    /\ fails_closed LiquidationTimeRoot
         (updateLiquidationTimeTrie d order)
         (CommitLiquidationTimeTrie d order)
    /\ (forall (errs : list (option error)) (s : lendingExchangeState),
          exists s',
            forEach errs setError s = Done tt s' []
            /\ dbErr s' = firstError (dbErr s :: errs)).
Proof.
  intros d order. split; [|split; [|split; [|split]]].
  - apply CommitLendingItemTrie_fails_closed.
  - apply CommitInvestingTrie_fails_closed.
  - apply CommitBorrowingTrie_fails_closed.
  - apply CommitLiquidationTimeTrie_fails_closed.
  - apply setError_first.
Qed.


(** ** Owner notifications and copies *)

Lemma notifyOwner_counts s :
  exists s' evs,
    notifyOwner s = Done tt s' evs
    /\ notifications evs = (match onDirty s with Some _ => 1 | None => 0 end)%nat
    /\ onDirty s' = None.
Proof.
  rewrite notifyOwner_run.
  destruct s as [lb dat sdb0 er it bt lt ltt lts ltd ivs ivd bs bd lis lid [cb|]];
    do 2 eexists; repeat split.
Qed.

Lemma perform_notifies self d op s u s' evs :
  notifies_once op ->
  perform self d op s = Done u s' evs ->
  notifications evs = (match onDirty s with Some _ => 1 | None => 0 end)%nat /\ onDirty s' = None.
Proof.
  destruct s as [lb dat sdb0 er it bt lt ltt lts ltd ivs ivd bs bd lis lid od].
  destruct op as [nonce|p|p|orderId order|time|[] key]; simpl;
    intros Hop; try contradiction;
    unfold SetNonce, setNonce, createInvestingOrderList,
      createBorrowingOrderList, createLendingItem, MarkBorrowingDirty,
      MarkInvestingDirty, MarkLendingItemDirty, MarkLiquidationTimeDirty;
    repeat first
      [ progress (rewrite bind_run; simpl)
      | progress (unfold onTrie)
      | rewrite setError_run
      | rewrite notifyOwner_run
      | match goal with
        | |- context [match rlpEncodeItemListState ?o with _ => _ end] =>
            destruct (rlpEncodeItemListState o)
        end
      | flush_case ];
    simpl; try discriminate; intros [= <- <- <-]; auto.
Qed.

Lemma createLiquidationTime_silent self d time s u s' evs :
  perform self d (DoCreateLiquidationTime time) s = Done u s' evs ->
  notifications evs = 0%nat /\ onDirty s' = onDirty s.
Proof.
  destruct s as [lb dat sdb0 er it bt lt ltt lts ltd ivs ivd bs bd lis lid od].
  simpl. unfold createLiquidationTime. run. intros [= <- <- <-]. auto.
Qed.

(** [deepCopy] keeps the record and the four dirty sets, clones the
    investing, borrowing and lending tries, opens no liquidation-time trie,
    and binds every copied object to a dirty marker of the state it was
    copied from. *)
Lemma deepCopy_spec self sdb cb s :
  data (deepCopy self sdb cb s) = data s
  /\ investingStatesDirty (deepCopy self sdb cb s) = investingStatesDirty s
  /\ borrowingStatesDirty (deepCopy self sdb cb s) = borrowingStatesDirty s
  /\ lendingItemStatesDirty (deepCopy self sdb cb s)
     = lendingItemStatesDirty s
  /\ liquidationTimestatesDirty (deepCopy self sdb cb s)
     = liquidationTimestatesDirty s
  /\ liquidationTimeTrie (deepCopy self sdb cb s) = None
  /\ (forall k o, borrowingStates s !! k = Some o ->
        exists o', borrowingStates (deepCopy self sdb cb s) !! k = Some o'
                   /\ il_data o' = il_data o
                   /\ il_onDirty o'
                      = Some {| cb_recv := self;
                                cb_method := BorrowingMarker |}).
Proof.
  repeat split.
  intros k o Hk. simpl. rewrite lookup_fmap, Hk. simpl.
  eexists. repeat split.
Qed.
(** ** C7: cached lookups *)

Lemma tryGetOn_run t key (s : lendingExchangeState) :
  tryGetOn (Some t) key s = Done (TryGet t key) s [].
Proof. reflexivity. Qed.

(** The proof of a lookup contract, the same for the four getters. *)
Ltac lookup_contract_proof :=
  let key := fresh "key" in
  let s := fresh "s" in
  let Hc := fresh "Hc" in
  let Hopen := fresh "Hopen" in
  let Hget := fresh "Hget" in
  let Hne := fresh "Hne" in
  let Hdec := fresh "Hdec" in
  intros key s; split;
  [ intros ? Hc; rewrite bind_run; simpl; rewrite Hc; reflexivity
  | intros ? ? ? Hc Hopen; split; [|split];
    [ intros ? Hget
    | intros [|? ?] ? ? Hget Hne Hdec; [contradiction|]
    | intros [|? ?] ? ? Hget Hne Hdec; [contradiction|] ];
    rewrite bind_run; simpl; rewrite Hc;
    rewrite (bind_done _ _ _ _ _ _ Hopen);
    rewrite bind_run, tryGetOn_run, Hget; simpl;
    [ rewrite bind_run, setError_run; simpl; rewrite !app_nil_r;
      eexists; split; reflexivity
    | rewrite Hdec; rewrite bind_run; simpl; reflexivity
    | rewrite Hdec; rewrite !bind_run; simpl; rewrite !app_nil_r; reflexivity ] ].

Lemma getBorrowingOrderList_contract self d :
  lookup_contract borrowingStates set_borrowingStates (getBorrowingTrie d)
    rlpDecodeItemList
    (fun s rate dat =>
       newItemListState (db s) BORROWING (lendingBook s) rate dat
         (Some {| cb_recv := self; cb_method := BorrowingMarker |}))
    "Failed to decode state order list object"
    (getBorrowingOrderList self d).
Proof. unfold getBorrowingOrderList. lookup_contract_proof. Qed.

Lemma getInvestingOrderList_contract self d :
  lookup_contract investingStates set_investingStates (getInvestingTrie d)
    rlpDecodeItemList
    (fun s rate dat =>
       newItemListState (db s) INVESTING (lendingBook s) rate dat
         (Some {| cb_recv := self; cb_method := BorrowingMarker |}))
    "Failed to decode state order list object"
    (getInvestingOrderList self d).
Proof. unfold getInvestingOrderList. lookup_contract_proof. Qed.

Lemma getLiquidationTimeOrderList_contract self d :
  lookup_contract liquidationTimeStates set_liquidationTimeStates
    (getLiquidationTimeTrie d) rlpDecodeItemList
    (fun s time dat =>
       newLiquidationTimeState (db s) (lendingBook s) time dat
         (Some {| cb_recv := self; cb_method := InvestingMarker |}))
    "Failed to decode state liquidation time"
    (getLiquidationTimeOrderList self d).
Proof. unfold getLiquidationTimeOrderList. lookup_contract_proof. Qed.

Lemma getLendingItem_contract self d :
  lookup_contract lendingItemStates set_lendingItemStates
    (getLendingItemTrie d) rlpDecodeLendingItem
    (fun s lendingId dat =>
       newLendinItemState (lendingBook s) lendingId dat
         (Some {| cb_recv := self; cb_method := LendingItemMarker |}))
    "Failed to decode state lending item"
    (getLendingItem self d).
Proof. unfold getLendingItem. lookup_contract_proof. Qed.

(** C7. Each of [getInvestingOrderList], [getBorrowingOrderList],
    [getLiquidationTimeOrderList] and [getLendingItem] returns the live
    object of the key unchanged when the cache has one; otherwise, when the
    trie lookup yields no bytes it returns nil (the lookup error, if any, is
    memoised, none is raised), when the bytes fail to decode it returns nil
    and only logs the failure, and when they decode it puts the decoded
    object into the live cache and returns it. *)
Theorem C7_lookups_prefer_live_objects_and_degrade_to_absence :
  forall (self : addr) (d : Database),
    lookup_contract investingStates set_investingStates (getInvestingTrie d)
      rlpDecodeItemList
      (fun s rate dat =>
         newItemListState (db s) INVESTING (lendingBook s) rate dat
           (Some {| cb_recv := self; cb_method := BorrowingMarker |}))
      "Failed to decode state order list object"
      (getInvestingOrderList self d)
    /\ lookup_contract borrowingStates set_borrowingStates
         (getBorrowingTrie d) rlpDecodeItemList
         (fun s rate dat =>
            newItemListState (db s) BORROWING (lendingBook s) rate dat
              (Some {| cb_recv := self; cb_method := BorrowingMarker |}))
         "Failed to decode state order list object"
         (getBorrowingOrderList self d)
    /\ lookup_contract liquidationTimeStates set_liquidationTimeStates
         (getLiquidationTimeTrie d) rlpDecodeItemList
         (fun s time dat =>
            newLiquidationTimeState (db s) (lendingBook s) time dat
              (Some {| cb_recv := self; cb_method := InvestingMarker |}))
         "Failed to decode state liquidation time"
         (getLiquidationTimeOrderList self d)
    /\ lookup_contract lendingItemStates set_lendingItemStates
         (getLendingItemTrie d) rlpDecodeLendingItem
         (fun s lendingId dat =>
            newLendinItemState (lendingBook s) lendingId dat
              (Some {| cb_recv := self; cb_method := LendingItemMarker |}))
         "Failed to decode state lending item"
         (getLendingItem self d).
Proof.
  intros self d. split; [|split; [|split]].
  - apply getInvestingOrderList_contract.
  - apply getBorrowingOrderList_contract.
  - apply getLiquidationTimeOrderList_contract.
  - apply getLendingItem_contract.
Qed.

End Properties.

(** ** C5: best rates *)

Section BestRates.
Context `{Persistence} `{!SubStates} `{!TrieLaws}.





End BestRates.

(** ** Lazy opening of the tries *)

Section Opening.
Context `{Persistence} `{!SubStates}.

Lemma same_memory_refl slot s : same_memory slot s s.
Proof. repeat split. Qed.

Lemma openTrie_lazily slot root what :
  opens_lazily slot root what (openTrie slot root what).
Proof.
  assert (Hopen : forall d s t,
            trieOf slot s = Some t ->
            openTrie slot root what d s = Done (Some t) s []).
  { intros d s t Ht. unfold openTrie. rewrite bind_run. simpl.
    rewrite Ht. reflexivity. }
  assert (Hok : forall d s t1,
            trieOf slot s = None ->
            OpenStorageTrie d (lendingBook s) (root (data s)) = (t1, None) ->
            exists s',
              openTrie slot root what d s = Done t1 s' []
              /\ trieOf slot s' = t1
              /\ dbErr s' = dbErr s
              /\ same_memory slot s s').
  { intros d s t1 Hnone Hdb. unfold openTrie. rewrite bind_run. simpl.
    rewrite Hnone, Hdb. run.
    exists (setTrie slot t1 s). rewrite trieOf_setTrie.
    split; [reflexivity|]. split; [reflexivity|].
    destruct s as [lb dat sdb0 er it bt lt ltt lts ltd ivs ivd bs bd lis lid od].
    destruct slot; simpl; (split; [reflexivity|]); repeat split;
      intros [] Hne; try reflexivity; congruence. }
  assert (Hfail : forall d s t1 e,
            trieOf slot s = None ->
            OpenStorageTrie d (lendingBook s) (root (data s)) = (t1, Some e) ->
            exists s',
              openTrie slot root what d s
              = Done (OpenStorageTrie d (lendingBook s) EmptyHash).1 s' []
              /\ trieOf slot s'
                 = (OpenStorageTrie d (lendingBook s) EmptyHash).1
              /\ dbErr s' = firstError [dbErr s; Some (String.append what e)]
              /\ same_memory slot s s').
  { intros d s t1 e Hnone Hdb. unfold openTrie. rewrite bind_run. simpl.
    rewrite Hnone, Hdb.
    destruct (OpenStorageTrie d (lendingBook s) EmptyHash) as [t2 e2].
    run. rewrite !setError_run. simpl.
    destruct s as [lb dat sdb0 er it bt lt ltt lts ltd ivs ivd bs bd lis lid od].
    destruct slot, er as [e0|]; simpl; eexists;
      (split; [reflexivity|]); (split; [reflexivity|]);
      (split; [reflexivity|]); repeat split;
      intros [] Hne; try reflexivity; congruence. }
  intros d s. split; [apply Hopen|].
  split; [intros Hn t1; apply Hok; exact Hn|].
  split; [intros Hn t1 e; apply Hfail; exact Hn|].
  intros r s' evs t Hrun ->.
  apply Hopen.
  destruct (trieOf slot s) as [t0|] eqn:Ht.
  - rewrite (Hopen _ _ _ Ht) in Hrun. injection Hrun as <- <- <-. exact Ht.
  - destruct (OpenStorageTrie d (lendingBook s) (root (data s)))
      as [t1 [e|]] eqn:Hdb.
    + destruct (Hfail _ _ _ _ Ht Hdb) as (s2 & E & Ht2 & _).
      rewrite E in Hrun. injection Hrun as Hr <- <-. congruence.
    + destruct (Hok _ _ _ Ht Hdb) as (s2 & E & Ht2 & _).
      rewrite E in Hrun. injection Hrun as Hr <- <-. congruence.
Qed.

(** X1. Each of [getLendingItemTrie], [getInvestingTrie],
    [getBorrowingTrie] and [getLiquidationTimeTrie] returns an open handle
    as it is, without a change; opens a closed one at the root of the
    record; when that fails opens the empty trie in its place and memoises
    the failure unless an earlier error is memoised; changes nothing but
    its handle and the error slot; and called again after it returned a
    handle, returns the same handle and changes nothing. *)
Theorem X1_tries_open_lazily_with_empty_fallback :
  opens_lazily LendingSlot LendingItemRoot "can't create Lendings trie: "
    getLendingItemTrie
  /\ opens_lazily InvestingSlot InvestingRoot "can't create Lendings trie: "
       getInvestingTrie
  /\ opens_lazily BorrowingSlot BorrowingRoot "can't create bids trie: "
       getBorrowingTrie
  /\ opens_lazily LiquidationTimeSlot LiquidationTimeRoot
       "can't create bids trie: " getLiquidationTimeTrie.
Proof. repeat split; apply openTrie_lazily. Qed.

(** Whatever the outcome of the opening, it logs nothing and touches only
    the handle and the error slot. *)
Lemma openTrie_frame slot root what d s :
  exists s',
    openTrie slot root what d s = Done (trieOf slot s') s' []
    /\ same_memory slot s s'
    /\ (forall e, dbErr s = Some e -> dbErr s' = Some e)
    /\ (forall t, trieOf slot s = Some t -> s' = s).
Proof.
  destruct (trieOf slot s) as [t0|] eqn:Ht.
  - destruct (openTrie_lazily slot root what d s) as (Hopen & _).
    exists s. rewrite Ht. split; [apply Hopen; exact Ht|].
    split; [apply same_memory_refl|]. auto.
  - destruct (OpenStorageTrie d (lendingBook s) (root (data s)))
      as [t1 [e|]] eqn:Hdb;
      destruct (openTrie_lazily slot root what d s)
        as (_ & Hok & Hfail & _).
    + destruct (Hfail Ht _ _ Hdb) as (s2 & E & Ht2 & He & Hm).
      exists s2. rewrite Ht2. split; [exact E|]. split; [exact Hm|].
      split; [|discriminate]. intros e0 He0. rewrite He, He0. reflexivity.
    + destruct (Hok Ht _ Hdb) as (s2 & E & Ht2 & He & Hm).
      exists s2. rewrite Ht2. split; [exact E|]. split; [exact Hm|].
      split; [|discriminate]. intros e0 He0. rewrite He, He0. reflexivity.
Qed.

End Opening.

(** ** Dirty flushes *)

(** Case analysis on what the body of a flush loop inspects, keeping what
    was found. *)
Ltac flush_case_eq :=
  match goal with
  | |- context [match ?m !! ?k with _ => _ end] =>
      let E := fresh "Hlook" in destruct (m !! k) eqn:E
  | |- context [decide (?k ∈ ?X)] => destruct (decide (k ∈ X))
  | |- context [if ?b then _ else _] => destruct b
  | |- context [match ?t with Some _ => _ | None => _ end] =>
      is_var t; destruct t
  | |- context [let '(_, _) := ?p in _] => destruct p
  end.

Ltac flush_run :=
  repeat first
    [ progress (rewrite bind_run; simpl)
    | progress (unfold onTrie)
    | rewrite setError_run
    | flush_case_eq ];
  simpl.

Section Flushes.
Context `{Persistence} `{!SubStates}.

Lemma flushed_nil slot s : flushed slot [] s s.
Proof.
  unfold flushed. split; [reflexivity|]. split; [simpl; set_solver|].
  repeat split; try reflexivity. destruct slot'; reflexivity.
Qed.

Lemma same_cache_trans slot s1 s2 s3 :
  same_cache slot s1 s2 -> same_cache slot s2 s3 -> same_cache slot s1 s3.
Proof. destruct slot; simpl; congruence. Qed.

Lemma flushed_cons slot x xs s s1 s2 :
  flushed slot [x] s s1 -> flushed slot xs s1 s2 ->
  flushed slot (x :: xs) s s2.
Proof.
  intros (K1 & D1 & B1 & R1 & P1 & O1 & F1) (K2 & D2 & B2 & R2 & P2 & O2 & F2).
  unfold flushed.
  split; [congruence|]. split; [rewrite D2, D1, K1; simpl; set_solver|].
  split; [congruence|]. split; [congruence|]. split; [congruence|].
  split; [congruence|].
  intros sl Hsl. destruct (F1 _ Hsl) as (T1 & E1 & C1).
  destruct (F2 _ Hsl) as (T2 & E2 & C2).
  split; [congruence|]. split; [congruence|].
  eapply same_cache_trans; eassumption.
Qed.

Lemma forEach_flushed slot (body : Hash -> X unit) :
  (forall x s u s1 evs,
     body x s = Done u s1 evs -> flushed slot [x] s s1 /\ evs = []) ->
  forall xs s u s' evs,
    forEach xs body s = Done u s' evs -> flushed slot xs s s' /\ evs = [].
Proof.
  intros Hbody. induction xs as [|x xs IH]; intros s u s' evs Hrun.
  - simpl in Hrun. injection Hrun as _ <- <-.
    split; [apply flushed_nil|reflexivity].
  - rewrite forEach_cons in Hrun.
    apply bind_inv in Hrun as (a & s1 & evs1 & evs2 & Hx & Hxs & ->).
    destruct (Hbody _ _ _ _ _ Hx) as [F1 ->].
    destruct (IH _ _ _ _ Hxs) as [F2 ->].
    split; [eapply flushed_cons; eassumption|reflexivity].
Qed.

Lemma same_memory_flushed slot order s s1 s' :
  same_memory slot s s1 -> flushed slot order s1 s' -> flushed slot order s s'.
Proof.
  intros (B & R & P & T & C1 & D1 & C2 & D2 & C3 & D3 & C4 & D4 & O)
         (K2 & D & B2 & R2 & P2 & O2 & F2).
  assert (Hd : forall sl, dirtyOf sl s1 = dirtyOf sl s)
    by (intros []; simpl; assumption).
  assert (Hk : forall sl, cachedKeys sl s1 = cachedKeys sl s)
    by (intros []; simpl; congruence).
  assert (Hc : forall sl, same_cache sl s s1)
    by (intros []; simpl; assumption).
  unfold flushed. rewrite K2, D, Hd, !Hk.
  split; [reflexivity|]. split; [reflexivity|].
  split; [congruence|]. split; [congruence|]. split; [congruence|].
  split; [congruence|].
  intros sl Hsl. destruct (F2 _ Hsl) as (T2 & E2 & C5).
  split; [rewrite T2; apply T; exact Hsl|].
  split; [rewrite E2; apply Hd|].
  eapply same_cache_trans; [apply Hc|exact C5].
Qed.

(** The body of a flush loop visits one key. *)
Ltac flush_visit :=
  let x := fresh "x" in
  let s := fresh "s" in
  intros x s ? ? ?;
  destruct s as [lb dat sdb0 er it bt lt ltt lts ltd ivs ivd bs bd lis lid od];
  simpl; flush_run; try discriminate; intros [= <- <- <-];
  (split; [|reflexivity]); unfold flushed; simpl;
  repeat match goal with
         | E : _ !! _ = Some _ |- _ => apply elem_of_dom_2 in E
         | E : _ !! _ = None |- _ => apply not_elem_of_dom in E
         end;
  (split; [try rewrite dom_insert_L; set_solver|]);
  (split; [set_solver|]);
  repeat split; try reflexivity;
  match goal with
  | sl : trieSlot |- _ => destruct sl; simpl; try reflexivity; congruence
  end.

Ltac flush_contract_proof slot root what :=
  let Hrun := fresh "Hrun" in
  let Hloop := fresh "Hloop" in
  let E := fresh "E" in
  let Hm := fresh "Hm" in
  let s0 := fresh "s0" in
  intros d order s r s' evs Hrun;
  apply bind_inv in Hrun as (? & ? & ? & ? & Hopen & Hrun & ->);
  destruct (openTrie_frame slot root what d s) as (s0 & E & Hm & _);
  unfold getInvestingTrie, getBorrowingTrie, getLendingItemTrie,
    getLiquidationTimeTrie in Hopen;
  rewrite E in Hopen; injection Hopen as <- <- <-;
  apply bind_inv in Hrun as (? & ? & ? & ? & Hloop & Hrun & ->);
  revert Hrun; run; intros [= <- <- <-];
  apply (forEach_flushed slot) in Hloop as [Hloop ->];
    [split; [reflexivity|]; split; [reflexivity|];
     eapply same_memory_flushed; eassumption
    |clear; flush_visit].

Lemma updateInvestingTrie_flushes :
  flush_contract InvestingSlot updateInvestingTrie.
Proof.
  unfold updateInvestingTrie.
  flush_contract_proof InvestingSlot InvestingRoot
    "can't create Lendings trie: ".
Qed.

Lemma updateBorrowingTrie_flushes :
  flush_contract BorrowingSlot updateBorrowingTrie.
Proof.
  unfold updateBorrowingTrie.
  flush_contract_proof BorrowingSlot BorrowingRoot "can't create bids trie: ".
Qed.

Lemma updateLendingTimeTrie_flushes :
  flush_contract LendingSlot updateLendingTimeTrie.
Proof.
  unfold updateLendingTimeTrie.
  flush_contract_proof LendingSlot LendingItemRoot
    "can't create Lendings trie: ".
Qed.

Lemma updateLiquidationTimeTrie_flushes :
  flush_contract LiquidationTimeSlot updateLiquidationTimeTrie.
Proof.
  unfold updateLiquidationTimeTrie.
  flush_contract_proof LiquidationTimeSlot LiquidationTimeRoot
    "can't create bids trie: ".
Qed.

(** X2. Each of the four dirty flushes logs nothing and returns the handle
    of its trie; it keeps the keys of its live cache and removes from its
    dirty set exactly the visited keys that have a cached object, so a
    dirty key without a cached object stays dirty; it leaves the record,
    the owner callback, and the tries, caches and dirty sets of the other
    three collections as they were. *)
Theorem X2_flush_clears_cached_dirty_keys_only :
  flush_contract LendingSlot updateLendingTimeTrie
  /\ flush_contract InvestingSlot updateInvestingTrie
  /\ flush_contract BorrowingSlot updateBorrowingTrie
  /\ flush_contract LiquidationTimeSlot updateLiquidationTimeTrie.
Proof.
  split; [apply updateLendingTimeTrie_flushes|].
  split; [apply updateInvestingTrie_flushes|].
  split; [apply updateBorrowingTrie_flushes|].
  apply updateLiquidationTimeTrie_flushes.
Qed.

(** A loop whose body does nothing does nothing. *)
Lemma forEach_noop (body : Hash -> X unit) (s : lendingExchangeState) :
  forall xs, (forall x, body x s = Done tt s []) ->
             forEach xs body s = Done tt s [].
Proof.
  intros xs Hbody. induction xs as [|x xs IH]; [reflexivity|].
  rewrite forEach_cons, (bind_done _ _ _ _ _ _ (Hbody x)), IH. reflexivity.
Qed.

Ltac flush_noop_proof slot root what :=
  let Ht := fresh "Ht" in
  let Hclean := fresh "Hclean" in
  let E := fresh "E" in
  let x := fresh "x" in
  intros d order s t Ht Hclean; cbv beta;
  destruct (openTrie_lazily slot root what d s) as (E & _);
  unfold getInvestingTrie, getBorrowingTrie, getLendingItemTrie,
    getLiquidationTimeTrie;
  rewrite (bind_done _ _ _ _ _ _ (E _ Ht));
  rewrite bind_run, forEach_noop;
  [ simpl; simpl in Ht; rewrite Ht; reflexivity
  | intros x; rewrite bind_run; simpl;
    destruct s as [lb dat sdb0 er it bt lt ltt lts ltd ivs ivd bs bd lis lid od];
    simpl in *;
    match goal with
    | |- context [match ?m !! ?k with _ => _ end] =>
        let L := fresh "L" in
        destruct (m !! k) eqn:L; [|reflexivity];
        apply elem_of_dom_2 in L;
        destruct (decide (k ∈ _)); [set_solver|reflexivity]
    end ].

Lemma updateInvestingTrie_noop : flush_noop InvestingSlot updateInvestingTrie.
Proof.
  unfold updateInvestingTrie.
  flush_noop_proof InvestingSlot InvestingRoot "can't create Lendings trie: ".
Qed.

Lemma updateBorrowingTrie_noop : flush_noop BorrowingSlot updateBorrowingTrie.
Proof.
  unfold updateBorrowingTrie.
  flush_noop_proof BorrowingSlot BorrowingRoot "can't create bids trie: ".
Qed.

Lemma updateLendingTimeTrie_noop : flush_noop LendingSlot updateLendingTimeTrie.
Proof.
  unfold updateLendingTimeTrie.
  flush_noop_proof LendingSlot LendingItemRoot "can't create Lendings trie: ".
Qed.

Lemma updateLiquidationTimeTrie_noop :
  flush_noop LiquidationTimeSlot updateLiquidationTimeTrie.
Proof.
  unfold updateLiquidationTimeTrie.
  flush_noop_proof LiquidationTimeSlot LiquidationTimeRoot
    "can't create bids trie: ".
Qed.

Lemma flush_settles_of slot flush :
  flush_contract slot flush -> flush_noop slot flush ->
  flush_settles slot flush.
Proof.
  intros Hc Hn d order order' s t s' evs Hall Hrun.
  destruct (Hc _ _ _ _ _ _ Hrun) as (_ & Ht & K & D & _).
  apply Hn; [symmetry; exact Ht|]. rewrite D, K. set_solver.
Qed.

(** X3. Each of the four dirty flushes, run with its trie open on a state
    in which no cached key of its collection is dirty, returns the handle
    and leaves the state exactly as it was, in whatever order it visits the
    cache; so after a flush that visited every cached key, a further flush
    in any order changes nothing. *)
Theorem X3_flush_without_dirty_keys_is_a_noop :
  (flush_noop LendingSlot updateLendingTimeTrie
   /\ flush_noop InvestingSlot updateInvestingTrie
   /\ flush_noop BorrowingSlot updateBorrowingTrie
   /\ flush_noop LiquidationTimeSlot updateLiquidationTimeTrie)
  /\ (flush_settles LendingSlot updateLendingTimeTrie
      /\ flush_settles InvestingSlot updateInvestingTrie
      /\ flush_settles BorrowingSlot updateBorrowingTrie
      /\ flush_settles LiquidationTimeSlot updateLiquidationTimeTrie).
Proof.
  split; (split; [|split; [|split]]);
    try (apply flush_settles_of);
    first [ apply updateLendingTimeTrie_noop
          | apply updateInvestingTrie_noop
          | apply updateBorrowingTrie_noop
          | apply updateLiquidationTimeTrie_noop
          | apply updateLendingTimeTrie_flushes
          | apply updateInvestingTrie_flushes
          | apply updateBorrowingTrie_flushes
          | apply updateLiquidationTimeTrie_flushes ].
Qed.

End Flushes.

(** ** Flushes do not panic; roots and commits *)

Section RootsAndCommits.
Context `{Persistence} `{!SubStates}.

Lemma forEach_total {St A} (P : St -> Prop) (body : A -> M St unit) :
  (forall x s, P s -> exists s1, body x s = Done tt s1 [] /\ P s1) ->
  forall xs s, P s -> exists s', forEach xs body s = Done tt s' [] /\ P s'.
Proof.
  intros Hbody. induction xs as [|x xs IH]; intros s Hs.
  - exists s. split; [reflexivity|exact Hs].
  - destruct (Hbody x s Hs) as (s1 & E1 & Hs1).
    destruct (IH s1 Hs1) as (s' & E' & Hs').
    exists s'. rewrite forEach_cons, (bind_done _ _ _ _ _ _ E1), E'.
    split; [reflexivity|exact Hs'].
Qed.

Ltac flush_total_proof slot root what :=
  let Ht := fresh "Ht" in
  let E := fresh "E" in
  let x := fresh "key" in
  let s1 := fresh "st" in
  let Hs := fresh "Hs" in
  let Hloop := fresh "Hloop" in
  intros d order s t Ht; cbv beta;
  destruct (openTrie_lazily slot root what d s) as (E & _);
  unfold getInvestingTrie, getBorrowingTrie, getLendingItemTrie,
    getLiquidationTimeTrie;
  rewrite (bind_done _ _ _ _ _ _ (E _ Ht));
  rewrite bind_run;
  match goal with
  | |- context [forEach order ?body s] =>
      destruct (forEach_total (fun x => exists t', trieOf slot x = Some t')
                  body) with (xs := order) (s := s)
        as (s1 & Hloop & [t' Hs]);
      [ clear; intros x s1 [t' Hs];
        destruct s1 as [lb dat sdb0 er it bt lt ltt lts ltd ivs ivd bs bd
                          lis lid od];
        simpl in Hs; subst; simpl;
        flush_run; eexists; (split; [reflexivity|]); simpl; eauto
      | eauto
      | rewrite Hloop; simpl; simpl in Hs; rewrite Hs; eauto ]
  end.

Lemma updateInvestingTrie_total : flush_total InvestingSlot updateInvestingTrie.
Proof.
  unfold updateInvestingTrie.
  flush_total_proof InvestingSlot InvestingRoot "can't create Lendings trie: ".
Qed.

Lemma updateBorrowingTrie_total : flush_total BorrowingSlot updateBorrowingTrie.
Proof.
  unfold updateBorrowingTrie.
  flush_total_proof BorrowingSlot BorrowingRoot "can't create bids trie: ".
Qed.

Lemma updateLendingTimeTrie_total :
  flush_total LendingSlot updateLendingTimeTrie.
Proof.
  unfold updateLendingTimeTrie.
  flush_total_proof LendingSlot LendingItemRoot "can't create Lendings trie: ".
Qed.

Lemma updateLiquidationTimeTrie_total :
  flush_total LiquidationTimeSlot updateLiquidationTimeTrie.
Proof.
  unfold updateLiquidationTimeTrie.
  flush_total_proof LiquidationTimeSlot LiquidationTimeRoot
    "can't create bids trie: ".
Qed.

(** X4. Each of the four dirty flushes, run with the trie of its collection
    open, returns a handle: it does not dereference a nil trie, whatever is
    cached, whatever is dirty and whatever the trie answers. *)
Theorem X4_flush_with_open_trie_does_not_panic :
  flush_total LendingSlot updateLendingTimeTrie
  /\ flush_total InvestingSlot updateInvestingTrie
  /\ flush_total BorrowingSlot updateBorrowingTrie
  /\ flush_total LiquidationTimeSlot updateLiquidationTimeTrie.
Proof.
  split; [apply updateLendingTimeTrie_total|].
  split; [apply updateInvestingTrie_total|].
  split; [apply updateBorrowingTrie_total|].
  apply updateLiquidationTimeTrie_total.
Qed.

Ltac stores_root_proof flushes :=
  let Hflush := fresh "Hflush" in
  let Hd := fresh "Hd" in
  let Ht := fresh "Ht" in
  intros d order s r s1 evs Hflush; cbv beta;
  destruct (flushes _ _ _ _ _ _ Hflush) as (-> & _ & _ & _ & _ & Hd & _);
  rewrite (bind_done _ _ _ _ _ _ Hflush); rewrite <- Hd;
  destruct s1 as [lb dat sdb0 er it bt lt ltt lts ltd ivs ivd bs bd lis lid od];
  simpl; unfold readTrie; split;
  [ intros t Ht; simpl in Ht; subst; run; reflexivity
  | intros Ht; simpl in Ht; subst; run; eexists; reflexivity ].

Lemma updateOrderRoot_stores :
  stores_root LendingSlot set_LendingItemRoot updateLendingTimeTrie
    updateOrderRoot.
Proof. unfold updateOrderRoot. stores_root_proof updateLendingTimeTrie_flushes. Qed.

Lemma updateBorrowingRoot_stores :
  stores_root BorrowingSlot set_BorrowingRoot updateBorrowingTrie
    updateBorrowingRoot.
Proof. unfold updateBorrowingRoot. stores_root_proof updateBorrowingTrie_flushes. Qed.

Lemma updateLiquidationTimeRoot_stores :
  stores_root LiquidationTimeSlot set_LiquidationTimeRoot
    updateLiquidationTimeTrie updateLiquidationTimeRoot.
Proof.
  unfold updateLiquidationTimeRoot.
  stores_root_proof updateLiquidationTimeTrie_flushes.
Qed.

Lemma updateInvestingRoot_stores :
  stores_root_unless_error updateInvestingTrie updateInvestingRoot.
Proof.
  intros d order s r s1 evs Hflush. unfold updateInvestingRoot.
  destruct (updateInvestingTrie_flushes _ _ _ _ _ _ Hflush)
    as (-> & _ & _ & _ & _ & Hd & _).
  rewrite (bind_done _ _ _ _ _ _ Hflush). rewrite <- Hd.
  destruct s1 as [lb dat sdb0 er it bt lt ltt lts ltd ivs ivd bs bd lis lid od].
  simpl. unfold readTrie. split.
  - intros e He. simpl in He. subst. run. split; reflexivity.
  - intros t He Ht. simpl in He, Ht. subst. run. reflexivity.
Qed.

(** X5. [updateOrderRoot], [updateBorrowingRoot] and
    [updateLiquidationTimeRoot] flush and then store the hash of their trie
    in the root field of their collection, also when an error is memoised,
    and panic on a nil handle; [updateInvestingRoot] returns a memoised
    error instead and then leaves the record as it was, and stores the hash
    and returns nil only without one.  In each case the nonce and the other
    three roots are those of before the call. *)
Theorem X5_update_roots_store_the_trie_hash :
  stores_root LendingSlot set_LendingItemRoot updateLendingTimeTrie
    updateOrderRoot
  /\ stores_root BorrowingSlot set_BorrowingRoot updateBorrowingTrie
       updateBorrowingRoot
  /\ stores_root LiquidationTimeSlot set_LiquidationTimeRoot
       updateLiquidationTimeTrie updateLiquidationTimeRoot
  /\ stores_root_unless_error updateInvestingTrie updateInvestingRoot.
Proof.
  split; [apply updateOrderRoot_stores|].
  split; [apply updateBorrowingRoot_stores|].
  split; [apply updateLiquidationTimeRoot_stores|].
  apply updateInvestingRoot_stores.
Qed.

Lemma forEach_emit (evs : list event) (s : lendingExchangeState) :
  forEach evs emit s = Done tt s evs.
Proof.
  induction evs as [|e evs IH]; [reflexivity|].
  rewrite forEach_cons, bind_run. simpl. rewrite IH. reflexivity.
Qed.

Lemma forEach_onleaf (leaves : list (bytes * Hash))
    (s : lendingExchangeState) :
  forEach leaves (fun lp => forEach (onleaf lp.1 lp.2) emit) s
  = Done tt s (flat_map (fun lp => onleaf lp.1 lp.2) leaves).
Proof.
  induction leaves as [|lp leaves IH]; [reflexivity|].
  rewrite forEach_cons, bind_run, forEach_emit, IH. reflexivity.
Qed.

Ltac commits_clean_proof flushes :=
  let Hflush := fresh "Hflush" in
  let He := fresh "He" in
  let Ht := fresh "Ht" in
  let Hd := fresh "Hd" in
  intros d order s r s1 evs t Hflush He Ht; cbv beta;
  destruct (flushes _ _ _ _ _ _ Hflush) as (-> & _ & _ & _ & _ & Hd & _);
  rewrite (bind_done _ _ _ _ _ _ Hflush); rewrite <- Hd;
  destruct s1 as [lb dat sdb0 er it bt lt ltt lts ltd ivs ivd bs bd lis lid od];
  simpl in He, Ht; subst; unfold commitTrie;
  run; rewrite ?forEach_onleaf; simpl;
  destruct (Commit t) as [t' [root [e|]]]; simpl; run;
  eexists; (split; [rewrite ?app_nil_r; reflexivity|]); simpl;
  (split; [reflexivity|]); (split; [reflexivity|]);
  (split; [reflexivity|]); (split; [reflexivity|]);
  (split; [intros []; split; reflexivity
          |intros [] Hne; try reflexivity; congruence]).

Lemma CommitInvestingTrie_clean :
  commits_clean InvestingSlot true set_InvestingRoot updateInvestingTrie
    CommitInvestingTrie.
Proof.
  unfold CommitInvestingTrie. commits_clean_proof updateInvestingTrie_flushes.
Qed.

Lemma CommitBorrowingTrie_clean :
  commits_clean BorrowingSlot true set_BorrowingRoot updateBorrowingTrie
    CommitBorrowingTrie.
Proof.
  unfold CommitBorrowingTrie. commits_clean_proof updateBorrowingTrie_flushes.
Qed.

Lemma CommitLendingItemTrie_clean :
  commits_clean LendingSlot false set_LendingItemRoot updateLendingTimeTrie
    CommitLendingItemTrie.
Proof.
  unfold CommitLendingItemTrie.
  commits_clean_proof updateLendingTimeTrie_flushes.
Qed.

Lemma CommitLiquidationTimeTrie_clean :
  commits_clean LiquidationTimeSlot true set_LiquidationTimeRoot
    updateLiquidationTimeTrie CommitLiquidationTimeTrie.
Proof.
  unfold CommitLiquidationTimeTrie.
  commits_clean_proof updateLiquidationTimeTrie_flushes.
Qed.

(** X6. A commit whose flush left no memoised error commits the trie of its
    collection once: it returns what [Commit] returns, stores the committed
    root in the root field of its collection only when [Commit] reports no
    error, does not memoise a [Commit] error, and changes no dirty set, no
    cache, no other trie and not the owner callback.  The three list
    commits report the references of the committed leaves; the lending-item
    commit reports none. *)
Theorem X6_commit_stores_root_only_on_success :
  commits_clean InvestingSlot true set_InvestingRoot updateInvestingTrie
    CommitInvestingTrie
  /\ commits_clean BorrowingSlot true set_BorrowingRoot updateBorrowingTrie
       CommitBorrowingTrie
  /\ commits_clean LendingSlot false set_LendingItemRoot
       updateLendingTimeTrie CommitLendingItemTrie
  /\ commits_clean LiquidationTimeSlot true set_LiquidationTimeRoot
       updateLiquidationTimeTrie CommitLiquidationTimeTrie.
Proof.
  split; [apply CommitInvestingTrie_clean|].
  split; [apply CommitBorrowingTrie_clean|].
  split; [apply CommitLendingItemTrie_clean|].
  apply CommitLiquidationTimeTrie_clean.
Qed.

End RootsAndCommits.

(** ** The lowest liquidation time *)

Section LowestTime.
Context `{Persistence} `{!SubStates} `{!TrieLaws}.

Lemma notifications_app evs1 evs2 :
  notifications (evs1 ++ evs2)
  = (notifications evs1 + notifications evs2)%nat.
Proof.
  unfold notifications. rewrite List.filter_app, length_app. reflexivity.
Qed.

(** X7. [getLowestLiquidationTime] returns the least key of the
    liquidation-time trie, as a byte string, together with a list decoded
    from the leaf of that key and bound to [MarkLiquidationTimeDirty]; the
    list is stored in the live cache under the key, in place of whatever
    was cached there.  When the leftmost query fails or yields an empty key
    or value, or the value does not decode, it returns the empty hash and
    nil and changes nothing beyond opening the trie. *)
Theorem X7_lowest_liquidation_time_reloads_least_leaf :
  forall (self : addr) (d : Database), lowest_time_contract self d.
Proof.
  intros self d s t s1 evs0 Hopen k v err Q.
  unfold getLowestLiquidationTime.
  rewrite (bind_done _ _ _ _ _ _ Hopen), Q.
  destruct err as [e|].
  { split.
    - intros _. run. eexists. split; [reflexivity|].
      rewrite !notifications_app. cbn. apply Nat.add_0_r.
    - intros dat E. discriminate. }
  destruct (decide (length k = 0%nat \/ length v = 0%nat)) as [Hz|Hnz].
  { split.
    - intros _. run. eexists. split; [reflexivity|].
      rewrite !notifications_app. cbn. apply Nat.add_0_r.
    - intros dat _ Hk Hv.
      destruct Hz as [Hz|Hz]; apply nil_length_inv in Hz; contradiction. }
  assert (k <> [] /\ v <> []) as [Hk Hv].
  { split; intros ->; apply Hnz; auto. }
  destruct (rlpDecodeItemList v) as [dat|e] eqn:D.
  - split.
    + intros [Hc|[Hc|[Hc|[e He]]]]; congruence.
    + intros dat0 _ _ _ [= <-]. cbv zeta. run. rewrite app_nil_r.
      split; [reflexivity|].
      pose proof (bestLeft_value _ _ _ Q Hk) as Hval.
      split; [unfold present; rewrite Hval; exact Hv|].
      intros k' Hk'. exact (bestLeft_least _ _ _ _ Q Hk Hk').
  - split.
    + intros _. run. eexists. split; [reflexivity|].
      rewrite !notifications_app. cbn. apply Nat.add_0_r.
    + intros dat0 _ _ _ E. discriminate.
Qed.

End LowestTime.

(** ** What the lookups leave alone, and the memoised error *)

Section ReadsAndErrors.
Context `{Persistence} `{!SubStates}.

(** Case analysis on what a lookup inspects. *)
Ltac read_case :=
  match goal with
  | |- context [match rlpDecodeItemList ?o with _ => _ end] =>
      destruct (rlpDecodeItemList o)
  | |- context [match rlpDecodeLendingItem ?o with _ => _ end] =>
      destruct (rlpDecodeLendingItem o)
  | |- context [OpenStorageTrie ?a ?b ?c] =>
      destruct (OpenStorageTrie a b c) as [? ?]
  | |- context [TryGet ?t ?k] => destruct (TryGet t k) as [? ?]
  | |- context [TryGetBestLeftKeyAndValue ?t] =>
      destruct (TryGetBestLeftKeyAndValue t) as [[? ?] ?]
  | |- context [TryGetBestRightKeyAndValue ?t] =>
      destruct (TryGetBestRightKeyAndValue t) as [[? ?] ?]
  end.

Ltac marks_nothing_proof :=
  let st := fresh "st" in
  intros st a s' evs;
  destruct st as [lb dat sdb0 er it bt lt ltt lts ltd ivs ivd bs bd lis lid od];
  unfold openTrie, tryGetOn;
  repeat first
    [ progress (rewrite bind_run; simpl)
    | rewrite setError_run
    | progress simpl
    | read_case
    | flush_case ];
  try discriminate; intros [= <- <- <-];
  (split; [intros []; reflexivity|]);
  (split; [reflexivity|]); split; reflexivity.

Lemma openTrie_marks_nothing slot root what d :
  marks_nothing (openTrie slot root what d).
Proof. destruct slot; marks_nothing_proof. Qed.

(** X8. The lookups mark nothing: the four [get...Trie] methods, the four
    cached getters, the two best-rate queries and
    [getLowestLiquidationTime] leave the four dirty sets, the record and
    the owner callback as they were and do not call the owner callback,
    whatever the trie, the database and the codec answer. *)
Theorem X8_lookups_mark_nothing :
  forall (self : addr) (d : Database) (key : Hash),
    marks_nothing (getLendingItemTrie d)
    /\ marks_nothing (getInvestingTrie d)
    /\ marks_nothing (getBorrowingTrie d)
    /\ marks_nothing (getLiquidationTimeTrie d)
    /\ marks_nothing (getBorrowingOrderList self d key)
    /\ marks_nothing (getInvestingOrderList self d key)
    /\ marks_nothing (getLiquidationTimeOrderList self d key)
    /\ marks_nothing (getLendingItem self d key)
    /\ marks_nothing (getBestInvestingRate d)
    /\ marks_nothing (getBestBorrowingRate d)
    /\ marks_nothing (getLowestLiquidationTime self d).
Proof.
  intros self d key.
  split; [apply openTrie_marks_nothing|].
  split; [apply openTrie_marks_nothing|].
  split; [apply openTrie_marks_nothing|].
  split; [apply openTrie_marks_nothing|].
  split; [unfold getBorrowingOrderList, getBorrowingTrie;
          marks_nothing_proof|].
  split; [unfold getInvestingOrderList, getInvestingTrie;
          marks_nothing_proof|].
  split; [unfold getLiquidationTimeOrderList, getLiquidationTimeTrie;
          marks_nothing_proof|].
  split; [unfold getLendingItem, getLendingItemTrie; marks_nothing_proof|].
  split; [unfold getBestInvestingRate, getInvestingTrie;
          marks_nothing_proof|].
  split; [unfold getBestBorrowingRate, getBorrowingTrie;
          marks_nothing_proof|].
  unfold getLowestLiquidationTime, getLiquidationTimeTrie.
  marks_nothing_proof.
Qed.

(** *** The memoised error is kept *)

Ltac keeps_error_steps :=
  unfold openTrie, tryGetOn, commitTrie, readTrie, onTrie;
  repeat first
    [ progress (rewrite bind_run; simpl)
    | rewrite setError_run
    | rewrite notifyOwner_run
    | rewrite forEach_onleaf
    | progress simpl
    | read_case
    | match goal with
      | |- context [match rlpEncodeItemListState ?o with _ => _ end] =>
          destruct (rlpEncodeItemListState o)
      | |- context [Commit ?t] => destruct (Commit t) as [? [? ?]]
      end
    | flush_case ];
  try discriminate; intros [= <- <- <-]; reflexivity.

Ltac keeps_error_proof :=
  let st := fresh "st" in
  let Hrun := fresh "Hrun" in
  let He := fresh "He" in
  intros st a s' evs e Hrun He;
  destruct st as [lb dat sdb0 er it bt lt ltt lts ltd ivs ivd bs bd lis lid od];
  simpl in He; subst er; revert Hrun; keeps_error_steps.

Lemma openTrie_keeps_error slot root what d :
  keeps_error (openTrie slot root what d).
Proof. destruct slot; keeps_error_proof. Qed.

Lemma forEach_keeps {St A} (I : St -> Prop) (body : A -> M St unit) xs :
  (forall x s s' evs u, I s -> body x s = Done u s' evs -> I s') ->
  forall s s' evs u, I s -> forEach xs body s = Done u s' evs -> I s'.
Proof.
  intros Hbody. induction xs as [|x xs IH]; intros s s' evs u Hs Hrun.
  - simpl in Hrun. injection Hrun as _ <- _. exact Hs.
  - rewrite forEach_cons in Hrun.
    apply bind_inv in Hrun as (a & s1 & evs1 & evs2 & H1 & H2 & ->).
    exact (IH _ _ _ _ (Hbody _ _ _ _ _ Hs H1) H2).
Qed.

(** A flush keeps a memoised error: the opening does, and so does each visit
    of the loop. *)
Ltac flush_keeps_error_proof :=
  let Hrun := fresh "Hrun" in
  let He := fresh "He" in
  let H1 := fresh "Hopen" in
  let H2 := fresh "Hloop" in
  let H3 := fresh "Hret" in
  let He1 := fresh "He1" in
  let Hst := fresh "Hst" in
  intros s a s' evs e Hrun He;
  apply bind_inv in Hrun as (? & ? & ? & ? & H1 & Hrun & ->);
  apply bind_inv in Hrun as (? & ? & ? & ? & H2 & H3 & ->);
  pose proof (openTrie_keeps_error _ _ _ _ _ _ _ _ _ H1 He) as He1;
  rewrite bind_run in H3; simpl in H3; injection H3 as _ <- _;
  revert H2;
  apply (forEach_keeps (fun st => dbErr st = Some e)); [|exact He1];
  clear; intros x st st' evs u Hst;
  destruct st as [lb dat sdb0 er it bt lt ltt lts ltd ivs ivd bs bd lis lid od];
  simpl in Hst; subst er; keeps_error_steps.

Lemma updateLendingTimeTrie_keeps_error d order :
  keeps_error (updateLendingTimeTrie d order).
Proof. unfold updateLendingTimeTrie, getLendingItemTrie. flush_keeps_error_proof. Qed.

Lemma updateInvestingTrie_keeps_error d order :
  keeps_error (updateInvestingTrie d order).
Proof. unfold updateInvestingTrie, getInvestingTrie. flush_keeps_error_proof. Qed.

Lemma updateBorrowingTrie_keeps_error d order :
  keeps_error (updateBorrowingTrie d order).
Proof. unfold updateBorrowingTrie, getBorrowingTrie. flush_keeps_error_proof. Qed.

Lemma updateLiquidationTimeTrie_keeps_error d order :
  keeps_error (updateLiquidationTimeTrie d order).
Proof.
  unfold updateLiquidationTimeTrie, getLiquidationTimeTrie.
  flush_keeps_error_proof.
Qed.

(** What runs after a flush keeps the error the flush kept. *)
Ltac after_flush_keeps_error flush_keeps :=
  let Hrun := fresh "Hrun" in
  let He := fresh "He" in
  let H1 := fresh "Hflush" in
  let He1 := fresh "He1" in
  let st := fresh "st" in
  intros s a s' evs e Hrun He;
  apply bind_inv in Hrun as (? & st & ? & ? & H1 & Hrun & ->);
  pose proof (flush_keeps _ _ _ _ _ _ _ H1 He) as He1;
  destruct st as [lb dat sdb0 er it bt lt ltt lts ltd ivs ivd bs bd lis lid od];
  simpl in He1; subst er; revert Hrun; keeps_error_steps.

Lemma roots_keep_error d order :
  keeps_error (updateOrderRoot d order)
  /\ keeps_error (updateInvestingRoot d order)
  /\ keeps_error (updateBorrowingRoot d order)
  /\ keeps_error (updateLiquidationTimeRoot d order).
Proof.
  split; [unfold updateOrderRoot;
          after_flush_keeps_error updateLendingTimeTrie_keeps_error|].
  split; [unfold updateInvestingRoot;
          after_flush_keeps_error updateInvestingTrie_keeps_error|].
  split; [unfold updateBorrowingRoot;
          after_flush_keeps_error updateBorrowingTrie_keeps_error|].
  unfold updateLiquidationTimeRoot.
  after_flush_keeps_error updateLiquidationTimeTrie_keeps_error.
Qed.

Lemma commits_keep_error d order :
  keeps_error (CommitLendingItemTrie d order)
  /\ keeps_error (CommitInvestingTrie d order)
  /\ keeps_error (CommitBorrowingTrie d order)
  /\ keeps_error (CommitLiquidationTimeTrie d order).
Proof.
  split; [unfold CommitLendingItemTrie;
          after_flush_keeps_error updateLendingTimeTrie_keeps_error|].
  split; [unfold CommitInvestingTrie;
          after_flush_keeps_error updateInvestingTrie_keeps_error|].
  split; [unfold CommitBorrowingTrie;
          after_flush_keeps_error updateBorrowingTrie_keeps_error|].
  unfold CommitLiquidationTimeTrie.
  after_flush_keeps_error updateLiquidationTimeTrie_keeps_error.
Qed.

Lemma lookups_keep_error self d key :
  keeps_error (getBorrowingOrderList self d key)
  /\ keeps_error (getInvestingOrderList self d key)
  /\ keeps_error (getLiquidationTimeOrderList self d key)
  /\ keeps_error (getLendingItem self d key)
  /\ keeps_error (getBestInvestingRate d)
  /\ keeps_error (getBestBorrowingRate d)
  /\ keeps_error (getLowestLiquidationTime self d).
Proof.
  split; [unfold getBorrowingOrderList, getBorrowingTrie;
          keeps_error_proof|].
  split; [unfold getInvestingOrderList, getInvestingTrie;
          keeps_error_proof|].
  split; [unfold getLiquidationTimeOrderList, getLiquidationTimeTrie;
          keeps_error_proof|].
  split; [unfold getLendingItem, getLendingItemTrie; keeps_error_proof|].
  split; [unfold getBestInvestingRate, getInvestingTrie;
          keeps_error_proof|].
  split; [unfold getBestBorrowingRate, getBorrowingTrie;
          keeps_error_proof|].
  unfold getLowestLiquidationTime, getLiquidationTimeTrie.
  keeps_error_proof.
Qed.

Lemma perform_keeps_error self d op : keeps_error (perform self d op).
Proof.
  destruct op as [nonce|p|p|orderId order|time|[] key];
    unfold perform, markDirty, SetNonce, setNonce, createInvestingOrderList,
      createBorrowingOrderList, createLendingItem, createLiquidationTime,
      MarkBorrowingDirty, MarkInvestingDirty, MarkLendingItemDirty,
      MarkLiquidationTimeDirty;
    keeps_error_proof.
Qed.

Lemma removes_keep_error d o :
  keeps_error (removeInvestingOrderList d o)
  /\ keeps_error (removeBorrowingOrderList d o).
Proof.
  split; [unfold removeInvestingOrderList|unfold removeBorrowingOrderList];
    keeps_error_proof.
Qed.

(** X9. Once an error is memoised no method of the state replaces or clears
    it: the lookups, the four flushes, the four root updates, the four
    commits, the two removals and every mutating operation end, when they
    return, with the error they started with. *)
Theorem X9_memoised_error_is_kept :
  forall (self : addr) (d : Database) (order : list Hash) (key : Hash)
         (o : itemListState) (op : mutation),
    (keeps_error (getLendingItemTrie d)
     /\ keeps_error (getInvestingTrie d)
     /\ keeps_error (getBorrowingTrie d)
     /\ keeps_error (getLiquidationTimeTrie d))
    /\ (keeps_error (getBorrowingOrderList self d key)
        /\ keeps_error (getInvestingOrderList self d key)
        /\ keeps_error (getLiquidationTimeOrderList self d key)
        /\ keeps_error (getLendingItem self d key)
        /\ keeps_error (getBestInvestingRate d)
        /\ keeps_error (getBestBorrowingRate d)
        /\ keeps_error (getLowestLiquidationTime self d))
    /\ (keeps_error (updateLendingTimeTrie d order)
        /\ keeps_error (updateInvestingTrie d order)
        /\ keeps_error (updateBorrowingTrie d order)
        /\ keeps_error (updateLiquidationTimeTrie d order))
    /\ (keeps_error (updateOrderRoot d order)
        /\ keeps_error (updateInvestingRoot d order)
        /\ keeps_error (updateBorrowingRoot d order)
        /\ keeps_error (updateLiquidationTimeRoot d order))
    /\ (keeps_error (CommitLendingItemTrie d order)
        /\ keeps_error (CommitInvestingTrie d order)
        /\ keeps_error (CommitBorrowingTrie d order)
        /\ keeps_error (CommitLiquidationTimeTrie d order))
    /\ (keeps_error (removeInvestingOrderList d o)
        /\ keeps_error (removeBorrowingOrderList d o))
    /\ keeps_error (perform self d op).
Proof.
  intros self d order key o op.
  split; [split; [apply openTrie_keeps_error|];
          split; [apply openTrie_keeps_error|];
          split; apply openTrie_keeps_error|].
  split; [apply lookups_keep_error|].
  split; [split; [apply updateLendingTimeTrie_keeps_error|];
          split; [apply updateInvestingTrie_keeps_error|];
          split; [apply updateBorrowingTrie_keeps_error
                 |apply updateLiquidationTimeTrie_keeps_error]|].
  split; [apply roots_keep_error|].
  split; [apply commits_keep_error|].
  split; [apply removes_keep_error|].
  apply perform_keeps_error.
Qed.

End ReadsAndErrors.

(** ** Notifications, markers, copies and failed openings *)

Section Mutations.
Context `{Persistence} `{!SubStates}.

(** X10. Over any sequence of mutating operations that does not panic the
    owner callback is called at most once: exactly once when the state
    starts with a callback and the sequence holds an operation other than
    [createLiquidationTime], and not at all otherwise; the callback is
    cleared exactly when such an operation ran. *)
Theorem X10_owner_is_notified_at_most_once :
  forall (self : addr) (d : Database) (ops : list mutation)
         (s s' : lendingExchangeState),
    performAll self d ops s = Some s' ->
    totalNotifications self d ops s
    = (if existsb notifiesb ops
       then match onDirty s with Some _ => 1 | None => 0 end
       else 0)%nat
    /\ onDirty s' = (if existsb notifiesb ops then None else onDirty s).
Proof.
  intros self d ops. unfold totalNotifications.
  induction ops as [|op ops IH]; intros s s' Hall.
  - simpl in Hall. injection Hall as <-. split; reflexivity.
  - simpl in Hall |- *.
    destruct (perform self d op s) as [u s1 evs|msg] eqn:Hop;
      [|discriminate].
    destruct (IH _ _ Hall) as [Hn Hd]. simpl. rewrite Hn, Hd.
    destruct (notifiesb op) eqn:Hb.
    + assert (notifies_once op) as Hop1 by (destruct op; try exact I; discriminate).
      destruct (perform_notifies _ _ _ _ _ _ _ Hop1 Hop) as [-> ->].
      simpl. destruct (existsb notifiesb ops), (onDirty s); split; reflexivity.
    + destruct op; try discriminate.
      destruct (createLiquidationTime_silent _ _ _ _ _ _ _ Hop) as [-> ->].
      simpl. split; reflexivity.
Qed.

(** X11. Each of the four [Mark...Dirty] methods returns, adds its key to
    the dirty set of its own collection and to no other, leaves the record,
    the caches, the tries and the error slot alone, and is idempotent: a
    second call with the same key changes nothing and notifies nobody. *)
Theorem X11_marking_is_idempotent_and_local :
  forall (m : marker) (key : Hash) (s : lendingExchangeState),
    exists s1 evs,
      markDirty m key s = Done tt s1 evs
      /\ dirtyOf (markerSlot m) s1 = {[key]} ∪ dirtyOf (markerSlot m) s
      /\ (forall slot, slot <> markerSlot m ->
            dirtyOf slot s1 = dirtyOf slot s)
      /\ (forall slot, trieOf slot s1 = trieOf slot s
                       /\ same_cache slot s s1)
      /\ data s1 = data s
      /\ dbErr s1 = dbErr s
      /\ onDirty s1 = None
      /\ markDirty m key s1 = Done tt s1 [].
Proof.
  intros m key s.
  destruct s as [lb dat sdb0 er it bt lt ltt lts ltd ivs ivd bs bd lis lid [cb|]];
    destruct m; unfold markDirty, MarkBorrowingDirty, MarkInvestingDirty,
      MarkLendingItemDirty, MarkLiquidationTimeDirty, notifyOwner;
    run;
    do 2 eexists; (split; [reflexivity|]); simpl;
    (split; [reflexivity|]);
    (split; [intros [] Hne; try reflexivity; congruence|]);
    (split; [intros []; split; reflexivity|]);
    (split; [reflexivity|]); (split; [reflexivity|]);
    (split; [reflexivity|]);
    simpl; run;
    unfold set_borrowingStatesDirty, set_investingStatesDirty,
      set_lendingItemStatesDirty, set_liquidationTimestatesDirty,
      set_onDirty; simpl; f_equal; f_equal; set_solver.
Qed.

(** X12. [deepCopy] hands back a state without a memoised error, with the
    owner callback it is given, the record, the dirty sets and the keys of
    the four caches of the original, and clones of the investing,
    borrowing and lending tries that are open.  The liquidation-time trie
    is not carried over: the copy opens it again from the database at the
    root of the record, whatever handle the original holds. *)
Theorem X12_copy_reopens_the_liquidation_time_trie :
  forall (self : addr) (sdb : LendingStateDB) (cb : option ownerCallback)
         (d : Database) (s : lendingExchangeState),
    dbErr (deepCopy self sdb cb s) = None
    /\ onDirty (deepCopy self sdb cb s) = cb
    /\ data (deepCopy self sdb cb s) = data s
    /\ (forall slot,
          dirtyOf slot (deepCopy self sdb cb s) = dirtyOf slot s
          /\ cachedKeys slot (deepCopy self sdb cb s) = cachedKeys slot s)
    /\ (forall slot, slot <> LiquidationTimeSlot ->
          trieOf slot (deepCopy self sdb cb s)
          = CopyTrie (sdb_db sdb) <$> trieOf slot s)
    /\ (forall t1,
          OpenStorageTrie d (lendingBook s) (LiquidationTimeRoot (data s))
          = (t1, None) ->
          exists c,
            getLiquidationTimeTrie d (deepCopy self sdb cb s)
            = Done t1 c []
            /\ trieOf LiquidationTimeSlot c = t1).
Proof.
  intros self sdb cb d s.
  split; [reflexivity|]. split; [reflexivity|]. split; [reflexivity|].
  split; [intros []; (split; [reflexivity|]); simpl; apply dom_fmap_L|].
  split; [intros [] Hne; try reflexivity; congruence|].
  intros t1 Hopen.
  destruct (openTrie_lazily LiquidationTimeSlot LiquidationTimeRoot
              "can't create bids trie: " d (deepCopy self sdb cb s))
    as (_ & Hok & _).
  destruct (Hok eq_refl t1 Hopen) as (c & Hrun & Ht & _).
  exists c. split; [exact Hrun|exact Ht].
Qed.

(** A flush run before and after its trie is opened gives the same
    outcome. *)
Lemma flush_after_open slot root what d (s s1 : lendingExchangeState) r t
    (rest : X (option Trie)) :
  openTrie slot root what d s = Done r s1 [] ->
  trieOf slot s1 = Some t ->
  (openTrie slot root what d ≫= fun _ => rest) s
  = (openTrie slot root what d ≫= fun _ => rest) s1.
Proof.
  intros Hopen Ht.
  destruct (openTrie_lazily slot root what d s1) as (Hopened & _).
  rewrite (bind_done _ _ _ _ _ _ Hopen).
  rewrite (bind_done _ _ _ _ _ _ (Hopened _ Ht)). reflexivity.
Qed.

Lemma poisons_of slot root what
    (flush : Database -> list Hash -> X (option Trie))
    (commit : Database -> list Hash -> X (option error)) :
  (forall d order s s1 r t,
     openTrie slot root what d s = Done r s1 [] ->
     trieOf slot s1 = Some t ->
     flush d order s = flush d order s1) ->
  flush_total slot flush ->
  flush_contract slot flush ->
  (forall d order, keeps_error (flush d order)) ->
  (forall d order, fails_closed root (flush d order) (commit d order)) ->
  open_failure_poisons slot root what commit.
Proof.
  intros Hsame Htotal Hflushes Hkeeps Hclosed d order s t0 e t'
    Hnil Hclean Hdb Hempty.
  destruct (openTrie_lazily slot root what d s) as (_ & _ & Hfail & _).
  destruct (Hfail Hnil t0 e Hdb) as (s1 & Hopen & Ht & He & Hmem).
  rewrite Hempty in Hopen, Ht. rewrite Hclean in He. simpl in He.
  destruct (Htotal d order s1 t' Ht) as (t'' & s2 & Hrun).
  rewrite <- (Hsame d order s s1 _ _ Hopen Ht) in Hrun.
  pose proof (Hkeeps d order) as Hk. unfold keeps_error in Hk.
  assert (dbErr s2 = Some (String.append what e)) as He2.
  { rewrite (Hsame d order s s1 _ _ Hopen Ht) in Hrun.
    exact (Hk _ _ _ _ _ Hrun He). }
  destruct (Hclosed d order s _ s2 [] _ Hrun He2) as (Hcommit & _ & _).
  exists s2. split; [exact Hcommit|]. split; [exact He2|].
  destruct (Hflushes _ _ _ _ _ _ Hrun) as (_ & _ & _ & _ & _ & Hd & _).
  exact Hd.
Qed.

(** X13. When the trie of a collection cannot be opened at the root of the
    record, the commit of that collection opens the empty trie in its
    place and returns the failure, memoised under the message of the
    collection; the record is left as it was. *)
Theorem X13_failed_open_fails_the_commit :
  open_failure_poisons LendingSlot LendingItemRoot
    "can't create Lendings trie: " CommitLendingItemTrie
  /\ open_failure_poisons InvestingSlot InvestingRoot
       "can't create Lendings trie: " CommitInvestingTrie
  /\ open_failure_poisons BorrowingSlot BorrowingRoot
       "can't create bids trie: " CommitBorrowingTrie
  /\ open_failure_poisons LiquidationTimeSlot LiquidationTimeRoot
       "can't create bids trie: " CommitLiquidationTimeTrie.
Proof.
  split; [|split; [|split]].
  - apply (poisons_of _ _ _ updateLendingTimeTrie).
    + intros; eapply flush_after_open; eassumption.
    + apply updateLendingTimeTrie_total.
    + apply updateLendingTimeTrie_flushes.
    + apply updateLendingTimeTrie_keeps_error.
    + apply CommitLendingItemTrie_fails_closed.
  - apply (poisons_of _ _ _ updateInvestingTrie).
    + intros; eapply flush_after_open; eassumption.
    + apply updateInvestingTrie_total.
    + apply updateInvestingTrie_flushes.
    + apply updateInvestingTrie_keeps_error.
    + apply CommitInvestingTrie_fails_closed.
  - apply (poisons_of _ _ _ updateBorrowingTrie).
    + intros; eapply flush_after_open; eassumption.
    + apply updateBorrowingTrie_total.
    + apply updateBorrowingTrie_flushes.
    + apply updateBorrowingTrie_keeps_error.
    + apply CommitBorrowingTrie_fails_closed.
  - apply (poisons_of _ _ _ updateLiquidationTimeTrie).
    + intros; eapply flush_after_open; eassumption.
    + apply updateLiquidationTimeTrie_total.
    + apply updateLiquidationTimeTrie_flushes.
    + apply updateLiquidationTimeTrie_keeps_error.
    + apply CommitLiquidationTimeTrie_fails_closed.
Qed.

End Mutations.

(** ** What a flush writes, and flushes after creations *)

Section Creations.
Context `{Persistence} `{!SubStates}.

Lemma elem_of_added (p : Hash) (D : gset Hash) : p ∈ {[p]} ∪ D.
Proof. set_solver. Qed.










(** X16. [createLiquidationTime] puts the new list into the
    liquidation-time cache but its key into the dirty set of the lending
    items: on a state whose liquidation-time dirty set is empty, the
    liquidation-time flush that follows, in any order of visit, changes
    nothing, so the created list does not reach the trie. *)
Theorem X16_created_liquidation_time_is_not_flushed :
  forall (self : addr) (d : Database) (time : Hash) (order : list Hash)
         (s : lendingExchangeState) (t : Trie),
    trieOf LiquidationTimeSlot s = Some t ->
    dirtyOf LiquidationTimeSlot s = ∅ ->
    exists newobj s1,
      createLiquidationTime self d time s = Done newobj s1 []
      /\ liquidationTimeStates s1 !! time = Some newobj
      /\ time ∈ dirtyOf LendingSlot s1
      /\ dirtyOf LiquidationTimeSlot s1 = ∅
      /\ updateLiquidationTimeTrie d order s1 = Done (Some t) s1 [].
Proof.
  intros self d time order s t Ht Hclean.
  destruct s as [lb dat sdb0 er it bt lt ltt lts ltd ivs ivd bs bd lis lid od].
  simpl in Ht, Hclean. subst.
  unfold createLiquidationTime. run.
  do 2 eexists. split; [reflexivity|]. simpl.
  split; [apply lookup_insert_eq|].
  split; [apply elem_of_added|].
  split; [reflexivity|].
  apply updateLiquidationTimeTrie_noop; [reflexivity|].
  simpl. apply intersection_empty_l_L.
Qed.

End Creations.

(** ** The properties on the scenarios *)

Import Scenario.
#[local] Existing Instance Ref.persistence.
#[local] Existing Instance Ref.subStates.


(** An item created under the identifier 7 for an order whose [OrderID] is 5
    is cached under 5; 7 stays uncached. *)
Lemma C10_witness :
  (7 <> BigToHash (OrderID order5)
   /\ lendingItemStates opened !! 7 = None
   /\ OrderID order5 < 2 ^ 64)
  /\ exists s' evs,
       createLendingItem 0%nat database 7 order5 opened
       = Done (newLendinItemState (lendingBook opened) 7 order5
                 (Some {| cb_recv := 0%nat; cb_method := LendingItemMarker |}))
              s' evs
       /\ lendingItemStates s' !! 7 = None
       /\ BigToHash (OrderID order5) = 5.
Proof.
  split; [split; [vm_compute; discriminate|split; reflexivity]|].
  destruct (@C10_createLendingItem_keyed_by_OrderID Ref.persistence
              Ref.subStates 0%nat database 7 order5 opened) as (s' & evs & Hrun & _ & _ & _ & _ & Hmiss & Hkey).
  exists s', evs. split; [exact Hrun|]. split.
  - apply Hmiss; [vm_compute; discriminate|reflexivity].
  - apply Hkey. reflexivity.
Defined.


(** [createLendingItem] leaves the lending trie without the encoding of the
    item it created. *)
Lemma C4_counterexample :
  ~ written_through LendingSlot lendingItemStates lendingItemStatesDirty 5
      (encoded (rlpEncodeLendingItemState createdItem5))
      (createLendingItem 0%nat database 5 order5 opened).
Proof. vm_compute. intros (_ & _ & E). discriminate E. Qed.

(** Creating the investing list of rate 30 in the opened order book. *)
Lemma C4_witness :
  (rlpEncodeItemListState created30 = inl (Ref.encodeItemList itemList_zero)
   /\ trieOf InvestingSlot opened = Some oneRate)
  /\ exists s' evs,
       createInvestingOrderList 0%nat database 30 opened
       = Done created30 s' evs
       /\ investingStates s' = <[30 := created30]> (investingStates opened)
       /\ investingStatesDirty s' = {[30]} ∪ investingStatesDirty opened
       /\ trieOf InvestingSlot s'
          = Some (TryUpdate oneRate (hashBytes 30)
                    (Ref.encodeItemList itemList_zero)).1
       /\ (forall slot', slot' <> InvestingSlot ->
             trieOf slot' s' = trieOf slot' opened).
Proof.
  split; [split; vm_compute; reflexivity|].
  apply (proj2 (proj1 (@C4_creations_cache_and_mark_only_lists_write_through
                         Ref.persistence Ref.subStates 0%nat database)
                  30 opened));
    vm_compute; reflexivity.
Defined.

(** The order book whose investing root is lost refuses to commit. *)
Lemma C3_witness :
  (updateInvestingTrie database [] lost
   = Done (Some []) lostFlushed []
   /\ dbErr lostFlushed
      = Some "can't create Lendings trie: missing trie node")
  /\ CommitInvestingTrie database [] lost
     = Done (Some "can't create Lendings trie: missing trie node")
         lostFlushed []
  /\ InvestingRoot (data lostFlushed)
     = InvestingRoot (data lost)
  /\ List.filter is_TrieCommit [] = [].
Proof.
  split; [split; vm_compute; reflexivity|].
  apply (proj1 (proj2 (@C3_commit_fails_closed_on_memoised_error
                         Ref.persistence Ref.subStates database []))
           lost (Some [])); vm_compute; reflexivity.
Defined.

(** Loading the investing list of rate 10 from the trie. *)
Lemma C7_witness :
  (investingStates fresh !! 10 = None
   /\ getInvestingTrie database fresh
      = Done (Some oneRate) freshInvesting []
   /\ TryGet oneRate (hashBytes 10) = (Ref.encodeItemList list5, None)
   /\ Ref.encodeItemList list5 <> []
   /\ rlpDecodeItemList (Ref.encodeItemList list5) = inl list5)
  /\ getInvestingOrderList 0%nat database 10 fresh
     = Done (Some loaded10)
         (set_investingStates
            (<[10 := loaded10]>
               (investingStates freshInvesting))
            freshInvesting)
         [].
Proof.
  split;
    [split; [reflexivity|split; [vm_compute; reflexivity|
     split; [vm_compute; reflexivity|split; [vm_compute; discriminate|
     vm_compute; reflexivity]]]]|].
  apply (proj2 (proj2 (proj2 (proj1
           (@C7_lookups_prefer_live_objects_and_degrade_to_absence
              Ref.persistence Ref.subStates 0%nat database) 10 fresh)
           oneRate freshInvesting []
           ltac:(reflexivity) ltac:(vm_compute; reflexivity)))
           (Ref.encodeItemList list5) None list5);
    [vm_compute; reflexivity|vm_compute; discriminate|vm_compute; reflexivity].
Defined.



(** C1 (the code departs from it). The investing list of rate 10 is loaded
    with [getInvestingOrderList] and changed: its key lands in the borrowing
    dirty set and the investing dirty set stays empty; [updateInvestingRoot]
    then leaves the leaf of rate 10 as it was although the live list
    differs, and the borrowing marker stays.  A liquidation list loaded with
    [getLiquidationTimeOrderList] and changed lands in the investing dirty
    set and not in the liquidation-time one. *)
Theorem C1_loaded_lists_mark_the_wrong_dirty_set :
  at_addr 0%nat (fun s => elements (investingStatesDirty s))
    (investingChanged heap0) = Some []
  /\ at_addr 0%nat (fun s => elements (borrowingStatesDirty s))
       (investingChanged heap0) = Some [10]
  /\ at_addr 0%nat (fun s => il_data <$> investingStates s !! 10)
       (investingFlushed heap0) = Some (Some list9)
  /\ at_addr 0%nat
       (fun s => (fun t => (TryGet t (hashBytes 10)).1) <$> investingTrie s)
       (investingFlushed heap0) = Some (Some (Ref.encodeItemList list5))
  /\ at_addr 0%nat (fun s => elements (borrowingStatesDirty s))
       (investingFlushed heap0) = Some [10]
  /\ at_addr 0%nat (fun s => elements (investingStatesDirty s))
       (liquidationChanged heap0) = Some [10]
  /\ at_addr 0%nat (fun s => elements (liquidationTimestatesDirty s))
       (liquidationChanged heap0) = Some [].
Proof.
  split; [|split; [|split; [|split; [|split; [|split]]]]];
    vm_compute; reflexivity.
Qed.

(** C2 (the code departs from it). The borrowing list of rate 10 is loaded
    and the state at address 0 is copied to address 1: the list of the copy
    is bound to the dirty marker of the original.  Changing the list of the
    copy puts its key into the borrowing dirty set of the original and
    consumes the owner callback of the original, while the dirty set and the
    owner callback of the copy stay as they were. *)
Theorem C2_changing_the_copy_marks_the_original :
  at_addr 1%nat (fun s => il_onDirty <$> borrowingStates s !! 10)
    (copied heap0)
  = Some (Some (Some {| cb_recv := 0%nat; cb_method := BorrowingMarker |}))
  /\ at_addr 0%nat (fun s => elements (borrowingStatesDirty s))
       (copied heap0) = Some []
  /\ at_addr 0%nat onDirty (copied heap0) = Some (Some 1%nat)
  /\ at_addr 0%nat (fun s => elements (borrowingStatesDirty s))
       (copyChanged heap0) = Some [10]
  /\ at_addr 0%nat onDirty (copyChanged heap0) = Some None
  /\ events_of (copyChanged heap0) = [OnDirty 1%nat book]
  /\ at_addr 1%nat (fun s => elements (borrowingStatesDirty s))
       (copyChanged heap0) = Some []
  /\ at_addr 1%nat onDirty (copyChanged heap0) = Some (Some 2%nat).
Proof.
  split; [|split; [|split; [|split; [|split; [|split; [|split]]]]]];
    vm_compute; reflexivity.
Qed.

(** C6 (the code departs from it). On a state whose owner callback is set,
    [createLiquidationTime] followed by [SetNonce] calls the callback zero
    times in the first operation and once in the second; after
    [createLiquidationTime] alone the callback is still set. *)
Theorem C6_createLiquidationTime_does_not_notify :
  notificationsPerStep 0%nat database
    [DoCreateLiquidationTime 30; DoSetNonce 1] fresh = [0%nat; 1%nat]
  /\ notificationsPerStep 0%nat database [DoCreateLiquidationTime 30] fresh
     = [0%nat]
  /\ onDirty (after (perform 0%nat database (DoCreateLiquidationTime 30))
                fresh) = Some 1%nat.
Proof. split; [|split]; vm_compute; reflexivity. Qed.

(** ** The further properties on the scenarios *)

(** Decide a closed equation by evaluating both sides. *)
Ltac by_evaluation :=
  lazymatch goal with
  | |- ?l = ?r => exact (@eq_refl _ r <: l = r)
  end.

(** The investing root of [lost] is unknown to the database: the empty trie
    is opened in its place and the failure is memoised. *)
Lemma X1_witness :
  (trieOf InvestingSlot lost = None
   /\ OpenStorageTrie database (lendingBook lost) (InvestingRoot (data lost))
      = (None, Some "missing trie node"))
  /\ exists s',
       getInvestingTrie database lost
       = Done (OpenStorageTrie database (lendingBook lost) EmptyHash).1 s' []
       /\ trieOf InvestingSlot s'
          = (OpenStorageTrie database (lendingBook lost) EmptyHash).1
       /\ dbErr s'
          = firstError
              [dbErr lost;
               Some (String.append "can't create Lendings trie: "
                       "missing trie node")]
       /\ same_memory InvestingSlot lost s'.
Proof.
  split; [split; by_evaluation|].
  apply (proj1 (proj2 (proj2
           (proj1 (proj2 (@X1_tries_open_lazily_with_empty_fallback
                            Ref.persistence))
              database lost)))
           ltac:(by_evaluation) None "missing trie node"
           ltac:(by_evaluation)).
Defined.

(** Flushing [pending] in the order 10, 20 clears rate 10, which is cached,
    and leaves rate 20, which is not, in the dirty set. *)
Lemma X2_witness :
  updateInvestingTrie database [10; 20] pending
  = Done (Some rewritten) pendingFlushed []
  /\ ([] = ([] : list event)
      /\ Some rewritten = trieOf InvestingSlot pendingFlushed
      /\ flushed InvestingSlot [10; 20] pending pendingFlushed).
Proof.
  split; [by_evaluation|].
  apply (proj1 (proj2 (@X2_flush_clears_cached_dirty_keys_only
                         Ref.persistence Ref.subStates))
           database [10; 20] pending (Some rewritten) pendingFlushed []).
  by_evaluation.
Defined.

(** Nothing is dirty in [opened]: its investing flush changes nothing. *)
Lemma X3_witness :
  (trieOf InvestingSlot opened = Some oneRate
   /\ dirtyOf InvestingSlot opened ∩ cachedKeys InvestingSlot opened = ∅)
  /\ updateInvestingTrie database [10; 20] opened
     = Done (Some oneRate) opened [].
Proof.
  split; [split; by_evaluation|].
  apply (proj1 (proj2 (proj1 (@X3_flush_without_dirty_keys_is_a_noop
                                Ref.persistence Ref.subStates)))
           database [10; 20] opened oneRate);
    by_evaluation.
Defined.

(** The investing flush of [pending] returns. *)
Lemma X4_witness :
  trieOf InvestingSlot pending = Some oneRate
  /\ exists t' s',
       updateInvestingTrie database [10; 20] pending = Done (Some t') s' [].
Proof.
  split; [by_evaluation|].
  apply (proj1 (proj2 (@X4_flush_with_open_trie_does_not_panic
                         Ref.persistence Ref.subStates))
           database [10; 20] pending oneRate).
  by_evaluation.
Defined.

(** The order book whose investing root is lost: [updateInvestingRoot]
    returns the memoised error and leaves the record alone. *)
Lemma X5_witness :
  (updateInvestingTrie database [] lost = Done (Some []) lostFlushed []
   /\ dbErr lostFlushed
      = Some "can't create Lendings trie: missing trie node")
  /\ updateInvestingRoot database [] lost
     = Done (Some "can't create Lendings trie: missing trie node")
         lostFlushed []
  /\ data lostFlushed = data lost.
Proof.
  split; [split; by_evaluation|].
  apply (proj1 (proj2 (proj2 (proj2 (@X5_update_roots_store_the_trie_hash
                                       Ref.persistence Ref.subStates)))
                  database [] lost (Some []) lostFlushed []
                  ltac:(by_evaluation))).
  by_evaluation.
Defined.

(** Committing the investing trie of [pending] writes the changed list and
    stores the committed root. *)
Lemma X6_witness :
  (updateInvestingTrie database [10; 20] pending
   = Done (Some rewritten) pendingFlushed []
   /\ dbErr pendingFlushed = None
   /\ trieOf InvestingSlot pendingFlushed = Some rewritten)
  /\ exists s2,
       CommitInvestingTrie database [10; 20] pending
       = Done (Commit rewritten).2.2 s2
           (TrieCommit InvestingSlot
            :: flat_map (fun lp => onleaf lp.1 lp.2) (CommitLeaves rewritten))
       /\ trieOf InvestingSlot s2 = Some (Commit rewritten).1
       /\ dbErr s2 = None
       /\ data s2
          = match (Commit rewritten).2.2 with
            | None => set_InvestingRoot (Commit rewritten).2.1 (data pending)
            | Some _ => data pending
            end
       /\ onDirty s2 = onDirty pendingFlushed
       /\ (forall slot',
             dirtyOf slot' s2 = dirtyOf slot' pendingFlushed
             /\ same_cache slot' pendingFlushed s2)
       /\ (forall slot', slot' <> InvestingSlot ->
             trieOf slot' s2 = trieOf slot' pendingFlushed).
Proof.
  split;
    [split; [by_evaluation|split; by_evaluation]|].
  apply (proj1 (@X6_commit_stores_root_only_on_success
                  Ref.persistence Ref.subStates)
           database [10; 20] pending (Some rewritten) pendingFlushed []
           rewritten);
    by_evaluation.
Defined.

(** The liquidation-time trie of [fresh] holds one leaf, at time 10: it is
    the lowest, and its list is loaded into the cache. *)
Lemma X7_witness :
  (getLiquidationTimeTrie database fresh
   = Done (Some oneRate) freshLiquidation []
   /\ TryGetBestLeftKeyAndValue oneRate
      = (hashBytes 10, Ref.encodeItemList list5, None)
   /\ hashBytes 10 <> []
   /\ Ref.encodeItemList list5 <> []
   /\ rlpDecodeItemList (Ref.encodeItemList list5) = inl list5)
  /\ getLowestLiquidationTime 0%nat database fresh
     = Done (BytesToHash (hashBytes 10),
             Some (newLiquidationTimeState (db freshLiquidation)
                     (lendingBook freshLiquidation)
                     (BytesToHash (hashBytes 10)) list5
                     (Some {| cb_recv := 0%nat;
                              cb_method := LiquidationTimeMarker |})))
         (set_liquidationTimeStates
            (<[BytesToHash (hashBytes 10) :=
                 newLiquidationTimeState (db freshLiquidation)
                   (lendingBook freshLiquidation)
                   (BytesToHash (hashBytes 10)) list5
                   (Some {| cb_recv := 0%nat;
                            cb_method := LiquidationTimeMarker |})]>
               (liquidationTimeStates freshLiquidation))
            freshLiquidation) []
  /\ present oneRate (hashBytes 10)
  /\ (forall k', present oneRate k' -> bytes_le (hashBytes 10) k').
Proof.
  split;
    [split; [by_evaluation|split; [by_evaluation|
     split; [vm_compute; discriminate|split; [vm_compute; discriminate|
     by_evaluation]]]]|].
  apply (proj2 (@X7_lowest_liquidation_time_reloads_least_leaf
                  Ref.persistence Ref.subStates Ref_laws 0%nat database
                  fresh oneRate freshLiquidation []
                  ltac:(by_evaluation)
                  (hashBytes 10) (Ref.encodeItemList list5) None
                  ltac:(by_evaluation))
           list5 eq_refl ltac:(vm_compute; discriminate)
           ltac:(vm_compute; discriminate) ltac:(by_evaluation)).
Defined.

(** Loading the investing list of rate 10 into [fresh] marks nothing. *)
Lemma X8_witness :
  getInvestingOrderList 0%nat database 10 fresh
  = Done (Some loaded10) freshLoaded []
  /\ ((forall slot, dirtyOf slot freshLoaded = dirtyOf slot fresh)
      /\ data freshLoaded = data fresh
      /\ onDirty freshLoaded = onDirty fresh
      /\ notifications [] = 0%nat).
Proof.
  split; [by_evaluation|].
  apply (proj1 (proj2 (proj2 (proj2 (proj2 (proj2
           (@X8_lookups_mark_nothing Ref.persistence Ref.subStates
              0%nat database 10))))))
           fresh (Some loaded10) freshLoaded []).
  by_evaluation.
Defined.

(** The error memoised in [lostFlushed] survives a commit. *)
Lemma X9_witness :
  (CommitInvestingTrie database [] lostFlushed
   = Done (Some "can't create Lendings trie: missing trie node")
       lostFlushed []
   /\ dbErr lostFlushed
      = Some "can't create Lendings trie: missing trie node")
  /\ dbErr lostFlushed
     = Some "can't create Lendings trie: missing trie node".
Proof.
  split; [split; by_evaluation|].
  apply (proj1 (proj2 (proj1 (proj2 (proj2 (proj2 (proj2
           (@X9_memoised_error_is_kept Ref.persistence Ref.subStates
              0%nat database [] 10 obj10 (DoSetNonce 1))))))))
           lostFlushed
           (Some "can't create Lendings trie: missing trie node")
           lostFlushed []);
    by_evaluation.
Defined.

(** [createLiquidationTime], then [SetNonce], then a marker: the owner is
    notified once, by the second operation. *)
Lemma X10_witness :
  performAll 0%nat database threeOps fresh = Some afterThreeOps
  /\ totalNotifications 0%nat database threeOps fresh
     = (if existsb notifiesb threeOps
        then match onDirty fresh with Some _ => 1 | None => 0 end
        else 0)%nat
  /\ onDirty afterThreeOps
     = (if existsb notifiesb threeOps then None else onDirty fresh).
Proof.
  split; [by_evaluation|].
  apply (@X10_owner_is_notified_at_most_once Ref.persistence Ref.subStates
           0%nat database threeOps fresh afterThreeOps).
  by_evaluation.
Defined.

(** A copy of [opened] opens its liquidation-time trie again from the
    database. *)
Lemma X12_witness :
  OpenStorageTrie database (lendingBook opened)
    (LiquidationTimeRoot (data opened)) = (Some oneRate, None)
  /\ exists c,
       getLiquidationTimeTrie database
         (deepCopy 0%nat stateDB (Some 2%nat) opened)
       = Done (Some oneRate) c []
       /\ trieOf LiquidationTimeSlot c = Some oneRate.
Proof.
  split; [by_evaluation|].
  apply (proj2 (proj2 (proj2 (proj2 (proj2
           (@X12_copy_reopens_the_liquidation_time_trie
              Ref.persistence
              0%nat stateDB (Some 2%nat) database opened)))))
           (Some oneRate)).
  by_evaluation.
Defined.

(** The order book whose investing root is lost cannot commit its investing
    trie, whatever keys the flush visits. *)
Lemma X13_witness :
  (trieOf InvestingSlot lost = None
   /\ dbErr lost = None
   /\ OpenStorageTrie database (lendingBook lost) (InvestingRoot (data lost))
      = (None, Some "missing trie node")
   /\ (OpenStorageTrie database (lendingBook lost) EmptyHash).1 = Some [])
  /\ exists s',
       CommitInvestingTrie database [10] lost
       = Done (Some (String.append "can't create Lendings trie: "
                       "missing trie node")) s' []
       /\ dbErr s'
          = Some (String.append "can't create Lendings trie: "
                    "missing trie node")
       /\ data s' = data lost.
Proof.
  split;
    [split; [by_evaluation|split; [by_evaluation|
     split; by_evaluation]]|].
  apply (proj1 (proj2 (@X13_failed_open_fails_the_commit
                         Ref.persistence Ref.subStates))
           database [10] lost None "missing trie node" []);
    by_evaluation.
Defined.



(** The liquidation time created for 30 in [opened] is not written by the
    liquidation-time flush. *)
Lemma X16_witness :
  (trieOf LiquidationTimeSlot opened = Some oneRate
   /\ dirtyOf LiquidationTimeSlot opened = ∅)
  /\ exists newobj s1,
       createLiquidationTime 0%nat database 30 opened = Done newobj s1 []
       /\ liquidationTimeStates s1 !! 30 = Some newobj
       /\ 30 ∈ dirtyOf LendingSlot s1
       /\ dirtyOf LiquidationTimeSlot s1 = ∅
       /\ updateLiquidationTimeTrie database [30] s1
          = Done (Some oneRate) s1 [].
Proof.
  split; [split; by_evaluation|].
  apply (@X16_created_liquidation_time_is_not_flushed
           Ref.persistence Ref.subStates
           0%nat database 30 [30] opened oneRate);
    by_evaluation.
Defined.
